(** * Clinic management backend: authentication and referential integrity

    A shallow embedding of [auth.py], [models.py], [database.py] and the
    request handlers of [main.py], with the properties the specification
    states about them.

    Conventions of the embedding:
    - a Python [str] is a Rocq [string] holding its UTF-8 bytes, so that
      [s.encode('utf-8')] and [b.decode('utf-8')] are the identity;
    - a Python [int] is a [Z]; a [datetime] is the number of microseconds
      since the epoch and a [timedelta] a number of microseconds, both [Z];
    - [None] is [None]: every attribute that can hold it is an [option];
    - a raised exception is the [Raise] case of [result];
    - the libraries the code calls (bcrypt, python-jose, SQLAlchemy over
      SQLite, the response validation of FastAPI) are modelled by what
      they document, as far as the handlers depend on it; the
      cryptographic cores stay abstract;
    - an id is looked up as the integer it is; the [sqlite3] driver only
      binds integers of 64 bits, the ones rows hold, and the statements
      about ids that no row holds say that they take such an id. *)

From Stdlib Require Import ZArith List String Ascii Bool Lia.
From stdpp Require Import base option list gmap strings pretty.

Open Scope string_scope.
Open Scope Z_scope.

(** ** Exceptions and results *)

(** [fastapi.HTTPException(status_code, detail, headers)]. *)
Record HTTPException := mkHTTPException {
  status_code : Z;
  detail : string;
  headers : list (string * string)
}.

(** The exception classes of [jose.exceptions]: [JWTError] and its two
    subclasses. *)
Inductive JWTError :=
| JWTError_ (msg : string)
| ExpiredSignatureError (msg : string)
| JWTClaimsError (msg : string).

(** The exceptions that cross a function boundary in the modelled code.
    [ResponseValidationError] lists the fields of the response model
    that the returned object does not fill. *)
Inductive exn :=
| HTTP (e : HTTPException)
| JWT (e : JWTError)
| ValueError (msg : string)
| TypeError (msg : string)
| OverflowError (msg : string)
| IntegrityError (orig : string)
| StaleDataError (msg : string)
| ResponseValidationError (fields : list string).

Inductive result (A : Type) :=
| Ok (a : A)
| Raise (e : exn).
Arguments Ok {A} a.
Arguments Raise {A} e.

#[global] Instance HTTPException_eq_dec : EqDecision HTTPException.
Proof. solve_decision. Defined.
#[global] Instance JWTError_eq_dec : EqDecision JWTError.
Proof. solve_decision. Defined.
#[global] Instance exn_eq_dec : EqDecision exn.
Proof. solve_decision. Defined.

Set Warnings "-register-all".

#[global] Instance result_ret : MRet result := fun _ a => Ok a.

#[global] Instance result_bind : MBind result := fun _ _ k r =>
  match r with
  | Ok a => k a
  | Raise e => Raise e
  end.

#[global] Instance result_fmap : FMap result := fun _ _ f r =>
  match r with
  | Ok a => Ok (f a)
  | Raise e => Raise e
  end.

Definition is_ok {A} (r : result A) : bool :=
  match r with Ok _ => true | Raise _ => false end.

Definition HTTP_400_BAD_REQUEST : Z := 400.
Definition HTTP_401_UNAUTHORIZED : Z := 401.
Definition HTTP_403_FORBIDDEN : Z := 403.
Definition HTTP_404_NOT_FOUND : Z := 404.
Definition HTTP_500_INTERNAL_SERVER_ERROR : Z := 500.

(** ** Strings *)

Definition str_eqb (a b : string) : bool := bool_decide (a = b).

Definition lower_ascii (c : ascii) : ascii :=
  let n := N_of_ascii c in
  if ((65 <=? n) && (n <=? 90))%N then ascii_of_N (n + 32) else c.

(** [s.lower()] on ASCII text. *)
Fixpoint lower (s : string) : string :=
  match s with
  | EmptyString => EmptyString
  | String c r => String (lower_ascii c) (lower r)
  end.

(** [needle in hay]. *)
Fixpoint contains (needle hay : string) : bool :=
  String.prefix needle hay ||
  match hay with
  | EmptyString => false
  | String _ r => contains needle r
  end.

(** [s.split(sep)] for a one-character separator: always at least one
    piece, empty pieces kept. *)
Fixpoint split_on (sep : ascii) (s : string) : list string :=
  match s with
  | EmptyString => [EmptyString]
  | String c r =>
      if Ascii.eqb c sep then EmptyString :: split_on sep r
      else match split_on sep r with
           | [] => [String c EmptyString]
           | w :: ws => String c w :: ws
           end
  end.

Definition nonempty (s : string) : bool :=
  match s with EmptyString => false | _ => true end.

Fixpoint all_chars (p : ascii -> bool) (s : string) : bool :=
  match s with
  | EmptyString => true
  | String c r => p c && all_chars p r
  end.

Definition is_digit (c : ascii) : bool :=
  let n := N_of_ascii c in ((48 <=? n) && (n <=? 57))%N.

Fixpoint digits_value (acc : Z) (s : string) : Z :=
  match s with
  | EmptyString => acc
  | String c r => digits_value (10 * acc + (Z.of_N (N_of_ascii c) - 48)) r
  end.

(** A non-empty run of ASCII digits read in base ten. *)
Definition parse_digits (s : string) : option Z :=
  if nonempty s && all_chars is_digit s then Some (digits_value 0 s) else None.

(** ** bcrypt

    The [bcrypt] package, as far as [hash_password] and [verify_password]
    use it.  The expensive key schedule stays abstract. *)

Module Bcrypt.

Definition alphabet : list ascii :=
  list_ascii_of_string
    "./ABCDEFGHIJKLMNOPQRSTUVWXYZabcdefghijklmnopqrstuvwxyz0123456789".

Definition is_b64 (c : ascii) : bool :=
  existsb (Ascii.eqb c) alphabet.

Definition b64_char (n : N) : ascii :=
  nth (N.to_nat (n mod 64)) alphabet "."%char.

(** The value of a character of the alphabet: its position. *)
Fixpoint index_of (c : ascii) (l : list ascii) : N :=
  match l with
  | [] => 0
  | x :: r => if Ascii.eqb c x then 0 else 1 + index_of c r
  end%N.

Definition b64_value (c : ascii) : N := index_of c alphabet.

(** Bytes cut into six-bit groups, three bytes to four groups; the last
    group is filled up with zero bits. *)
Fixpoint groups (bytes : list N) : list N :=
  match bytes with
  | a :: b :: c :: r =>
      a / 4 :: (a mod 4) * 16 + b / 16 :: (b mod 16) * 4 + c / 64
        :: c mod 64 :: groups r
  | [a; b] => [a / 4; (a mod 4) * 16 + b / 16; (b mod 16) * 4]
  | [a] => [a / 4; (a mod 4) * 16]
  | [] => []
  end%N.

(** Sixteen bytes take 21 characters and the two high bits of a 22nd.
    The decoder refuses a salt whose last character has any of its four
    low bits set. *)
Definition no_trailing_bits (salt22 : string) : bool :=
  match String.get 21 salt22 with
  | Some c => (b64_value c mod 16 =? 0)%N
  | None => false
  end.

(** The first [len] six-bit groups of [l] in bcrypt's base-64 alphabet,
    missing groups read as zero. *)
Fixpoint encode (len : nat) (l : list N) : string :=
  match len with
  | O => EmptyString
  | S k => String (b64_char (hd 0%N l)) (encode k (tl l))
  end.

Definition versions : list string := ["2y"; "2b"; "2a"; "2x"].

(** Decimal [u32] as Rust's [str::parse] reads it: an optional [+], then
    digits, the value below [2^32]. *)
Definition parse_cost (s : string) : option Z :=
  let body := match s with
              | String "+"%char r => r
              | _ => s
              end in
  match parse_digits body with
  | Some n => if n <? 2 ^ 32 then Some n else None
  | None => None
  end.

(** Two-digit, zero-padded cost ([{:02}]). *)
Definition format_cost (n : Z) : string :=
  if n <? 10 then "0" +:+ pretty n else pretty n.

Definition invalid_salt {A} : result A := Raise (ValueError "Invalid salt").

Definition too_long {A} : result A :=
  Raise (ValueError
    "password cannot be longer than 72 bytes, truncate manually if necessary (e.g. my_password[:72])").

Section Core.

(** The Eksblowfish computation: from the key bytes (at most 72), the
    cost and the encoded 22-character salt to the 23-byte digest, given
    as its 31 six-bit groups. *)
Variable eksblowfish : string -> Z -> string -> list N.

(** The package pins no version of bcrypt.  Up to 4.x a password longer
    than 72 bytes is cut to its first 72 bytes; from 5.0 on it is refused
    with a [ValueError].  [reject_long] selects the second behaviour. *)
Variable reject_long : bool.

(** [bcrypt.hashpw(password, salt)].  [salt] is a whole salt string
    [$2b$12$<22 characters>], possibly followed by a digest, as when
    [checkpw] passes a stored hash.  The salt is decoded to its sixteen
    bytes and encoded again for the result; it is kept in its encoded
    form here, since on the salts the decoder accepts the two steps
    undo each other. *)
Definition hashpw (password salt : string) : result string :=
  if reject_long && (72 <? String.length password)%nat then too_long
  else
    let key := String.substring 0 72 password in
    match List.filter nonempty (split_on "$" salt) with
    | [version; cost; rest] =>
        if negb (bool_decide (version ∈ versions)) then invalid_salt
        else
          match parse_cost cost with
          | None => invalid_salt
          | Some c =>
              let salt22 := String.substring 0 22 rest in
              if (String.length rest <? 22)%nat then invalid_salt
              else if negb (all_chars is_b64 salt22) then invalid_salt
              else if negb (no_trailing_bits salt22) then invalid_salt
              else if (c <? 4) || (31 <? c) then invalid_salt
              else
                Ok ("$" +:+ version +:+ "$" +:+ format_cost c +:+ "$"
                    +:+ salt22 +:+ encode 31 (eksblowfish key c salt22))
          end
    | _ => invalid_salt
    end.

(** [bcrypt.checkpw(password, hashed_password)]: hash again with the
    stored hash as salt and compare the two strings. *)
Definition checkpw (password hashed_password : string) : result bool :=
  match hashpw password hashed_password with
  | Ok h => Ok (str_eqb h hashed_password)
  | Raise e => Raise e
  end.

End Core.

(** The sixteen bytes [os.urandom(16)] returned, read off [entropy];
    missing bytes read as zero. *)
Definition salt_bytes (entropy : list N) : list N :=
  map (fun i => (nth i entropy 0 mod 256)%N) (seq 0 16).

Definition encode_salt (entropy : list N) : string :=
  encode 22 (groups (salt_bytes entropy)).

(** [bcrypt.gensalt()]: prefix [2b], twelve rounds, sixteen random bytes
    shown as 22 characters. *)
Definition gensalt (entropy : list N) : string :=
  "$2b$12$" +:+ encode_salt entropy.

End Bcrypt.

(** ** python-jose

    [jose.jwt] with HMAC signatures.  The signature is symbolic: the MAC of
    a payload under a key is a term that only the same algorithm, key and
    payload produce again. *)

Module Jose.

(** A value of a claims dictionary handed to [jwt.encode]. *)
Inductive pyval :=
| PStr (s : string)
| PInt (z : Z)
| PDatetime (microseconds : Z).

(** A Python [float]: [mantissa * 2 ^ exponent], an infinity or a NaN. *)
Inductive pyfloat :=
| Finite (mantissa exponent : Z)
| Infinity (negative : bool)
| NaN.

(** A value of a decoded payload: whatever [json.loads] returns. *)
Inductive jval :=
| JNull
| JBool (b : bool)
| JInt (z : Z)
| JFloat (f : pyfloat)
| JStr (s : string)
| JList (items : list jval)
| JObj (members : list (string * jval)).

#[global] Instance pyval_eq_dec : EqDecision pyval.
Proof. solve_decision. Defined.
#[global] Instance pyfloat_eq_dec : EqDecision pyfloat.
Proof. solve_decision. Defined.

Fixpoint jval_eq (a b : jval) {struct a} : {a = b} + {a <> b}.
Proof.
  decide equality;
    try solve [apply string_dec | apply Z.eq_dec | apply Bool.bool_dec
              | apply pyfloat_eq_dec | apply (List.list_eq_dec jval_eq)].
  apply List.list_eq_dec. intros [k v] [k' v'].
  destruct (string_dec k k') as [->|]; [|right; congruence].
  destruct (jval_eq v v') as [->|]; [left; reflexivity | right; congruence].
Defined.

#[global] Instance jval_eq_dec : EqDecision jval := jval_eq.

Inductive signature :=
| HMAC (alg key : string) (payload : gmap string jval).

#[global] Instance signature_eq_dec : EqDecision signature.
Proof. solve_decision. Defined.

(** A token string: either three segments that decode to a header naming
    [alg], a JSON object and a signature, or anything else. *)
Inductive token :=
| Opaque (s : string)
| Compact (alg : string) (payload : gmap string jval) (sig : signature).

(** [payload.get(key)]: [None] when the key is missing and when its value
    is JSON's [null]. *)
Definition get (payload : gmap string jval) (key : string) : option jval :=
  match payload !! key with
  | Some JNull => None
  | v => v
  end.

(** [calendar.timegm(dt.utctimetuple())]: whole seconds, the microseconds
    dropped. *)
Definition timegm (microseconds : Z) : Z := microseconds / 1000000.

Definition time_claims : list string := ["exp"; "iat"; "nbf"].

(** What [jwt.encode] and [json.dumps] make of one claim: a [datetime] in
    a time claim becomes its [timegm], anywhere else it cannot be
    serialised. *)
Definition to_json (k : string) (v : pyval) : option jval :=
  match v with
  | PStr s => Some (JStr s)
  | PInt z => Some (JInt z)
  | PDatetime t =>
      if bool_decide (k ∈ time_claims) then Some (JInt (timegm t)) else None
  end.

Definition serialisable (claims : gmap string pyval) : bool :=
  bool_decide (map_Forall (fun k v => is_Some (to_json k v)) claims).

(** [jwt.encode(claims, key, algorithm)]. *)
Definition encode (claims : gmap string pyval) (key algorithm : string)
  : result token :=
  if serialisable claims then
    let payload := map_imap to_json claims in
    Ok (Compact algorithm payload (HMAC algorithm key payload))
  else Raise (TypeError "Object of type datetime is not JSON serializable").

(** *** [int(v)] *)

Definition is_space (c : ascii) : bool :=
  let n := N_of_ascii c in
  ((9 <=? n) && (n <=? 13) || (28 <=? n) && (n <=? 32))%N.

Fixpoint lstrip (s : string) : string :=
  match s with
  | String c r => if is_space c then lstrip r else s
  | EmptyString => EmptyString
  end.

Fixpoint rstrip (s : string) : string :=
  match s with
  | String c r =>
      match rstrip r with
      | EmptyString => if is_space c then EmptyString else String c EmptyString
      | r' => String c r'
      end
  | EmptyString => EmptyString
  end.

(** Digits with single underscores between them; the underscores are
    dropped. *)
Fixpoint digit_groups (after_digit : bool) (s : string) : option string :=
  match s with
  | EmptyString => if after_digit then Some EmptyString else None
  | String c r =>
      if is_digit c then String c <$> digit_groups true r
      else if Ascii.eqb c "_" && after_digit then digit_groups false r
      else None
  end.

(** [int(s)] for ASCII text: white space around, an optional sign, then
    the digits. *)
Definition int_of_str (s : string) : option Z :=
  match rstrip (lstrip s) with
  | String "-"%char r => (fun d => - digits_value 0 d) <$> digit_groups false r
  | String "+"%char r => digits_value 0 <$> digit_groups false r
  | body => digits_value 0 <$> digit_groups false body
  end.

(** [int(f)] rounds towards zero. *)
Definition trunc (mantissa exponent : Z) : Z :=
  if 0 <=? exponent then mantissa * 2 ^ exponent
  else Z.quot mantissa (2 ^ (- exponent)).

Definition not_a_number {A} (type : string) : result A :=
  Raise (TypeError
    ("int() argument must be a string, a bytes-like object or a real number, not '"
     +:+ type +:+ "'")).

(** [int(v)] for a claim value.  What is no number and no text raises
    [TypeError], an infinite float [OverflowError]; only [ValueError] is
    what the validators below expect. *)
Definition int_of (v : jval) : result Z :=
  match v with
  | JInt z => Ok z
  | JBool b => Ok (if b then 1 else 0)
  | JFloat (Finite m e) => Ok (trunc m e)
  | JFloat (Infinity _) =>
      Raise (OverflowError "cannot convert float infinity to integer")
  | JFloat NaN => Raise (ValueError "cannot convert float NaN to integer")
  | JStr s =>
      match int_of_str s with
      | Some z => Ok z
      | None => Raise (ValueError "invalid literal for int() with base 10")
      end
  | JNull => not_a_number "NoneType"
  | JList _ => not_a_number "list"
  | JObj _ => not_a_number "dict"
  end.

(** [try: int(v) except ValueError: raise JWTClaimsError(msg)]. *)
Definition claimed_int (v : jval) (msg : string) : result Z :=
  match int_of v with
  | Raise (ValueError _) => Raise (JWT (JWTClaimsError msg))
  | r => r
  end.

Definition is_str (v : jval) : bool :=
  match v with JStr _ => true | _ => false end.

Definition validate_iat (claims : gmap string jval) : result unit :=
  match claims !! "iat" with
  | None => Ok tt
  | Some v =>
      claimed_int v "Issued At claim (iat) must be an integer.";;
      Ok tt
  end.

Definition validate_nbf (now : Z) (claims : gmap string jval) : result unit :=
  match claims !! "nbf" with
  | None => Ok tt
  | Some v =>
      nbf ← claimed_int v "Not Before claim (nbf) must be an integer.";
      if timegm now <? nbf then
        Raise (JWT (JWTClaimsError "The token is not yet valid (nbf)"))
      else Ok tt
  end.

(** The token has expired when its [exp] lies before the current whole
    second. *)
Definition validate_exp (now : Z) (claims : gmap string jval) : result unit :=
  match claims !! "exp" with
  | None => Ok tt
  | Some v =>
      exp ← claimed_int v "Expiration Time claim (exp) must be an integer.";
      if exp <? timegm now then
        Raise (JWT (ExpiredSignatureError "Signature has expired."))
      else Ok tt
  end.

(** No audience is passed to [decode], so a token that names one is
    refused. *)
Definition validate_aud (claims : gmap string jval) : result unit :=
  match claims !! "aud" with
  | None => Ok tt
  | Some v =>
      let audience_claims :=
        match v with
        | JStr _ => Some [v]
        | JList items => Some items
        | _ => None
        end in
      match audience_claims with
      | None => Raise (JWT (JWTClaimsError "Invalid claim format in token"))
      | Some items =>
          if existsb (fun c => negb (is_str c)) items then
            Raise (JWT (JWTClaimsError "Invalid claim format in token"))
          else Raise (JWT (JWTClaimsError "Invalid audience"))
      end
  end.

Definition validate_sub (claims : gmap string jval) : result unit :=
  match claims !! "sub" with
  | None => Ok tt
  | Some v =>
      if negb (is_str v) then
        Raise (JWT (JWTClaimsError "Subject must be a string."))
      else Ok tt
  end.

Definition validate_jti (claims : gmap string jval) : result unit :=
  match claims !! "jti" with
  | None => Ok tt
  | Some v =>
      if negb (is_str v) then
        Raise (JWT (JWTClaimsError "JWT ID must be a string."))
      else Ok tt
  end.

Definition validate_at_hash (claims : gmap string jval) : result unit :=
  match claims !! "at_hash" with
  | None => Ok tt
  | Some _ =>
      Raise (JWT (JWTClaimsError
                    "No access_token provided to compare against at_hash claim."))
  end.

Definition validate_claims (now : Z) (claims : gmap string jval)
  : result unit :=
  validate_iat claims;;
  validate_nbf now claims;;
  validate_exp now claims;;
  validate_aud claims;;
  validate_sub claims;;
  validate_jti claims;;
  validate_at_hash claims.

(** [jwt.decode(token, key, algorithms=...)] at clock reading [now]. *)
Definition decode (now : Z) (tok : token) (key : string)
    (algorithms : list string) : result (gmap string jval) :=
  match tok with
  | Opaque _ => Raise (JWT (JWTError_ "Error decoding token headers."))
  | Compact alg payload sig =>
      if negb (bool_decide (alg ∈ algorithms)) then
        Raise (JWT (JWTError_ "The specified alg value is not allowed"))
      else if negb (bool_decide (sig = HMAC alg key payload)) then
        Raise (JWT (JWTError_ "Signature verification failed."))
      else
        validate_claims now payload;;
        Ok payload
  end.

End Jose.

(** ** models.py

    One record per mapped class, one field per column.  An object that has
    not been flushed yet has no primary key. *)

Module Clinic.
Record row := mk {
  clinic_id : option Z;
  clinic_name : option string;
  address : option string;
  mobile : option string;
  status : option string;
  created_at : option Z;
  updated_at : option Z
}.
End Clinic.

Module Doctor.
Record row := mk {
  doctor_id : option Z;
  doctor_name : option string;
  mobile : option string;
  email : option string;
  address : option string;
  specialization : option string;
  status : option string;
  clinic_id : option Z;
  created_at : option Z;
  updated_at : option Z
}.
End Doctor.

Module Patient.
Record row := mk {
  patient_id : option Z;
  patient_name : option string;
  mobile : option string;
  age : option Z;
  gender : option string;
  status : option string;
  clinic_id : option Z;
  doctor_id : option Z;
  doctor_name : option string;
  created_at : option Z;
  updated_at : option Z
}.
End Patient.

Module PatientConsultation.
Record row := mk {
  consultation_id : option Z;
  is_primary : option bool;
  consultation_date : option Z;
  status : option string;
  clinic_id : option Z;
  patient_id : option Z;
  doctor_id : option Z;
  created_at : option Z;
  updated_at : option Z
}.
End PatientConsultation.

Module User.
Record row := mk {
  user_id : option Z;
  username : option string;
  email : option string;
  hashed_password : option string;
  full_name : option string;
  role : option string;
  is_active : option bool;
  created_at : option Z;
  updated_at : option Z
}.
End User.

#[global] Instance Clinic_eq_dec : EqDecision Clinic.row.
Proof. solve_decision. Defined.
#[global] Instance Doctor_eq_dec : EqDecision Doctor.row.
Proof. solve_decision. Defined.
#[global] Instance Patient_eq_dec : EqDecision Patient.row.
Proof. solve_decision. Defined.
#[global] Instance PatientConsultation_eq_dec : EqDecision PatientConsultation.row.
Proof. solve_decision. Defined.
#[global] Instance User_eq_dec : EqDecision User.row.
Proof. solve_decision. Defined.

(** ** schemas.py *)

Record ClinicCreate := {
  cc_clinic_name : string;
  cc_address : string;
  cc_mobile : string;
  cc_status : string
}.

(** An update schema after [model_dump(exclude_unset=True)]: a field is
    absent ([None]), or present with a value that may be [None]. *)
Record ClinicUpdate := {
  cu_clinic_name : option (option string);
  cu_address : option (option string);
  cu_mobile : option (option string);
  cu_status : option (option string)
}.

Record DoctorCreate := {
  dc_doctor_name : string;
  dc_mobile : string;
  dc_email : string;
  dc_address : string;
  dc_specialization : string;
  dc_status : string
}.

Record DoctorUpdate := {
  du_doctor_name : option (option string);
  du_mobile : option (option string);
  du_email : option (option string);
  du_address : option (option string);
  du_specialization : option (option string);
  du_status : option (option string)
}.

Record PatientCreate := {
  pc_patient_name : string;
  pc_mobile : string;
  pc_age : Z;
  pc_gender : string;
  pc_status : string;
  pc_doctor_id : Z;
  pc_doctor_name : string
}.

Record PatientUpdate := {
  pu_patient_name : option (option string);
  pu_mobile : option (option string);
  pu_age : option (option Z);
  pu_gender : option (option string);
  pu_status : option (option string);
  pu_doctor_id : option (option Z);
  pu_doctor_name : option (option string)
}.

Record PatientConsultationCreate := {
  pcc_is_primary : bool;
  pcc_consultation_date : Z;
  pcc_status : string
}.

Record UserCreate := {
  uc_username : string;
  uc_email : string;
  uc_full_name : option string;
  uc_password : string
}.

(** [setattr(obj, key, value)] for a key of the update dictionary: the
    attribute takes the value when the key is present. *)
Definition setattr {A} (field : option A) (update : option (option A))
  : option A :=
  match update with
  | Some v => v
  | None => field
  end.

(** ** The database

    The five tables, each in rowid order.  A query without [order_by]
    returns rows in that order. *)

Record Store := mkStore {
  clinics : list Clinic.row;
  doctors : list Doctor.row;
  patients : list Patient.row;
  patients_consultations : list PatientConsultation.row;
  users : list User.row
}.

#[global] Instance Store_eq_dec : EqDecision Store.
Proof. solve_decision. Defined.

Definition empty_store : Store := mkStore [] [] [] [] [].

(** A mapped object of any class. *)
Inductive entity :=
| AClinic (r : Clinic.row)
| ADoctor (r : Doctor.row)
| APatient (r : Patient.row)
| AConsultation (r : PatientConsultation.row)
| AUser (r : User.row).

(** The unit of work: objects added, objects whose attributes were set,
    objects marked for deletion. *)
Inductive change :=
| New (e : entity)
| Dirty (e : entity)
| Deleted (e : entity).

#[global] Instance entity_eq_dec : EqDecision entity.
Proof. solve_decision. Defined.
#[global] Instance change_eq_dec : EqDecision change.
Proof. solve_decision. Defined.

(** A [Session]: the database as committed and the changes not yet
    flushed.  [autoflush] is off, so queries read [database] only. *)
Record Session := mkSession {
  database : Store;
  pending : list change
}.

#[global] Instance Session_eq_dec : EqDecision Session.
Proof. solve_decision. Defined.

(** [query.filter(...).first()], [.all()] and [.count()]. *)
Definition first {A} (p : A -> bool) (rows : list A) : option A :=
  List.find p rows.

Definition all {A} (p : A -> bool) (rows : list A) : list A :=
  List.filter p rows.

Definition count {A} (p : A -> bool) (rows : list A) : Z :=
  Z.of_nat (List.length (List.filter p rows)).

(** [column == value] *)
Definition eqv {A} `{EqDecision A} (column : option A) (value : A) : bool :=
  bool_decide (column = Some value).

(** The rowid a new row gets: one more than the largest in the table. *)
Definition next_id (keys : list (option Z)) : Z :=
  1 + fold_right (fun k acc => Z.max (default 0 k) acc) 0 keys.

(** *** Constraints, with SQLite's messages *)

Definition not_null {A} (column : string) (v : option A) : result unit :=
  match v with
  | Some _ => Ok tt
  | None => Raise (IntegrityError ("NOT NULL constraint failed: " +:+ column))
  end.

(** A [UNIQUE] column: no other row holds the same value; NULLs never
    collide. *)
Definition unique {R} (column : string) (others : list R)
    (get : R -> option string) (v : option string) : result unit :=
  match v with
  | None => Ok tt
  | Some x =>
      if existsb (fun r => eqv (get r) x) others
      then Raise (IntegrityError ("UNIQUE constraint failed: " +:+ column))
      else Ok tt
  end.

(** A foreign key, checked only when the connection enables them. *)
Definition references {R} (foreign_keys : bool) (parents : list R)
    (key : R -> option Z) (v : option Z) : result unit :=
  match v with
  | None => Ok tt
  | Some x =>
      if foreign_keys && negb (existsb (fun r => eqv (key r) x) parents)
      then Raise (IntegrityError "FOREIGN KEY constraint failed")
      else Ok tt
  end.

(** On deleting a parent the ORM first sets the foreign key of every
    child to NULL; the column is [nullable=False], so any child makes the
    flush fail. *)
Definition no_children {R} (column : string) (children : list R)
    (fk : R -> option Z) (parent : option Z) : result unit :=
  if existsb (fun r => bool_decide (fk r = parent)) children
  then Raise (IntegrityError ("NOT NULL constraint failed: " +:+ column))
  else Ok tt.

Definition others {R} (key : R -> option Z) (id : option Z) (rows : list R)
  : list R :=
  List.filter (fun r => negb (bool_decide (key r = id))) rows.

Definition replace {R} (key : R -> option Z) (new : R) (rows : list R)
  : list R :=
  List.map (fun r => if bool_decide (key r = key new) then new else r) rows.

(** *** Flushing the unit of work *)

Section Flush.

(** Whether the connection runs [PRAGMA foreign_keys = ON]; SQLite
    leaves it off unless asked, and [database.py] does not ask. *)
Variable foreign_keys : bool.

(** The order in which SQLite meets the two unique indexes of [doctors],
    and so which of them it names when a row violates both.  It is the
    order in which [create_all] made them, fixed for a database file;
    SQLAlchemy keeps the indexes of a table in a set, so it differs from
    one database file to the next. *)
Variable email_first : bool.

(** The clock reading of the statement, for [func.now()]. *)
Variable now : Z.

Definition check_clinic (s : Store) (r : Clinic.row) : result unit :=
  not_null "clinics.clinic_name" (Clinic.clinic_name r);;
  not_null "clinics.mobile" (Clinic.mobile r);;
  unique "clinics.mobile"
    (others Clinic.clinic_id (Clinic.clinic_id r) (clinics s))
    Clinic.mobile (Clinic.mobile r).

Definition check_doctor (s : Store) (r : Doctor.row) : result unit :=
  not_null "doctors.doctor_name" (Doctor.doctor_name r);;
  not_null "doctors.mobile" (Doctor.mobile r);;
  not_null "doctors.clinic_id" (Doctor.clinic_id r);;
  let by_mobile :=
    unique "doctors.mobile"
      (others Doctor.doctor_id (Doctor.doctor_id r) (doctors s))
      Doctor.mobile (Doctor.mobile r) in
  let by_email :=
    unique "doctors.email"
      (others Doctor.doctor_id (Doctor.doctor_id r) (doctors s))
      Doctor.email (Doctor.email r) in
  (if email_first then by_email;; by_mobile else by_mobile;; by_email);;
  references foreign_keys (clinics s) Clinic.clinic_id (Doctor.clinic_id r).

Definition check_patient (s : Store) (r : Patient.row) : result unit :=
  not_null "patients.patient_name" (Patient.patient_name r);;
  not_null "patients.mobile" (Patient.mobile r);;
  not_null "patients.clinic_id" (Patient.clinic_id r);;
  not_null "patients.doctor_id" (Patient.doctor_id r);;
  not_null "patients.doctor_name" (Patient.doctor_name r);;
  unique "patients.mobile"
    (others Patient.patient_id (Patient.patient_id r) (patients s))
    Patient.mobile (Patient.mobile r);;
  references foreign_keys (clinics s) Clinic.clinic_id (Patient.clinic_id r);;
  references foreign_keys (doctors s) Doctor.doctor_id (Patient.doctor_id r).

Definition check_consultation (s : Store) (r : PatientConsultation.row)
  : result unit :=
  not_null "patients_consultations.clinic_id"
    (PatientConsultation.clinic_id r);;
  not_null "patients_consultations.patient_id"
    (PatientConsultation.patient_id r);;
  not_null "patients_consultations.doctor_id"
    (PatientConsultation.doctor_id r);;
  references foreign_keys (clinics s) Clinic.clinic_id
    (PatientConsultation.clinic_id r);;
  references foreign_keys (patients s) Patient.patient_id
    (PatientConsultation.patient_id r);;
  references foreign_keys (doctors s) Doctor.doctor_id
    (PatientConsultation.doctor_id r).

Definition check_user (s : Store) (r : User.row) : result unit :=
  not_null "users.username" (User.username r);;
  not_null "users.email" (User.email r);;
  not_null "users.hashed_password" (User.hashed_password r);;
  unique "users.email"
    (others User.user_id (User.user_id r) (users s))
    User.email (User.email r).

(** [INSERT]: the row gets the next rowid and its server defaults. *)
Definition insert (s : Store) (e : entity) : result (Store * entity) :=
  match e with
  | AClinic r =>
      check_clinic s r;;
      let r' :=
        Clinic.mk (Some (next_id (map Clinic.clinic_id (clinics s))))
          (Clinic.clinic_name r) (Clinic.address r) (Clinic.mobile r)
          (Clinic.status r) (Some now) (Clinic.updated_at r) in
      Ok (mkStore (clinics s ++ [r']) (doctors s) (patients s)
            (patients_consultations s) (users s), AClinic r')
  | ADoctor r =>
      check_doctor s r;;
      let r' :=
        Doctor.mk (Some (next_id (map Doctor.doctor_id (doctors s))))
          (Doctor.doctor_name r) (Doctor.mobile r) (Doctor.email r)
          (Doctor.address r) (Doctor.specialization r) (Doctor.status r)
          (Doctor.clinic_id r) (Some now) (Doctor.updated_at r) in
      Ok (mkStore (clinics s) (doctors s ++ [r']) (patients s)
            (patients_consultations s) (users s), ADoctor r')
  | APatient r =>
      check_patient s r;;
      let r' :=
        Patient.mk (Some (next_id (map Patient.patient_id (patients s))))
          (Patient.patient_name r) (Patient.mobile r) (Patient.age r)
          (Patient.gender r) (Patient.status r) (Patient.clinic_id r)
          (Patient.doctor_id r) (Patient.doctor_name r) (Some now)
          (Patient.updated_at r) in
      Ok (mkStore (clinics s) (doctors s) (patients s ++ [r'])
            (patients_consultations s) (users s), APatient r')
  | AConsultation r =>
      check_consultation s r;;
      let r' :=
        PatientConsultation.mk
          (Some (next_id (map PatientConsultation.consultation_id
                            (patients_consultations s))))
          (PatientConsultation.is_primary r)
          (PatientConsultation.consultation_date r)
          (PatientConsultation.status r)
          (PatientConsultation.clinic_id r)
          (PatientConsultation.patient_id r)
          (PatientConsultation.doctor_id r) (Some now)
          (PatientConsultation.updated_at r) in
      Ok (mkStore (clinics s) (doctors s) (patients s)
            (patients_consultations s ++ [r']) (users s), AConsultation r')
  | AUser r =>
      check_user s r;;
      let r' :=
        User.mk (Some (next_id (map User.user_id (users s))))
          (User.username r) (User.email r) (User.hashed_password r)
          (User.full_name r)
          (Some (default "user" (User.role r)))
          (Some (default true (User.is_active r)))
          (Some now) (User.updated_at r) in
      Ok (mkStore (clinics s) (doctors s) (patients s)
            (patients_consultations s) (users s ++ [r']), AUser r')
  end.

Definition stale {A} : result A :=
  Raise (StaleDataError
           "UPDATE statement expected to match 1 row(s); 0 were matched.").

(** [UPDATE] of an object whose attributes were set: nothing is
    written when no attribute changed; otherwise the row is checked,
    stamped by [onupdate] and replaced. *)
Definition update (s : Store) (e : entity) : result (Store * entity) :=
  match e with
  | AClinic r =>
      match first (fun x => bool_decide (Clinic.clinic_id x = Clinic.clinic_id r))
              (clinics s) with
      | None => stale
      | Some old =>
          if bool_decide (r = old) then Ok (s, e)
          else
            check_clinic s r;;
            let r' :=
              Clinic.mk (Clinic.clinic_id r) (Clinic.clinic_name r)
                (Clinic.address r) (Clinic.mobile r) (Clinic.status r)
                (Clinic.created_at r) (Some now) in
            Ok (mkStore (replace Clinic.clinic_id r' (clinics s)) (doctors s)
                  (patients s) (patients_consultations s) (users s),
                AClinic r')
      end
  | ADoctor r =>
      match first (fun x => bool_decide (Doctor.doctor_id x = Doctor.doctor_id r))
              (doctors s) with
      | None => stale
      | Some old =>
          if bool_decide (r = old) then Ok (s, e)
          else
            check_doctor s r;;
            let r' :=
              Doctor.mk (Doctor.doctor_id r) (Doctor.doctor_name r)
                (Doctor.mobile r) (Doctor.email r) (Doctor.address r)
                (Doctor.specialization r) (Doctor.status r)
                (Doctor.clinic_id r) (Doctor.created_at r) (Some now) in
            Ok (mkStore (clinics s) (replace Doctor.doctor_id r' (doctors s))
                  (patients s) (patients_consultations s) (users s),
                ADoctor r')
      end
  | APatient r =>
      match first (fun x => bool_decide (Patient.patient_id x = Patient.patient_id r))
              (patients s) with
      | None => stale
      | Some old =>
          if bool_decide (r = old) then Ok (s, e)
          else
            check_patient s r;;
            let r' :=
              Patient.mk (Patient.patient_id r) (Patient.patient_name r)
                (Patient.mobile r) (Patient.age r) (Patient.gender r)
                (Patient.status r) (Patient.clinic_id r)
                (Patient.doctor_id r) (Patient.doctor_name r)
                (Patient.created_at r) (Some now) in
            Ok (mkStore (clinics s) (doctors s)
                  (replace Patient.patient_id r' (patients s))
                  (patients_consultations s) (users s),
                APatient r')
      end
  | AConsultation _ | AUser _ => Ok (s, e)
  end.

(** [DELETE] through the ORM. *)
Definition delete (s : Store) (e : entity) : result (Store * entity) :=
  match e with
  | AClinic r =>
      no_children "doctors.clinic_id" (doctors s) Doctor.clinic_id
        (Clinic.clinic_id r);;
      no_children "patients.clinic_id" (patients s) Patient.clinic_id
        (Clinic.clinic_id r);;
      no_children "patients_consultations.clinic_id"
        (patients_consultations s) PatientConsultation.clinic_id
        (Clinic.clinic_id r);;
      Ok (mkStore (others Clinic.clinic_id (Clinic.clinic_id r) (clinics s))
            (doctors s) (patients s) (patients_consultations s) (users s), e)
  | ADoctor r =>
      no_children "patients.doctor_id" (patients s) Patient.doctor_id
        (Doctor.doctor_id r);;
      no_children "patients_consultations.doctor_id"
        (patients_consultations s) PatientConsultation.doctor_id
        (Doctor.doctor_id r);;
      Ok (mkStore (clinics s)
            (others Doctor.doctor_id (Doctor.doctor_id r) (doctors s))
            (patients s) (patients_consultations s) (users s), e)
  | APatient r =>
      no_children "patients_consultations.patient_id"
        (patients_consultations s) PatientConsultation.patient_id
        (Patient.patient_id r);;
      Ok (mkStore (clinics s) (doctors s)
            (others Patient.patient_id (Patient.patient_id r) (patients s))
            (patients_consultations s) (users s), e)
  | AConsultation r =>
      Ok (mkStore (clinics s) (doctors s) (patients s)
            (others PatientConsultation.consultation_id
               (PatientConsultation.consultation_id r)
               (patients_consultations s))
            (users s), e)
  | AUser r =>
      Ok (mkStore (clinics s) (doctors s) (patients s)
            (patients_consultations s)
            (others User.user_id (User.user_id r) (users s)), e)
  end.

Definition flush_one (s : Store) (c : change) : result (Store * entity) :=
  match c with
  | New e => insert s e
  | Dirty e => update s e
  | Deleted e => delete s e
  end.

(** The changes are written in order; the first failure aborts. *)
Fixpoint flush (s : Store) (cs : list change)
  : result (Store * list entity) :=
  match cs with
  | [] => Ok (s, [])
  | c :: cs' =>
      '(s1, e) ← flush_one s c;
      '(s2, es) ← flush s1 cs';
      Ok (s2, e :: es)
  end.

End Flush.

(** ** Handlers as session computations

    A handler runs against the [Session] that [get_db] yields: it reads
    the session, may change it, and returns or raises. *)

Definition M (A : Type) : Type := Session -> result A * Session.

Definition ret {A} (a : A) : M A := fun s => (Ok a, s).

Definition raise {A} (e : exn) : M A := fun s => (Raise e, s).

Definition bind {A B} (m : M A) (k : A -> M B) : M B :=
  fun s =>
    match m s with
    | (Ok a, s') => k a s'
    | (Raise e, s') => (Raise e, s')
    end.

Declare Scope session_scope.
Delimit Scope session_scope with session.
Notation "'let*' x ':=' m 'in' k" := (bind m (fun x => k))
  (at level 10, x name, m at level 100, k at level 200) : session_scope.
Notation "m ';;;' k" := (bind m (fun _ => k))
  (at level 100, k at level 200, right associativity) : session_scope.

(** [try: body except ... as e: handler]. *)
Definition try_except {A} (body : M A) (handler : exn -> M A) : M A :=
  fun s =>
    match body s with
    | (Ok a, s') => (Ok a, s')
    | (Raise e, s') => handler e s'
    end.

(** A computation that cannot touch the session. *)
Definition lift {A} (r : result A) : M A := fun s => (r, s).

(** [raise HTTPException(status_code=..., detail=...)]. *)
Definition abort {A} (code : Z) (msg : string) : M A :=
  raise (HTTP (mkHTTPException code msg [])).

(** [db.query(...)]: a read of the committed database. *)
Definition db_query {A} (q : Store -> A) : M A :=
  fun s => (Ok (q (database s)), s).

Definition db_add (e : entity) : M unit :=
  fun s => (Ok tt, mkSession (database s) (pending s ++ [New e])).

(** The effect of [setattr] on a loaded object: it is now dirty. *)
Definition db_modified (e : entity) : M unit :=
  fun s => (Ok tt, mkSession (database s) (pending s ++ [Dirty e])).

Definition db_delete (e : entity) : M unit :=
  fun s => (Ok tt, mkSession (database s) (pending s ++ [Deleted e])).

(** [db.commit()]: flush and commit, all or nothing.  When the flush
    fails the session rolls its transaction back before the exception
    leaves [commit]: the database keeps its state and the session holds
    no change any more.  On success the objects written are returned
    with their keys. *)
Definition db_commit (foreign_keys email_first : bool) (now : Z)
  : M (list entity) :=
  fun s =>
    match flush foreign_keys email_first now (database s) (pending s) with
    | Ok (d, es) => (Ok es, mkSession d [])
    | Raise e => (Raise e, mkSession (database s) [])
    end.

Definition db_rollback : M unit :=
  fun s => (Ok tt, mkSession (database s) []).

(** [db.refresh(obj)] for the object just committed. *)
Definition db_refresh (written : list entity) : M entity :=
  match written with
  | [e] => ret e
  | _ => raise (StaleDataError "Could not refresh instance")
  end.

(** [database.get_db]: a fresh session for the request, closed on every
    way out; closing drops whatever was not committed. *)
Definition get_db {A} (handler : M A) (db : Store) : result A * Store :=
  let '(r, s) := handler (mkSession db []) in (r, database s).

(** [str(e)], for [ResponseValidationError] its first line. *)
Definition str (e : exn) : string :=
  match e with
  | HTTP h => pretty (status_code h) +:+ ": " +:+ detail h
  | JWT (JWTError_ m) | JWT (ExpiredSignatureError m)
  | JWT (JWTClaimsError m) => m
  | ValueError m | TypeError m | OverflowError m | IntegrityError m
  | StaleDataError m => m
  | ResponseValidationError fields =>
      pretty (Z.of_nat (length fields)) +:+ " validation errors:"
  end.

(** What the application runs on: the key schedule of bcrypt, which
    version of the bcrypt package is installed, how the SQLite
    connection is configured, and in which order the database file
    lists the unique indexes of [doctors]. *)
Record Platform := {
  eksblowfish : string -> Z -> string -> list N;
  bcrypt_rejects_long : bool;
  sqlite_foreign_keys : bool;
  doctors_email_first : bool
}.

Open Scope session_scope.

(** ** auth.py *)

Definition SECRET_KEY : string :=
  "your-secret-key-here-change-this-in-production".
Definition ALGORITHM : string := "HS256".
Definition ACCESS_TOKEN_EXPIRE_MINUTES : Z := 30.

(** [timedelta(minutes=n)]. *)
Definition minutes (n : Z) : Z := n * 60 * 1000000.

(** Truth value of an optional [timedelta]: [None] and the zero duration
    are false. *)
Definition truthy (expires_delta : option Z) : bool :=
  match expires_delta with
  | Some d => negb (d =? 0)
  | None => false
  end.

(** The range of [datetime]: from year 1 to the last microsecond of year
    9999. *)
Definition datetime_min : Z := -62135596800000000.
Definition datetime_max : Z := 253402300799999999.

(** [dt + delta]; a result outside the range of [datetime] raises. *)
Definition datetime_add (dt delta : Z) : result Z :=
  let sum := dt + delta in
  if (sum <? datetime_min) || (datetime_max <? sum) then
    Raise (OverflowError "date value out of range")
  else Ok sum.

Definition credentials_exception : exn :=
  HTTP (mkHTTPException HTTP_401_UNAUTHORIZED "Could not validate credentials"
          [("WWW-Authenticate", "Bearer")]).

Section Auth.

Variable platform : Platform.

(** [entropy] stands for the random bytes [gensalt] draws. *)
Definition hash_password (entropy : list N) (password : string)
  : result string :=
  let password_bytes := password in
  let salt := Bcrypt.gensalt entropy in
  hashed ← Bcrypt.hashpw (eksblowfish platform)
             (bcrypt_rejects_long platform) password_bytes salt;
  Ok hashed.

Definition verify_password (plain_password hashed_password : string)
  : result bool :=
  let password_bytes := plain_password in
  let hashed_bytes := hashed_password in
  Bcrypt.checkpw (eksblowfish platform) (bcrypt_rejects_long platform)
    password_bytes hashed_bytes.

(** [utcnow] is the reading of [datetime.utcnow()]. *)
Definition create_access_token (utcnow : Z) (data : gmap string Jose.pyval)
    (expires_delta : option Z) : result Jose.token :=
  let to_encode := data in
  expire ←
    (if truthy expires_delta then datetime_add utcnow (default 0 expires_delta)
     else datetime_add utcnow (minutes 15));
  let to_encode := <["exp" := Jose.PDatetime expire]> to_encode in
  Jose.encode to_encode SECRET_KEY ALGORITHM.

(** [except JWTError] catches the three classes of [jose.exceptions];
    any other exception of [jwt.decode] leaves the function. *)
Definition verify_token (utcnow : Z) (token : Jose.token)
  : result (gmap string Jose.jval) :=
  match Jose.decode utcnow token SECRET_KEY [ALGORITHM] with
  | Ok payload =>
      let username := Jose.get payload "sub" in
      match username with
      | None => Raise credentials_exception
      | Some _ => Ok payload
      end
  | Raise (JWT _) => Raise credentials_exception
  | Raise e => Raise e
  end.

(** [User.username == token_data.get("sub")] *)
Definition username_is (sub : option Jose.jval) (u : User.row) : bool :=
  match sub with
  | Some (Jose.JStr name) => eqv (User.username u) name
  | _ => false
  end.

Definition get_current_user (utcnow : Z) (token : Jose.token) : M User.row :=
  let* token_data := lift (verify_token utcnow token) in
  let* user :=
    db_query (fun db =>
      first (username_is (Jose.get token_data "sub")) (users db)) in
  match user with
  | None =>
      raise (HTTP (mkHTTPException HTTP_401_UNAUTHORIZED "User not Found"
                     [("WWW-Authenticate", "Bearer")]))
  | Some user =>
      if negb (default false (User.is_active user)) then
        abort HTTP_400_BAD_REQUEST "Inactive user"
      else ret user
  end.

(** [require_admin], given the user its dependency resolved. *)
Definition require_admin (current_user : User.row) : M User.row :=
  if negb (bool_decide (User.role current_user = Some "admin")) then
    abort HTTP_403_FORBIDDEN "Not enough permissions. Admin access required."
  else ret current_user.

(** [Depends(require_admin)]: FastAPI resolves [get_current_user] and
    passes its value on; an exception in a dependency ends the request. *)
Definition admin_dependency (utcnow : Z) (token : Jose.token) : M User.row :=
  let* current_user := get_current_user utcnow token in
  require_admin current_user.

End Auth.

(** ** main.py *)

Section Main.

Variable platform : Platform.

(** The clock reading during the request. *)
Variable now : Z.

Definition commit : M (list entity) :=
  db_commit (sqlite_foreign_keys platform) (doctors_email_first platform) now.

Definition mobile_exists : string :=
  "Mobile number already exists. Please use a different number.".

Definition constraint_violation (orig : string) : string :=
  "Database constraint violation: " +:+ orig.

Definition unexpected (e : exn) : string :=
  "An unexpected error occurred: " +:+ str e.

Definition clinic_by_id (clinic_id : Z) : M (option Clinic.row) :=
  db_query (fun db =>
    first (fun c => eqv (Clinic.clinic_id c) clinic_id) (clinics db)).

Definition create_clinic (clinic : ClinicCreate) : M entity :=
  try_except
    (let db_clinic :=
       Clinic.mk None (Some (cc_clinic_name clinic)) (Some (cc_address clinic))
         (Some (cc_mobile clinic)) (Some (cc_status clinic)) None None in
     db_add (AClinic db_clinic);;;
     let* written := commit in
     let* db_clinic := db_refresh written in
     ret db_clinic)
    (fun e =>
       match e with
       | IntegrityError orig =>
           db_rollback;;;
           let error_message := lower orig in
           if contains "mobile" error_message then
             abort HTTP_400_BAD_REQUEST mobile_exists
           else abort HTTP_400_BAD_REQUEST (constraint_violation orig)
       | _ =>
           db_rollback;;;
           abort HTTP_500_INTERNAL_SERVER_ERROR (unexpected e)
       end).

Definition update_clinic (clinic_id : Z) (clinic_update : ClinicUpdate)
  : M entity :=
  let* clinic := clinic_by_id clinic_id in
  match clinic with
  | None =>
      abort HTTP_404_NOT_FOUND
        ("Clinic with id " +:+ pretty clinic_id +:+ " not found")
  | Some clinic =>
      try_except
        (let update_data := clinic_update in
         let clinic :=
           Clinic.mk (Clinic.clinic_id clinic)
             (setattr (Clinic.clinic_name clinic) (cu_clinic_name update_data))
             (setattr (Clinic.address clinic) (cu_address update_data))
             (setattr (Clinic.mobile clinic) (cu_mobile update_data))
             (setattr (Clinic.status clinic) (cu_status update_data))
             (Clinic.created_at clinic) (Clinic.updated_at clinic) in
         db_modified (AClinic clinic);;;
         let* written := commit in
         let* clinic := db_refresh written in
         ret clinic)
        (fun e =>
           match e with
           | IntegrityError orig =>
               db_rollback;;;
               let error_message := lower orig in
               if contains "mobile" error_message then
                 abort HTTP_400_BAD_REQUEST mobile_exists
               else abort HTTP_400_BAD_REQUEST (constraint_violation orig)
           | _ =>
               db_rollback;;;
               abort HTTP_500_INTERNAL_SERVER_ERROR (unexpected e)
           end)
  end.

Definition delete_clinic (clinic_id : Z) : M unit :=
  let* clinic := clinic_by_id clinic_id in
  match clinic with
  | None =>
      abort HTTP_404_NOT_FOUND
        ("Clinic with id " +:+ pretty clinic_id +:+ " not found")
  | Some clinic =>
      let* doctor_count :=
        db_query (fun db =>
          count (fun d => eqv (Doctor.clinic_id d) clinic_id) (doctors db)) in
      if 0 <? doctor_count then
        abort HTTP_400_BAD_REQUEST
          ("Cannot delete clinic. It has " +:+ pretty doctor_count
           +:+ " doctor(s). Delete them first.")
      else
        let* patient_count :=
          db_query (fun db =>
            count (fun p => eqv (Patient.clinic_id p) clinic_id)
              (patients db)) in
        if 0 <? patient_count then
          abort HTTP_400_BAD_REQUEST
            ("Cannot delete clinic. It has " +:+ pretty patient_count
             +:+ " patient(s). Delete them first.")
        else
          try_except
            (db_delete (AClinic clinic);;;
             commit;;;
             ret tt)
            (fun e =>
               match e with
               | IntegrityError _ =>
                   db_rollback;;;
                   abort HTTP_400_BAD_REQUEST
                     "Cannot delete clinic due to existing related records"
               | _ =>
                   db_rollback;;;
                   abort HTTP_500_INTERNAL_SERVER_ERROR (unexpected e)
               end)
  end.

Definition create_doctor (clinic_id : Z) (doctor : DoctorCreate) : M entity :=
  let* clinic := clinic_by_id clinic_id in
  match clinic with
  | None =>
      abort HTTP_404_NOT_FOUND
        ("Clinic with id " +:+ pretty clinic_id +:+ " not found")
  | Some _ =>
      try_except
        (let db_doctor :=
           Doctor.mk None (Some (dc_doctor_name doctor))
             (Some (dc_mobile doctor)) (Some (dc_email doctor))
             (Some (dc_address doctor)) (Some (dc_specialization doctor))
             (Some (dc_status doctor)) (Some clinic_id) None None in
         db_add (ADoctor db_doctor);;;
         let* written := commit in
         let* db_doctor := db_refresh written in
         ret db_doctor)
        (fun e =>
           match e with
           | IntegrityError orig =>
               db_rollback;;;
               let error_message := orig in
               if contains "mobile" (lower error_message) then
                 abort HTTP_400_BAD_REQUEST mobile_exists
               else if contains "email" (lower error_message) then
                 abort HTTP_400_BAD_REQUEST
                   "Email already exists. Please use a different email."
               else if contains "foreign key" (lower error_message) then
                 abort HTTP_400_BAD_REQUEST "Invalid clinic reference"
               else
                 abort HTTP_400_BAD_REQUEST
                   (constraint_violation error_message)
           | _ =>
               db_rollback;;;
               abort HTTP_500_INTERNAL_SERVER_ERROR (unexpected e)
           end)
  end.

Definition get_doctors_by_clinic (clinic_id : Z) : M (list Doctor.row) :=
  let* clinic := clinic_by_id clinic_id in
  match clinic with
  | None =>
      abort HTTP_404_NOT_FOUND
        ("Clinic with id " +:+ pretty clinic_id +:+ " not found")
  | Some _ =>
      let* doctors :=
        db_query (fun db =>
          all (fun d => eqv (Doctor.clinic_id d) clinic_id) (doctors db)) in
      match doctors with
      | [] =>
          abort HTTP_404_NOT_FOUND
            ("No doctors found for clinic with id " +:+ pretty clinic_id)
      | _ => ret doctors
      end
  end.

Definition doctor_in_clinic (clinic_id doctor_id : Z)
  : M (option Doctor.row) :=
  db_query (fun db =>
    first (fun d => eqv (Doctor.clinic_id d) clinic_id
                    && eqv (Doctor.doctor_id d) doctor_id) (doctors db)).

Definition update_doctor (clinic_id doctor_id : Z)
    (doctor_update : DoctorUpdate) : M entity :=
  let* clinic := clinic_by_id clinic_id in
  match clinic with
  | None =>
      abort HTTP_404_NOT_FOUND
        ("Clinic id " +:+ pretty clinic_id +:+ " does not exist")
  | Some _ =>
      let* doctor := doctor_in_clinic clinic_id doctor_id in
      match doctor with
      | None =>
          abort HTTP_404_NOT_FOUND
            ("No doctors found for clinic with id " +:+ pretty clinic_id)
      | Some doctor =>
          try_except
            (let update_data := doctor_update in
             let doctor :=
               Doctor.mk (Doctor.doctor_id doctor)
                 (setattr (Doctor.doctor_name doctor)
                    (du_doctor_name update_data))
                 (setattr (Doctor.mobile doctor) (du_mobile update_data))
                 (setattr (Doctor.email doctor) (du_email update_data))
                 (setattr (Doctor.address doctor) (du_address update_data))
                 (setattr (Doctor.specialization doctor)
                    (du_specialization update_data))
                 (setattr (Doctor.status doctor) (du_status update_data))
                 (Doctor.clinic_id doctor) (Doctor.created_at doctor)
                 (Doctor.updated_at doctor) in
             db_modified (ADoctor doctor);;;
             let* written := commit in
             let* doctor := db_refresh written in
             ret doctor)
            (fun e =>
               match e with
               | IntegrityError orig =>
                   db_rollback;;;
                   let error_message := lower orig in
                   if contains "mobile" error_message then
                     abort HTTP_400_BAD_REQUEST mobile_exists
                   else if contains "email" error_message then
                     abort HTTP_400_BAD_REQUEST
                       "Email already exists. Please use a different email."
                   else
                     abort HTTP_400_BAD_REQUEST (constraint_violation orig)
               | _ =>
                   db_rollback;;;
                   abort HTTP_500_INTERNAL_SERVER_ERROR (unexpected e)
               end)
      end
  end.

Definition delete_doctor (clinic_id doctor_id : Z) : M unit :=
  let* clinic := clinic_by_id clinic_id in
  match clinic with
  | None =>
      abort HTTP_404_NOT_FOUND
        ("Clinic id " +:+ pretty clinic_id +:+ " does not exist")
  | Some _ =>
      let* doctor := doctor_in_clinic clinic_id doctor_id in
      match doctor with
      | None =>
          abort HTTP_404_NOT_FOUND
            ("Doctor with id " +:+ pretty doctor_id +:+ " not found")
      | Some doctor =>
          let* patient_count :=
            db_query (fun db =>
              count (fun p => eqv (Patient.doctor_id p) doctor_id)
                (patients db)) in
          if 0 <? patient_count then
            abort HTTP_400_BAD_REQUEST
              ("Cannot delete doctor. They have " +:+ pretty patient_count
               +:+ " patient(s). Reassign or delete them first.")
          else
            let* consultation_count :=
              db_query (fun db =>
                count (fun k => eqv (PatientConsultation.doctor_id k) doctor_id)
                  (patients_consultations db)) in
            if 0 <? consultation_count then
              abort HTTP_400_BAD_REQUEST
                ("Cannot delete doctor. They have "
                 +:+ pretty consultation_count
                 +:+ " consultation(s) in history.")
            else
              try_except
                (db_delete (ADoctor doctor);;;
                 commit;;;
                 ret tt)
                (fun e =>
                   match e with
                   | IntegrityError _ =>
                       db_rollback;;;
                       abort HTTP_400_BAD_REQUEST
                         "Cannot delete doctor due to existing related records"
                   | _ =>
                       db_rollback;;;
                       abort HTTP_500_INTERNAL_SERVER_ERROR (unexpected e)
                   end)
      end
  end.

Definition create_patient (clinic_id : Z) (patient : PatientCreate)
  : M entity :=
  let* clinic := clinic_by_id clinic_id in
  match clinic with
  | None =>
      abort HTTP_404_NOT_FOUND
        ("Clinic with id " +:+ pretty clinic_id +:+ " not found")
  | Some _ =>
      let* doctor :=
        db_query (fun db =>
          first (fun d => eqv (Doctor.doctor_id d) (pc_doctor_id patient)
                          && eqv (Doctor.clinic_id d) clinic_id)
            (doctors db)) in
      match doctor with
      | None =>
          abort HTTP_404_NOT_FOUND
            ("Doctor with id " +:+ pretty (pc_doctor_id patient)
             +:+ " not found in this clinic")
      | Some _ =>
          try_except
            (let db_patient :=
               Patient.mk None (Some (pc_patient_name patient))
                 (Some (pc_mobile patient)) (Some (pc_age patient))
                 (Some (pc_gender patient)) (Some (pc_status patient))
                 (Some clinic_id) (Some (pc_doctor_id patient))
                 (Some (pc_doctor_name patient)) None None in
             db_add (APatient db_patient);;;
             let* written := commit in
             let* db_patient := db_refresh written in
             ret db_patient)
            (fun e =>
               match e with
               | IntegrityError orig =>
                   db_rollback;;;
                   let error_message := lower orig in
                   if contains "mobile" error_message then
                     abort HTTP_400_BAD_REQUEST mobile_exists
                   else if contains "foreign key" error_message
                           || contains "doctor_id" error_message then
                     abort HTTP_400_BAD_REQUEST "Invalid doctor reference"
                   else
                     abort HTTP_400_BAD_REQUEST (constraint_violation orig)
               | _ =>
                   db_rollback;;;
                   abort HTTP_500_INTERNAL_SERVER_ERROR (unexpected e)
               end)
      end
  end.

Definition get_patients_by_clinic (clinic_id : Z) : M (list Patient.row) :=
  let* clinic := clinic_by_id clinic_id in
  match clinic with
  | None =>
      abort HTTP_404_NOT_FOUND
        ("Clinic with id " +:+ pretty clinic_id +:+ " not found")
  | Some _ =>
      let* patients :=
        db_query (fun db =>
          all (fun p => eqv (Patient.clinic_id p) clinic_id) (patients db)) in
      match patients with
      | [] =>
          abort HTTP_404_NOT_FOUND
            ("No Patients found for clinic with id " +:+ pretty clinic_id)
      | _ => ret patients
      end
  end.

Definition patient_in_clinic (clinic_id patient_id : Z)
  : M (option Patient.row) :=
  db_query (fun db =>
    first (fun p => eqv (Patient.clinic_id p) clinic_id
                    && eqv (Patient.patient_id p) patient_id) (patients db)).

(** No [try] here: what [commit] raises leaves the handler as it is. *)
Definition update_patient (clinic_id patient_id : Z)
    (patient_update : PatientUpdate) : M entity :=
  let* clinic := clinic_by_id clinic_id in
  match clinic with
  | None =>
      abort HTTP_404_NOT_FOUND
        ("Clinic id " +:+ pretty clinic_id +:+ " does not exist")
  | Some _ =>
      let* patient := patient_in_clinic clinic_id patient_id in
      match patient with
      | None =>
          abort HTTP_404_NOT_FOUND
            ("No Patients found for clinic with id " +:+ pretty clinic_id)
      | Some patient =>
          let update_data := patient_update in
          let patient :=
            Patient.mk (Patient.patient_id patient)
              (setattr (Patient.patient_name patient)
                 (pu_patient_name update_data))
              (setattr (Patient.mobile patient) (pu_mobile update_data))
              (setattr (Patient.age patient) (pu_age update_data))
              (setattr (Patient.gender patient) (pu_gender update_data))
              (setattr (Patient.status patient) (pu_status update_data))
              (Patient.clinic_id patient)
              (setattr (Patient.doctor_id patient) (pu_doctor_id update_data))
              (setattr (Patient.doctor_name patient)
                 (pu_doctor_name update_data))
              (Patient.created_at patient) (Patient.updated_at patient) in
          db_modified (APatient patient);;;
          let* written := commit in
          let* patient := db_refresh written in
          ret patient
      end
  end.

(** No [try] here either. *)
Definition delete_patient (clinic_id patient_id : Z) : M unit :=
  let* patient :=
    db_query (fun db =>
      first (fun p => eqv (Patient.clinic_id p) clinic_id) (patients db)) in
  match patient with
  | None =>
      abort HTTP_404_NOT_FOUND
        ("Clinic id " +:+ pretty clinic_id +:+ " does not exist")
  | Some _ =>
      let* patient := patient_in_clinic clinic_id patient_id in
      match patient with
      | None =>
          abort HTTP_404_NOT_FOUND "Doctor with id None not found"
      | Some patient =>
          db_delete (APatient patient);;;
          commit;;;
          ret tt
      end
  end.

Definition create_doctor_patient_consultation
    (clinic_id doctor_id patient_id : Z)
    (consultation : PatientConsultationCreate) : M entity :=
  let* clinic := clinic_by_id clinic_id in
  match clinic with
  | None =>
      abort HTTP_404_NOT_FOUND
        ("Clinic with id " +:+ pretty clinic_id +:+ " not found")
  | Some _ =>
      let* doctor :=
        db_query (fun db =>
          first (fun d => eqv (Doctor.doctor_id d) doctor_id
                          && eqv (Doctor.clinic_id d) clinic_id)
            (doctors db)) in
      match doctor with
      | None =>
          abort HTTP_404_NOT_FOUND
            ("Doctor with id " +:+ pretty doctor_id +:+ " not found")
      | Some doctor =>
          let* patient :=
            db_query (fun db =>
              first (fun p => eqv (Patient.patient_id p) patient_id
                              && eqv (Patient.clinic_id p) clinic_id)
                (patients db)) in
          match patient with
          | None =>
              abort HTTP_404_NOT_FOUND
                ("Patient with id " +:+ pretty patient_id +:+ " not found")
          | Some patient =>
              if negb (eqv (Doctor.status doctor) "active") then
                abort HTTP_400_BAD_REQUEST
                  ("Doctor is not active. Current status: "
                   +:+ default "None" (Doctor.status doctor))
              else if negb (eqv (Patient.status patient) "active") then
                abort HTTP_400_BAD_REQUEST
                  ("Patient is not active. Current status: "
                   +:+ default "None" (Patient.status patient))
              else
                try_except
                  (let db_consultation :=
                     PatientConsultation.mk None
                       (Some (pcc_is_primary consultation))
                       (Some (pcc_consultation_date consultation))
                       (Some (pcc_status consultation))
                       (Some clinic_id) (Some patient_id) (Some doctor_id)
                       None None in
                   db_add (AConsultation db_consultation);;;
                   let* written := commit in
                   let* db_consultation := db_refresh written in
                   ret db_consultation)
                  (fun e =>
                     match e with
                     | IntegrityError orig =>
                         db_rollback;;;
                         let error_message := lower orig in
                         if contains "foreign key" error_message then
                           abort HTTP_400_BAD_REQUEST
                             "Invalid reference to clinic, doctor, or patient"
                         else
                           abort HTTP_400_BAD_REQUEST
                             (constraint_violation orig)
                     | _ =>
                         db_rollback;;;
                         abort HTTP_500_INTERNAL_SERVER_ERROR (unexpected e)
                     end)
          end
      end
  end.

(** [register_user] up to its [try] block: the two look-ups. *)
Definition register_user_checks (user : UserCreate) : M unit :=
  let* existing_user :=
    db_query (fun db =>
      first (fun u => eqv (User.username u) (uc_username user)) (users db)) in
  match existing_user with
  | Some _ => abort HTTP_400_BAD_REQUEST "Username already registered"
  | None =>
      let* existing_email :=
        db_query (fun db =>
          first (fun u => eqv (User.email u) (uc_email user)) (users db)) in
      match existing_email with
      | Some _ => abort HTTP_400_BAD_REQUEST "Email already registered"
      | None => ret tt
      end
  end.

(** The [try] block of [register_user]. *)
Definition register_user_insert (entropy : list N) (user : UserCreate)
  : M entity :=
  try_except
    (let* hashed_pwd :=
       lift (hash_password platform entropy (uc_password user)) in
     let db_user :=
       User.mk None (Some (uc_username user)) (Some (uc_email user))
         (Some hashed_pwd) (uc_full_name user) None None None None in
     db_add (AUser db_user);;;
     let* written := commit in
     let* db_user := db_refresh written in
     ret db_user)
    (fun e =>
       match e with
       | IntegrityError orig =>
           db_rollback;;;
           let error_message := lower orig in
           if contains "username" error_message then
             abort HTTP_400_BAD_REQUEST "Username already exists"
           else if contains "email" error_message then
             abort HTTP_400_BAD_REQUEST "Email already exists"
           else abort HTTP_400_BAD_REQUEST (constraint_violation orig)
       | _ =>
           db_rollback;;;
           abort HTTP_500_INTERNAL_SERVER_ERROR (unexpected e)
       end).

Definition register_user (entropy : list N) (user : UserCreate) : M entity :=
  register_user_checks user;;;
  register_user_insert entropy user.

End Main.

(** ** Response models

    FastAPI validates what a handler returns against the
    [response_model] of its route, reading the attributes of the object
    ([from_attributes]).  The attributes have the types of their
    columns, so a field fails exactly when the schema declares it
    without [| None] and the attribute is [None].  The lists below are
    the fields that fail. *)

Definition required_field {A} (name : string) (v : option A) : list string :=
  match v with
  | Some _ => []
  | None => [name]
  end.

Definition ClinicResponse (r : Clinic.row) : list string :=
  required_field "clinic_name" (Clinic.clinic_name r)
  ++ required_field "address" (Clinic.address r)
  ++ required_field "status" (Clinic.status r)
  ++ required_field "clinic_id" (Clinic.clinic_id r)
  ++ required_field "created_at" (Clinic.created_at r).

Definition DoctorResponse (r : Doctor.row) : list string :=
  required_field "doctor_name" (Doctor.doctor_name r)
  ++ required_field "mobile" (Doctor.mobile r)
  ++ required_field "email" (Doctor.email r)
  ++ required_field "address" (Doctor.address r)
  ++ required_field "specialization" (Doctor.specialization r)
  ++ required_field "status" (Doctor.status r)
  ++ required_field "doctor_id" (Doctor.doctor_id r)
  ++ required_field "clinic_id" (Doctor.clinic_id r)
  ++ required_field "created_at" (Doctor.created_at r).

Definition PatientResponse (r : Patient.row) : list string :=
  required_field "patient_name" (Patient.patient_name r)
  ++ required_field "mobile" (Patient.mobile r)
  ++ required_field "age" (Patient.age r)
  ++ required_field "gender" (Patient.gender r)
  ++ required_field "status" (Patient.status r)
  ++ required_field "doctor_id" (Patient.doctor_id r)
  ++ required_field "doctor_name" (Patient.doctor_name r)
  ++ required_field "patient_id" (Patient.patient_id r)
  ++ required_field "clinic_id" (Patient.clinic_id r)
  ++ required_field "created_at" (Patient.created_at r).

Definition PatientConsultationResponse (r : PatientConsultation.row)
  : list string :=
  required_field "is_primary" (PatientConsultation.is_primary r)
  ++ required_field "consultation_date" (PatientConsultation.consultation_date r)
  ++ required_field "status" (PatientConsultation.status r)
  ++ required_field "patient_id" (PatientConsultation.patient_id r)
  ++ required_field "consultation_id" (PatientConsultation.consultation_id r)
  ++ required_field "clinic_id" (PatientConsultation.clinic_id r)
  ++ required_field "doctor_id" (PatientConsultation.doctor_id r)
  ++ required_field "created_at" (PatientConsultation.created_at r).

Definition UserResponse (r : User.row) : list string :=
  required_field "username" (User.username r)
  ++ required_field "email" (User.email r)
  ++ required_field "user_id" (User.user_id r)
  ++ required_field "role" (User.role r)
  ++ required_field "is_active" (User.is_active r)
  ++ required_field "created_at" (User.created_at r).

(** Every route that returns an object names the response model of the
    object's class. *)
Definition response_model (e : entity) : list string :=
  match e with
  | AClinic r => ClinicResponse r
  | ADoctor r => DoctorResponse r
  | APatient r => PatientResponse r
  | AConsultation r => PatientConsultationResponse r
  | AUser r => UserResponse r
  end.

(** What FastAPI does with the value a handler returned; [None] is the
    empty body of the 204 routes, which name no response model. *)
Definition serialize_response (body : option entity) : result unit :=
  match body with
  | None => Ok tt
  | Some e =>
      match response_model e with
      | [] => Ok tt
      | fields => Raise (ResponseValidationError fields)
      end
  end.

(** ** main.py, the handlers that only read *)


(** The [sqlite3] driver binds a Python [int] as a 64-bit integer and
    raises [OverflowError] for any other. *)
Definition bind_integer (z : Z) : result Z :=
  if (z <? - 2 ^ 63) || (2 ^ 63 <=? z) then
    Raise (OverflowError "Python int too large to convert to SQLite INTEGER")
  else Ok z.

(** [query.offset(n)]: SQLite reads a negative offset as none. *)
Definition sql_offset {A} (n : Z) (rows : list A) : list A :=
  skipn (Z.to_nat n) rows.

(** [query.limit(n)]: SQLite reads a negative limit as no limit. *)
Definition sql_limit {A} (n : Z) (rows : list A) : list A :=
  if n <? 0 then rows else firstn (Z.to_nat n) rows.

Section Reads.

(** SQLite's [LIKE]: whether the text matches the pattern. *)
Variable like : string -> string -> bool.

(** [Clinic.mobile.contains(mobile)], that is
    [clinics.mobile LIKE '%' || mobile || '%']; NULL matches nothing. *)
Definition mobile_contains (mobile : string) (c : Clinic.row) : bool :=
  match Clinic.mobile c with
  | Some m => like ("%" +:+ mobile +:+ "%") m
  | None => false
  end.

(** The query parameters have defaults: [skip = 0], [limit = 10],
    [mobile = None].  [limit] and [skip] are bound into the statement
    [... LIMIT ? OFFSET ?] when [all()] runs it. *)
Definition get_clinics (skip limit : option Z) (mobile : option string)
  : M (list Clinic.row) :=
  let skip := default 0 skip in
  let limit := default 10 limit in
  let* limit := lift (bind_integer limit) in
  let* skip := lift (bind_integer skip) in
  db_query (fun db =>
    let query := clinics db in
    let query :=
      if nonempty (default "" mobile)
      then all (mobile_contains (default "" mobile)) query
      else query in
    let clinics := sql_limit limit (sql_offset skip query) in
    clinics).

End Reads.

Definition get_clinic (clinic_id : Z) : M Clinic.row :=
  let* clinic := clinic_by_id clinic_id in
  match clinic with
  | None =>
      abort HTTP_404_NOT_FOUND
        ("Clinic with id " +:+ pretty clinic_id +:+ " not found")
  | Some clinic => ret clinic
  end.

Definition get_doctor_by_id (clinic_id doctor_id : Z) : M Doctor.row :=
  let* clinic := clinic_by_id clinic_id in
  match clinic with
  | None =>
      abort HTTP_404_NOT_FOUND
        ("Clinic with id " +:+ pretty clinic_id +:+ " not found")
  | Some _ =>
      let* doctor := doctor_in_clinic clinic_id doctor_id in
      match doctor with
      | None =>
          abort HTTP_404_NOT_FOUND
            ("No doctors found for clinic with id " +:+ pretty clinic_id)
      | Some doctor => ret doctor
      end
  end.

(** The second function that [main.py] names [get_patients_by_clinic],
    the one routed at [/clinics/{clinic_id}/patients/{patient_id}/]. *)
Definition get_patients_by_clinic' (clinic_id patient_id : Z) : M Patient.row :=
  let* clinic := clinic_by_id clinic_id in
  match clinic with
  | None =>
      abort HTTP_404_NOT_FOUND
        ("Clinic with id " +:+ pretty clinic_id +:+ " not found")
  | Some _ =>
      let* patient := patient_in_clinic clinic_id patient_id in
      match patient with
      | None =>
          abort HTTP_404_NOT_FOUND
            ("No Patients found for clinic with id " +:+ pretty clinic_id)
      | Some patient => ret patient
      end
  end.

(** ** The earlier authentication module

    The source file without a name: the version of [auth.py] that hashed
    with passlib.  Its token functions differ from [auth.py] in what
    [verify_token] returns. *)

Module Legacy.

(** The dictionary [{"username": username, "role": role}]; [role] is
    [None] when the payload has none. *)
Definition verify_token (utcnow : Z) (token : Jose.token)
  : result (gmap string (option Jose.jval)) :=
  match Jose.decode utcnow token SECRET_KEY [ALGORITHM] with
  | Ok payload =>
      let username := Jose.get payload "sub" in
      let role := Jose.get payload "role" in
      match username with
      | None => Raise credentials_exception
      | Some _ => Ok {[ "username" := username; "role" := role ]}
      end
  | Raise (JWT _) => Raise credentials_exception
  | Raise e => Raise e
  end.

(** [token_data["username"]]; the key is always there. *)
Definition get_current_user (utcnow : Z) (token : Jose.token) : M User.row :=
  let* token_data := lift (verify_token utcnow token) in
  let* user :=
    db_query (fun db =>
      first (username_is (mjoin (token_data !! "username"))) (users db)) in
  match user with
  | None =>
      raise (HTTP (mkHTTPException HTTP_401_UNAUTHORIZED "User not found"
                     [("WWW-Authenticate", "Bearer")]))
  | Some user =>
      if negb (default false (User.is_active user)) then
        abort HTTP_400_BAD_REQUEST "Inactive user"
      else ret user
  end.

End Legacy.


(** ** Vocabulary of the statements *)

Close Scope session_scope.

(** The digest part of the hash that [hash_password] makes of [password]
    when [gensalt] draws [entropy]. *)
Definition digest (platform : Platform) (entropy : list N) (password : string)
  : string :=
  Bcrypt.encode 31
    (eksblowfish platform (String.substring 0 72 password) 12
       (Bcrypt.encode_salt entropy)).

(** A password of 73 bytes: 72 times [a], then [last]. *)
Definition password73 (last : ascii) : string :=
  string_of_list_ascii (repeat "a"%char 72 ++ [last]).

(** A platform to run examples on: the "digest" is the key itself. *)
Definition toy_platform : Platform := {|
  eksblowfish := fun key cost salt =>
    map N_of_ascii (list_ascii_of_string key);
  bcrypt_rejects_long := true;
  sqlite_foreign_keys := false;
  doctors_email_first := false
|}.

(** The claims [create_access_token] is given for a user. *)
Definition identity (subject role : string) : gmap string Jose.pyval :=
  {[ "sub" := Jose.PStr subject; "role" := Jose.PStr role ]}.

(** [timedelta(seconds=1)]. *)
Definition second : Z := 1000000.

Definition exception (code : Z) (msg : string) : exn :=
  HTTP (mkHTTPException code msg []).

Definition user_not_found : exn :=
  HTTP (mkHTTPException 401 "User not Found" [("WWW-Authenticate", "Bearer")]).

(** The integers SQLite stores and the [sqlite3] driver binds: 64 bits,
    signed.  Every key in a database file is one of them. *)
Definition sqlite_integer (z : Z) : Prop := - 2 ^ 63 <= z < 2 ^ 63.

(** The values of [datetime]. *)
Definition datetime (t : Z) : Prop := datetime_min <= t <= datetime_max.

Definition clinic_exists (db : Store) (clinic_id : Z) : Prop :=
  exists c, In c (clinics db) /\ Clinic.clinic_id c = Some clinic_id.

Definition no_doctors (db : Store) (clinic_id : Z) : Prop :=
  forall d, In d (doctors db) -> Doctor.clinic_id d <> Some clinic_id.

Definition no_patients (db : Store) (clinic_id : Z) : Prop :=
  forall p, In p (patients db) -> Patient.clinic_id p <> Some clinic_id.

(** Every consultation held at the clinic is with a doctor of the
    clinic. *)
Definition consultations_staffed (db : Store) (clinic_id : Z) : Prop :=
  forall k, In k (patients_consultations db) ->
    PatientConsultation.clinic_id k = Some clinic_id ->
    exists d, In d (doctors db) /\ Doctor.clinic_id d = Some clinic_id.

(** The rows the guards of [create_patient] and of
    [create_doctor_patient_consultation] look up. *)
Definition doctor_of_clinic (db : Store) (clinic_id doctor_id : Z)
  : option Doctor.row :=
  first (fun d => eqv (Doctor.doctor_id d) doctor_id
                  && eqv (Doctor.clinic_id d) clinic_id) (doctors db).

Definition patient_of_clinic (db : Store) (clinic_id patient_id : Z)
  : option Patient.row :=
  first (fun p => eqv (Patient.patient_id p) patient_id
                  && eqv (Patient.clinic_id p) clinic_id) (patients db).

(** A database with one clinic and nothing else. *)
Definition one_clinic : Store :=
  mkStore
    [Clinic.mk (Some 1) (Some "Apollo") (Some "Hyderabad") (Some "9876543210")
       (Some "active") (Some 0) None]
    [] [] [] [].


(** Clinic 1 and clinic 2; doctor 5 works at clinic 2. *)
Definition doctor5_elsewhere : Store :=
  mkStore
    [Clinic.mk (Some 1) (Some "Apollo") (Some "Hyderabad") (Some "9876543210")
       (Some "active") (Some 0) None;
     Clinic.mk (Some 2) (Some "KIMS") (Some "Gachibowli") (Some "9876543211")
       (Some "active") (Some 0) None]
    [Doctor.mk (Some 5) (Some "Rao") (Some "9000000005")
       (Some "rao@example.org") (Some "Gachibowli") (Some "ENT")
       (Some "active") (Some 2) (Some 0) None]
    [] [] [].

(** The same two clinics without any doctor. *)
Definition no_doctor5 : Store :=
  mkStore (clinics doctor5_elsewhere) [] [] [] [].

Definition patient_of_doctor5 : PatientCreate := {|
  pc_patient_name := "Asha";
  pc_mobile := "9111111111";
  pc_age := 30;
  pc_gender := "F";
  pc_status := "active";
  pc_doctor_id := 5;
  pc_doctor_name := "Rao"
|}.

(** *** Requests and reachable databases *)

(** The requests that change the database. *)
Inductive request :=
| CreateClinic (clinic : ClinicCreate)
| UpdateClinic (clinic_id : Z) (clinic_update : ClinicUpdate)
| DeleteClinic (clinic_id : Z)
| CreateDoctor (clinic_id : Z) (doctor : DoctorCreate)
| UpdateDoctor (clinic_id doctor_id : Z) (doctor_update : DoctorUpdate)
| DeleteDoctor (clinic_id doctor_id : Z)
| CreatePatient (clinic_id : Z) (patient : PatientCreate)
| UpdatePatient (clinic_id patient_id : Z) (patient_update : PatientUpdate)
| DeletePatient (clinic_id patient_id : Z)
| CreateConsultation (clinic_id doctor_id patient_id : Z)
    (consultation : PatientConsultationCreate)
| RegisterUser (entropy : list N) (user : UserCreate).

(** The handler's outcome without its response body. *)
Definition void {A} (m : M A) : M unit :=
  fun s => match m s with
           | (Ok _, s') => (Ok tt, s')
           | (Raise e, s') => (Raise e, s')
           end.

(** The handler's outcome as a response body. *)
Definition returning {A} (body : A -> option entity) (m : M A)
  : M (option entity) :=
  fun s => match m s with
           | (Ok a, s') => (Ok (body a), s')
           | (Raise e, s') => (Raise e, s')
           end.

(** The handler of a request, with what it returns. *)
Definition endpoint (platform : Platform) (now : Z) (r : request)
  : M (option entity) :=
  match r with
  | CreateClinic c => returning Some (create_clinic platform now c)
  | UpdateClinic i u => returning Some (update_clinic platform now i u)
  | DeleteClinic i => returning (fun _ => None) (delete_clinic platform now i)
  | CreateDoctor i d => returning Some (create_doctor platform now i d)
  | UpdateDoctor i j u => returning Some (update_doctor platform now i j u)
  | DeleteDoctor i j =>
      returning (fun _ => None) (delete_doctor platform now i j)
  | CreatePatient i p => returning Some (create_patient platform now i p)
  | UpdatePatient i j u => returning Some (update_patient platform now i j u)
  | DeletePatient i j =>
      returning (fun _ => None) (delete_patient platform now i j)
  | CreateConsultation i j k c =>
      returning Some
        (create_doctor_patient_consultation platform now i j k c)
  | RegisterUser entropy u =>
      returning Some (register_user platform now entropy u)
  end.

Definition handle (platform : Platform) (now : Z) (r : request) : M unit :=
  void (endpoint platform now r).

(** One request served from start to end, in a session of its own: the
    handler runs, the session is closed, and what the handler returned
    is validated against the response model of the route.  A request
    fails with what its handler raised or with the
    [ResponseValidationError] of its response. *)
Definition serve (platform : Platform) (now : Z) (r : request) (db : Store)
  : result unit * Store :=
  let '(returned, db') := get_db (endpoint platform now r) db in
  (returned ≫= serialize_response, db').

(** The databases the application can bring about, starting empty. *)
Inductive reachable (platform : Platform) : Store -> Prop :=
| reachable_empty : reachable platform empty_store
| reachable_serve now r db :
    reachable platform db ->
    reachable platform (snd (serve platform now r db)).

(** What holds of every reachable database: doctors have distinct keys,
    doctors and patients belong to clinics that exist, and a consultation
    names a doctor of its clinic. *)
Record consistent (db : Store) : Prop := {
  doctor_keys : List.NoDup (map Doctor.doctor_id (doctors db));
  doctors_in_clinics :
    forall d, In d (doctors db) ->
      In (Doctor.clinic_id d) (map Clinic.clinic_id (clinics db));
  patients_in_clinics :
    forall p, In p (patients db) ->
      In (Patient.clinic_id p) (map Clinic.clinic_id (clinics db));
  consultations_with_doctor :
    forall k, In k (patients_consultations db) ->
      exists d, In d (doctors db) /\
                Doctor.doctor_id d = PatientConsultation.doctor_id k /\
                Doctor.clinic_id d = PatientConsultation.clinic_id k
}.

(** What the guards of the handlers establish of the one change they
    flush. *)
Definition allowed (db : Store) (c : change) : Prop :=
  match c with
  | New (ADoctor r) =>
      In (Doctor.clinic_id r) (map Clinic.clinic_id (clinics db))
  | New (APatient r) =>
      In (Patient.clinic_id r) (map Clinic.clinic_id (clinics db))
  | New (AConsultation r) =>
      exists d, In d (doctors db) /\
                Doctor.doctor_id d = PatientConsultation.doctor_id r /\
                Doctor.clinic_id d = PatientConsultation.clinic_id r
  | Dirty (ADoctor r) =>
      exists old, In old (doctors db) /\
                  Doctor.doctor_id old = Doctor.doctor_id r /\
                  Doctor.clinic_id old = Doctor.clinic_id r
  | Dirty (APatient r) =>
      exists old, In old (patients db) /\
                  Patient.clinic_id old = Patient.clinic_id r
  | New (AUser r) =>
      forall u, In u (users db) -> User.username u <> User.username r
  | Dirty (AConsultation _) | Dirty (AUser _)
  | Deleted (AConsultation _) | Deleted (AUser _) => False
  | New (AClinic _) | Dirty (AClinic _)
  | Deleted (AClinic _) | Deleted (ADoctor _) | Deleted (APatient _) => True
  end.

(** Clinic 1 with doctor 1 and two patients. *)
Definition two_patients : Store :=
  mkStore
    [Clinic.mk (Some 1) (Some "Apollo") (Some "Hyderabad") (Some "9876543210")
       (Some "active") (Some 0) None]
    [Doctor.mk (Some 1) (Some "Rao") (Some "9000000001")
       (Some "rao@example.org") (Some "Hyderabad") (Some "ENT")
       (Some "active") (Some 1) (Some 0) None]
    [Patient.mk (Some 1) (Some "Asha") (Some "9111111111") (Some 30)
       (Some "F") (Some "active") (Some 1) (Some 1) (Some "Rao") (Some 0) None;
     Patient.mk (Some 2) (Some "Ravi") (Some "9222222222") (Some 41)
       (Some "M") (Some "active") (Some 1) (Some 1) (Some "Rao") (Some 0) None]
    [] [].

(** An update that sets nothing but the mobile number. *)
Definition set_patient_mobile (mobile : string) : PatientUpdate := {|
  pu_patient_name := None;
  pu_mobile := Some (Some mobile);
  pu_age := None;
  pu_gender := None;
  pu_status := None;
  pu_doctor_id := None;
  pu_doctor_name := None
|}.

(** Two registrations under one username with different e-mail
    addresses. *)
Definition alice : UserCreate := {|
  uc_username := "alice";
  uc_email := "alice@example.org";
  uc_full_name := None;
  uc_password := "secret123"
|}.

Definition alice_again : UserCreate := {|
  uc_username := "alice";
  uc_email := "alice@example.com";
  uc_full_name := None;
  uc_password := "secret456"
|}.

(** An update that sets nothing but the address, to null. *)
Definition clear_address : ClinicUpdate := {|
  cu_clinic_name := None;
  cu_address := Some None;
  cu_mobile := None;
  cu_status := None
|}.

(** Whether the handler of a request wraps its write in [try]/[except]. *)
Definition guarded (r : request) : bool :=
  match r with
  | UpdatePatient _ _ _ | DeletePatient _ _ => false
  | _ => true
  end.

Definition apollo : ClinicCreate := {|
  cc_clinic_name := "Apollo";
  cc_address := "Hyderabad";
  cc_mobile := "9876543210";
  cc_status := "active"
|}.

(** Clinic 1 with a doctor on leave and a patient. *)
Definition doctor_on_leave : Store :=
  mkStore (clinics two_patients)
    [Doctor.mk (Some 1) (Some "Rao") (Some "9000000001")
       (Some "rao@example.org") (Some "Hyderabad") (Some "ENT")
       (Some "on leave") (Some 1) (Some 0) None]
    [Patient.mk (Some 1) (Some "Asha") (Some "9111111111") (Some 30)
       (Some "F") (Some "inactive") (Some 1) (Some 1) (Some "Rao") (Some 0)
       None]
    [] [].

Definition visit : PatientConsultationCreate := {|
  pcc_is_primary := true;
  pcc_consultation_date := 1700000000000000;
  pcc_status := "active"
|}.

(** A database that requests served one after the other do not
    produce, but overlapping ones do: a consultation at clinic 1, which
    has neither doctors nor patients. *)
Definition orphan_consultation : Store :=
  mkStore (clinics one_clinic) [] []
    [PatientConsultation.mk (Some 1) (Some true) (Some 0) (Some "active")
       (Some 1) (Some 1) (Some 1) (Some 0) None]
    [].

(** *** What the schema of [models.py] demands of a table *)

(** Primary key: every row has one, and no two rows share it. *)
Definition keyed {R} (key : R -> option Z) (rows : list R) : Prop :=
  (forall r, In r rows -> key r <> None) /\ List.NoDup (map key rows).

(** [nullable=False]. *)
Definition required {R A} (column : R -> option A) (rows : list R) : Prop :=
  forall r, In r rows -> column r <> None.

(** [unique=True]: two rows with the same value, not NULL, are one row. *)
Definition unique_column {R} (column : R -> option string) (rows : list R)
  : Prop :=
  forall x y, In x rows -> In y rows ->
              column x = column y -> column x <> None -> x = y.

Record schema_ok (db : Store) : Prop := {
  ok_clinic_keys : keyed Clinic.clinic_id (clinics db);
  ok_clinic_name : required Clinic.clinic_name (clinics db);
  ok_clinic_mobile : required Clinic.mobile (clinics db);
  ok_clinic_mobiles : unique_column Clinic.mobile (clinics db);
  ok_doctor_keys : keyed Doctor.doctor_id (doctors db);
  ok_doctor_name : required Doctor.doctor_name (doctors db);
  ok_doctor_mobile : required Doctor.mobile (doctors db);
  ok_doctor_clinic : required Doctor.clinic_id (doctors db);
  ok_doctor_mobiles : unique_column Doctor.mobile (doctors db);
  ok_doctor_emails : unique_column Doctor.email (doctors db);
  ok_patient_keys : keyed Patient.patient_id (patients db);
  ok_patient_name : required Patient.patient_name (patients db);
  ok_patient_mobile : required Patient.mobile (patients db);
  ok_patient_clinic : required Patient.clinic_id (patients db);
  ok_patient_doctor : required Patient.doctor_id (patients db);
  ok_patient_doctor_name : required Patient.doctor_name (patients db);
  ok_patient_mobiles : unique_column Patient.mobile (patients db);
  ok_consultation_keys :
    keyed PatientConsultation.consultation_id (patients_consultations db);
  ok_consultation_clinic :
    required PatientConsultation.clinic_id (patients_consultations db);
  ok_consultation_patient :
    required PatientConsultation.patient_id (patients_consultations db);
  ok_consultation_doctor :
    required PatientConsultation.doctor_id (patients_consultations db);
  ok_user_keys : keyed User.user_id (users db);
  ok_user_name : required User.username (users db);
  ok_user_email : required User.email (users db);
  ok_user_password : required User.hashed_password (users db);
  ok_user_emails : unique_column User.email (users db)
}.

(** The primary key of a mapped object. *)
Definition primary_key (e : entity) : option Z :=
  match e with
  | AClinic r => Clinic.clinic_id r
  | ADoctor r => Doctor.doctor_id r
  | APatient r => Patient.patient_id r
  | AConsultation r => PatientConsultation.consultation_id r
  | AUser r => User.user_id r
  end.

(** An object that is added has no primary key yet. *)
Definition transient (c : change) : Prop :=
  match c with
  | New e => primary_key e = None
  | _ => True
  end.

Definition kiran : PatientCreate := {|
  pc_patient_name := "Kiran";
  pc_mobile := "9333333333";
  pc_age := 52;
  pc_gender := "M";
  pc_status := "active";
  pc_doctor_id := 1;
  pc_doctor_name := "Rao"
|}.

Definition no_patients_of_doctor (db : Store) (doctor_id : Z) : Prop :=
  forall p, In p (patients db) -> Patient.doctor_id p <> Some doctor_id.

Definition no_consultations_of_doctor (db : Store) (doctor_id : Z) : Prop :=
  forall k, In k (patients_consultations db) ->
            PatientConsultation.doctor_id k <> Some doctor_id.

(** Update requests that set no field. *)
Definition no_clinic_update : ClinicUpdate := {|
  cu_clinic_name := None; cu_address := None; cu_mobile := None;
  cu_status := None
|}.

Definition no_doctor_update : DoctorUpdate := {|
  du_doctor_name := None; du_mobile := None; du_email := None;
  du_address := None; du_specialization := None; du_status := None
|}.

Definition no_patient_update : PatientUpdate := {|
  pu_patient_name := None; pu_mobile := None; pu_age := None;
  pu_gender := None; pu_status := None; pu_doctor_id := None;
  pu_doctor_name := None
|}.

(** An update that sets nothing but the doctor of a patient. *)
Definition set_patient_doctor (doctor_id : Z) : PatientUpdate := {|
  pu_patient_name := None; pu_mobile := None; pu_age := None;
  pu_gender := None; pu_status := None;
  pu_doctor_id := Some (Some doctor_id);
  pu_doctor_name := None
|}.

Definition no_consultations_of_patient (db : Store) (patient_id : Z) : Prop :=
  forall k, In k (patients_consultations db) ->
            PatientConsultation.patient_id k <> Some patient_id.

(** Whether a request updates a row. *)
Definition updates (r : request) : bool :=
  match r with
  | UpdateClinic _ _ | UpdateDoctor _ _ _ | UpdatePatient _ _ _ => true
  | _ => false
  end.

(** * Properties *)


(** ** Strings *)

Lemma length_append (a b : string) :
  String.length (a +:+ b) = (String.length a + String.length b)%nat.
Proof. induction a as [|c a IH]; simpl; [reflexivity | now rewrite IH]. Qed.

Lemma substring_append_exact (a b : string) :
  String.substring 0 (String.length a) (a +:+ b) = a.
Proof. induction a as [|c a IH]; simpl; [now destruct b | now rewrite IH]. Qed.

Lemma all_chars_append p (a b : string) :
  all_chars p (a +:+ b) = all_chars p a && all_chars p b.
Proof.
  induction a as [|c a IH]; simpl; [reflexivity |].
  now rewrite IH, andb_assoc.
Qed.

Lemma split_on_without sep (s : string) :
  all_chars (fun c => negb (Ascii.eqb c sep)) s = true ->
  split_on sep s = [s].
Proof.
  induction s as [|c s IH]; simpl; [reflexivity |].
  intros H. apply andb_prop in H as [Hc Hs].
  apply negb_true_iff in Hc. rewrite Hc, (IH Hs). reflexivity.
Qed.

Lemma all_chars_impl (p q : ascii -> bool) (s : string) :
  (forall c, p c = true -> q c = true) ->
  all_chars p s = true -> all_chars q s = true.
Proof.
  intros Hpq. induction s as [|c s IH]; simpl; [reflexivity |].
  intros H. apply andb_prop in H as [Hc Hs].
  now rewrite (Hpq _ Hc), (IH Hs).
Qed.

(** ** bcrypt *)

Module BcryptFacts.
Import Bcrypt.

Lemma is_b64_not_dollar c :
  is_b64 c = true -> negb (Ascii.eqb c "$") = true.
Proof.
  intros H. destruct (Ascii.eqb_spec c "$") as [->|]; [|reflexivity].
  vm_compute in H. discriminate.
Qed.

Lemma b64_char_ok n : is_b64 (b64_char n) = true.
Proof.
  unfold b64_char.
  assert (Hlt : (N.to_nat (n mod 64) < 64)%nat).
  { pose proof (N.mod_upper_bound n 64). lia. }
  revert Hlt. generalize (N.to_nat (n mod 64)). intros k Hk.
  do 64 (destruct k as [|k]; [vm_compute; reflexivity |]). lia.
Qed.

Lemma encode_length len l : String.length (encode len l) = len.
Proof. revert l. induction len as [|k IH]; intros l; simpl; [reflexivity | now rewrite IH]. Qed.

Lemma encode_b64 len l : all_chars is_b64 (encode len l) = true.
Proof.
  revert l. induction len as [|k IH]; intros l; simpl; [reflexivity |].
  now rewrite b64_char_ok, IH.
Qed.

Lemma get_encode (len : nat) (l : list N) (i : nat) :
  (i < len)%nat -> String.get i (encode len l) = Some (b64_char (nth i l 0%N)).
Proof.
  revert l i. induction len as [|k IH]; intros l i Hi; [lia |].
  destruct i as [|i]; cbn [encode String.get].
  - now destruct l.
  - rewrite IH by lia. now destruct l; [destruct i |].
Qed.

Lemma last_group_ok (k : N) :
  (k < 4)%N -> (b64_value (b64_char (k * 16)) mod 16 =? 0)%N = true.
Proof.
  intros H.
  assert (k = 0 \/ k = 1 \/ k = 2 \/ k = 3)%N as [->|[->|[->| ->]]] by lia;
    vm_compute; reflexivity.
Qed.

Lemma encode_salt_length entropy : String.length (encode_salt entropy) = 22%nat.
Proof. apply encode_length. Qed.

Lemma encode_salt_b64 entropy : all_chars is_b64 (encode_salt entropy) = true.
Proof. apply encode_b64. Qed.

(** The salt [gensalt] makes of sixteen bytes is one the decoder
    accepts. *)
Lemma encode_salt_no_trailing_bits entropy :
  no_trailing_bits (encode_salt entropy) = true.
Proof.
  unfold no_trailing_bits, encode_salt. rewrite get_encode by lia.
  change (nth 21 (groups (salt_bytes entropy)) 0%N)
    with ((nth 15 entropy 0 mod 256) mod 4 * 16)%N.
  apply last_group_ok. apply N.mod_upper_bound. discriminate.
Qed.

Lemma split_salt_string (rest : string) :
  all_chars is_b64 rest = true ->
  split_on "$" ("$2b$12$" +:+ rest) = [""; "2b"; "12"; rest].
Proof.
  intros H. simpl.
  rewrite split_on_without; [reflexivity |].
  exact (all_chars_impl _ _ _ is_b64_not_dollar H).
Qed.

Section Facts.
Variable eks : string -> Z -> string -> list N.
Variable reject_long : bool.

(** What [hashpw] returns for a salt string made by [gensalt], with or
    without a digest after it. *)
Lemma hashpw_gensalt (password tail : string) (entropy : list N) :
  (reject_long && (72 <? String.length password)%nat) = false ->
  all_chars is_b64 tail = true ->
  hashpw eks reject_long password (gensalt entropy +:+ tail)
  = Ok (gensalt entropy
        +:+ encode 31 (eks (String.substring 0 72 password) 12
                         (encode_salt entropy))).
Proof.
  intros Hlen Htail. unfold hashpw. rewrite Hlen.
  unfold gensalt.
  change (("$2b$12$" +:+ encode_salt entropy) +:+ tail)
    with ("$2b$12$" +:+ (encode_salt entropy +:+ tail)).
  rewrite split_salt_string
    by (now rewrite all_chars_append, encode_salt_b64, Htail).
  pose proof (encode_salt_length entropy) as Hl.
  pose proof (encode_salt_b64 entropy) as Hb.
  pose proof (encode_salt_no_trailing_bits entropy) as Hc.
  generalize dependent (encode_salt entropy). intros salt Hl Hb Hc.
  assert (Hne : nonempty (salt +:+ tail) = true).
  { destruct salt; [discriminate Hl | reflexivity]. }
  cbn [List.filter nonempty]. rewrite Hne.
  replace (String.substring 0 22 (salt +:+ tail)) with salt
    by (rewrite <- Hl at 1; now rewrite substring_append_exact).
  rewrite length_append, Hl, Hb, Hc.
  replace (22 + String.length tail <? 22)%nat with false
    by (symmetry; apply Nat.ltb_ge; lia).
  reflexivity.
Qed.
End Facts.
End BcryptFacts.

(** ** Credential store *)

Lemma append_inj_r (a b c : string) : a +:+ b = a +:+ c -> b = c.
Proof. induction a as [|x a IH]; simpl; [trivial | intros H; injection H; auto]. Qed.

Lemma append_empty_r (a : string) : a +:+ "" = a.
Proof.
  induction a as [|x a IH]; [reflexivity |].
  change (String x (a +:+ "") = String x a). now rewrite IH.
Qed.

Lemma hash_password_value platform entropy password :
  bcrypt_rejects_long platform && (72 <? String.length password)%nat = false ->
  hash_password platform entropy password
  = Ok (Bcrypt.gensalt entropy +:+ digest platform entropy password).
Proof.
  intros Hlen. unfold hash_password.
  pose proof (BcryptFacts.hashpw_gensalt (eksblowfish platform)
                (bcrypt_rejects_long platform) password "" entropy Hlen eq_refl) as H.
  rewrite append_empty_r in H. rewrite H. reflexivity.
Qed.

Lemma verify_password_value platform entropy p q :
  bcrypt_rejects_long platform && (72 <? String.length p)%nat = false ->
  verify_password platform p
    (Bcrypt.gensalt entropy +:+ digest platform entropy q)
  = Ok (bool_decide (digest platform entropy p = digest platform entropy q)).
Proof.
  intros Hlen. unfold verify_password, Bcrypt.checkpw.
  rewrite BcryptFacts.hashpw_gensalt
    by (try exact Hlen; apply BcryptFacts.encode_b64).
  fold (digest platform entropy p). f_equal. unfold str_eqb.
  apply bool_decide_ext. split; [apply append_inj_r | congruence].
Qed.

Lemma long_enough_false (b : bool) (n : nat) :
  (b = true -> (n <= 72)%nat) -> b && (72 <? n)%nat = false.
Proof.
  destruct b; simpl; [|reflexivity].
  intros H. apply Nat.ltb_ge. auto.
Qed.

(** C2: [password73 "1"] and [password73 "2"] differ in their 73rd byte
    only.  Where bcrypt cuts a password to its first 72 bytes,
    [hash_password] hashes the second and [verify_password] accepts the
    first against that hash.  Where bcrypt refuses passwords over 72
    bytes, [hash_password] raises [ValueError] for the second, and so
    does [verify_password] for the first against the hash an earlier
    bcrypt made of the second.  On no platform does [verify_password]
    return [False] for the wrong password. *)
Theorem verify_password_wrong_password (platform : Platform) (entropy : list N) :
  password73 "1" <> password73 "2" /\
  if bcrypt_rejects_long platform then
    hash_password platform entropy (password73 "2")
    = Raise (ValueError
        "password cannot be longer than 72 bytes, truncate manually if necessary (e.g. my_password[:72])") /\
    verify_password platform (password73 "1")
      (Bcrypt.gensalt entropy +:+ digest platform entropy (password73 "2"))
    = Raise (ValueError
        "password cannot be longer than 72 bytes, truncate manually if necessary (e.g. my_password[:72])")
  else
    exists h,
      hash_password platform entropy (password73 "2") = Ok h /\
      verify_password platform (password73 "1") h = Ok true.
Proof.
  split; [discriminate |].
  destruct (bcrypt_rejects_long platform) eqn:Hpol.
  - split.
    + unfold hash_password, Bcrypt.hashpw. rewrite Hpol. reflexivity.
    + unfold verify_password, Bcrypt.checkpw, Bcrypt.hashpw. rewrite Hpol.
      reflexivity.
  - eexists. split.
    + apply hash_password_value. now rewrite Hpol.
    + rewrite verify_password_value by now rewrite Hpol.
      now rewrite bool_decide_eq_true_2.
Qed.

(** A password of at most 72 bytes verifies against its own hash, on
    every platform. *)
Lemma verify_password_own_hash platform entropy (p : string) :
  (String.length p <= 72)%nat ->
  exists h,
    hash_password platform entropy p = Ok h /\
    verify_password platform p h = Ok true.
Proof.
  intros Hlen.
  assert (Hp : bcrypt_rejects_long platform && (72 <? String.length p)%nat = false)
    by (apply long_enough_false; intros _; exact Hlen).
  eexists. split; [apply hash_password_value, Hp |].
  rewrite verify_password_value by exact Hp.
  now rewrite bool_decide_eq_true_2.
Qed.

(** C8: a stored secret that is not a bcrypt hash makes [verify_password]
    raise [ValueError] instead of returning [False]. *)
Theorem verify_password_malformed_secret (platform : Platform) :
  verify_password platform "secret123" "secret123"
  = Raise (ValueError "Invalid salt").
Proof.
  unfold verify_password, Bcrypt.checkpw, Bcrypt.hashpw.
  rewrite andb_false_r. reflexivity.
Qed.

(** ** Results *)

Lemma bind_Ok {A B} (r : result A) (k : A -> result B) (b : B) :
  r ≫= k = Ok b -> exists a, r = Ok a /\ k a = Ok b.
Proof. destruct r as [a|e]; simpl; [eauto | discriminate]. Qed.

Ltac bind_inv H :=
  repeat match type of H with
    | _ ≫= _ = Ok _ =>
        let a := fresh "u" in
        let Ha := fresh "Hchk" in
        apply bind_Ok in H as (a & Ha & H); try destruct a
    end.

(** ** Token service *)

Module TokenFacts.
Import Jose.

Lemma to_json_exp t : to_json "exp" (PDatetime t) = Some (JInt (timegm t)).
Proof. reflexivity. Qed.

(** The payload of an issued token: the two claims and the expiry in
    whole seconds, nothing else. *)
Lemma issued_payload_lookup subject role expire k :
  map_imap to_json (<["exp" := PDatetime expire]> (identity subject role)) !! k
  = if bool_decide (k = "exp") then Some (JInt (timegm expire))
    else if bool_decide (k = "sub") then Some (JStr subject)
    else if bool_decide (k = "role") then Some (JStr role)
    else None.
Proof.
  rewrite map_lookup_imap. unfold identity.
  repeat case_bool_decide; subst; simplify_map_eq; reflexivity.
Qed.

Lemma issued_serialisable subject role expire :
  serialisable (<["exp" := PDatetime expire]> (identity subject role)) = true.
Proof.
  unfold serialisable. apply bool_decide_eq_true_2.
  intros k v Hkv. unfold identity in Hkv.
  apply lookup_insert_Some in Hkv as [[<- <-]|[_ Hkv]]; [now eexists |].
  apply lookup_insert_Some in Hkv as [[<- <-]|[_ Hkv]]; [now eexists |].
  apply lookup_singleton_Some in Hkv as [<- <-]. now eexists.
Qed.

(** A token signed with the application's key and carrying only [sub],
    [role] and an integer [exp] is accepted up to the second [exp] and
    refused afterwards. *)
Lemma verify_token_signed (t : Z) (payload : gmap string jval) subject exp :
  payload !! "sub" = Some (JStr subject) ->
  payload !! "exp" = Some (JInt exp) ->
  payload !! "iat" = None -> payload !! "nbf" = None ->
  payload !! "aud" = None -> payload !! "jti" = None ->
  payload !! "at_hash" = None ->
  verify_token t (Compact ALGORITHM payload (HMAC ALGORITHM SECRET_KEY payload))
  = if exp <? timegm t then Raise credentials_exception else Ok payload.
Proof.
  intros Hsub Hexp Hiat Hnbf Haud Hjti Hat.
  unfold verify_token, decode.
  rewrite (bool_decide_eq_true_2 (ALGORITHM ∈ [ALGORITHM])) by apply list_elem_of_here.
  rewrite bool_decide_eq_true_2 by reflexivity. cbn [negb].
  unfold validate_claims, validate_iat, validate_nbf, validate_exp,
    validate_aud, validate_sub, validate_jti, validate_at_hash.
  rewrite Hiat, Hnbf, Hexp, Haud, Hsub, Hjti, Hat.
  cbn [claimed_int int_of is_str negb mbind result_bind].
  destruct (exp <? timegm t); cbn [mbind result_bind]; [reflexivity |].
  unfold get. now rewrite Hsub.
Qed.

(** What [verify_token] accepts: a token under the application's
    algorithm, signed with its key, whose claims pass the validation and
    name a subject, which is then a string. *)
Lemma verify_token_accepts (t : Z) (token : token) (payload : gmap string jval) :
  verify_token t token = Ok payload ->
  token = Compact ALGORITHM payload (HMAC ALGORITHM SECRET_KEY payload) /\
  validate_claims t payload = Ok tt /\
  exists subject, payload !! "sub" = Some (JStr subject).
Proof.
  intros H. unfold verify_token, decode in H.
  destruct token as [s|alg body sig]; [discriminate |].
  case_bool_decide as Halg; cbn [negb] in H; [|discriminate].
  case_bool_decide as Hsig; cbn [negb] in H; [|discriminate].
  apply list_elem_of_singleton in Halg. subst alg sig.
  destruct (validate_claims t body) as [[]|e] eqn:Hv;
    cbn [mbind result_bind] in H; [|destruct e; discriminate].
  destruct (get body "sub") as [sub|] eqn:Hsub; [|discriminate].
  injection H as <-. split; [reflexivity |]. split; [exact Hv |].
  unfold validate_claims in Hv. bind_inv Hv.
  match goal with E : validate_sub _ = Ok _ |- _ =>
    unfold validate_sub in E end.
  unfold get in Hsub.
  destruct (body !! "sub") as [[]|]; try discriminate; eauto.
Qed.

Lemma datetime_add_ok (t delta : Z) :
  datetime_min <= t + delta <= datetime_max ->
  datetime_add t delta = Ok (t + delta).
Proof.
  intros [Hlo Hhi]. unfold datetime_add. cbv zeta.
  destruct (Z.ltb_spec (t + delta) datetime_min); [lia |].
  destruct (Z.ltb_spec datetime_max (t + delta)); [lia | reflexivity].
Qed.

Lemma datetime_add_value (t delta sum : Z) :
  datetime_add t delta = Ok sum -> sum = t + delta.
Proof.
  unfold datetime_add. cbv zeta. destruct (_ || _); [discriminate |].
  now intros [= <-].
Qed.

Lemma timegm_mono a b : a <= b -> timegm a <= timegm b.
Proof. intros H. unfold timegm. apply Z.div_le_mono; lia. Qed.

Lemma timegm_next a : timegm (a + second) = timegm a + 1.
Proof.
  unfold timegm, second.
  replace (a + 1000000) with (a + 1 * 1000000) by lia.
  rewrite Z.div_add by lia. reflexivity.
Qed.

End TokenFacts.

(** C1, as amended: for a ttl that is absent or positive and an expiry,
    issuance time plus ttl, that [datetime] can hold (up to the end of
    year 9999), the token verifies at issuance and at every time whose
    whole second is not past that of the expiry, returning the subject
    and the role; it is refused once the whole second of the clock is
    past that of the expiry, so at the latest one second after it; with
    no ttl the expiry is fifteen minutes after issuance. *)
Theorem token_lifecycle (subject role : string) (ttl : option Z) (issued : Z) :
  (forall d, ttl = Some d -> 0 < d) ->
  datetime issued ->
  issued + default (minutes 15) ttl <= datetime_max ->
  let expiry := issued + default (minutes 15) ttl in
  exists token payload,
    create_access_token issued (identity subject role) ttl = Ok token /\
    payload !! "sub" = Some (Jose.JStr subject) /\
    payload !! "role" = Some (Jose.JStr role) /\
    payload !! "exp" = Some (Jose.JInt (Jose.timegm expiry)) /\
    verify_token issued token = Ok payload /\
    (forall t, Jose.timegm t <= Jose.timegm expiry ->
               verify_token t token = Ok payload) /\
    (forall t, Jose.timegm expiry < Jose.timegm t ->
               verify_token t token = Raise credentials_exception) /\
    (forall t, expiry + second <= t ->
               verify_token t token = Raise credentials_exception).
Proof.
  intros Hpos [Hmin Hmax] Hrange expiry.
  assert (Hlater : issued <= expiry).
  { unfold expiry. destruct ttl as [d|]; simpl.
    - specialize (Hpos d eq_refl). lia.
    - unfold minutes. lia. }
  assert (Hexpire :
    (if truthy ttl then datetime_add issued (default 0 ttl)
     else datetime_add issued (minutes 15)) = Ok expiry).
  { assert (Hin : datetime_min <= expiry <= datetime_max)
      by (unfold expiry in *; lia).
    unfold expiry in *. destruct ttl as [d|]; simpl in *.
    - specialize (Hpos d eq_refl).
      destruct (Z.eqb_spec d 0); simpl; [lia |].
      now apply TokenFacts.datetime_add_ok.
    - now apply TokenFacts.datetime_add_ok. }
  set (payload := map_imap Jose.to_json
                    (<["exp" := Jose.PDatetime expiry]> (identity subject role))).
  exists (Jose.Compact ALGORITHM payload (Jose.HMAC ALGORITHM SECRET_KEY payload)),
         payload.
  assert (Hverify : forall t,
    verify_token t (Jose.Compact ALGORITHM payload
                      (Jose.HMAC ALGORITHM SECRET_KEY payload))
    = if Jose.timegm expiry <? Jose.timegm t
      then Raise credentials_exception else Ok payload).
  { intros t. apply TokenFacts.verify_token_signed with (subject := subject);
      unfold payload; rewrite TokenFacts.issued_payload_lookup; reflexivity. }
  split.
  { unfold create_access_token. rewrite Hexpire.
    cbn [mbind result_bind]. unfold Jose.encode.
    rewrite TokenFacts.issued_serialisable. reflexivity. }
  repeat split;
    try (unfold payload; rewrite TokenFacts.issued_payload_lookup; reflexivity).
  - rewrite Hverify.
    pose proof (TokenFacts.timegm_mono _ _ Hlater).
    destruct (Z.ltb_spec (Jose.timegm expiry) (Jose.timegm issued)); [lia | reflexivity].
  - intros t Ht. rewrite Hverify.
    destruct (Z.ltb_spec (Jose.timegm expiry) (Jose.timegm t)); [lia | reflexivity].
  - intros t Ht. rewrite Hverify.
    destruct (Z.ltb_spec (Jose.timegm expiry) (Jose.timegm t)); [reflexivity | lia].
  - intros t Ht. rewrite Hverify.
    pose proof (TokenFacts.timegm_mono _ _ Ht) as Hm.
    rewrite TokenFacts.timegm_next in Hm.
    destruct (Z.ltb_spec (Jose.timegm expiry) (Jose.timegm t)); [reflexivity | lia].
Qed.

Lemma token_lifecycle_witness :
  let expiry := 1700000000000000 + default (minutes 15) (Some second) in
  exists token payload,
    create_access_token 1700000000000000 (identity "alice" "user") (Some second)
    = Ok token /\
    payload !! "sub" = Some (Jose.JStr "alice") /\
    payload !! "role" = Some (Jose.JStr "user") /\
    payload !! "exp" = Some (Jose.JInt (Jose.timegm expiry)) /\
    verify_token 1700000000000000 token = Ok payload /\
    (forall t, Jose.timegm t <= Jose.timegm expiry ->
               verify_token t token = Ok payload) /\
    (forall t, Jose.timegm expiry < Jose.timegm t ->
               verify_token t token = Raise credentials_exception) /\
    (forall t, expiry + second <= t ->
               verify_token t token = Raise credentials_exception).
Proof.
  apply (token_lifecycle "alice" "user" (Some second) 1700000000000000).
  - intros d Hd. injection Hd as <-. reflexivity.
  - unfold datetime, datetime_min, datetime_max. lia.
  - unfold datetime_max, second. simpl. lia.
Defined.

(** C1, as stated, fails at three inputs: with a ttl of one second the
    token still verifies one and a half seconds after issuance; with a
    ttl of minus one second it does not verify at issuance; with a ttl of
    zero it still verifies one second after issuance. *)
Lemma token_lifecycle_counterexample :
  (exists token payload,
     create_access_token 1700000000000000 (identity "alice" "user") (Some second)
     = Ok token /\
     1700000000000000 + second < 1700000001500000 /\
     verify_token 1700000001500000 token = Ok payload) /\
  (exists token,
     create_access_token 1700000000000000 (identity "alice" "user")
       (Some (- second)) = Ok token /\
     verify_token 1700000000000000 token = Raise credentials_exception) /\
  (exists token payload,
     create_access_token 1700000000000000 (identity "alice" "user") (Some 0)
     = Ok token /\
     1700000000000000 + 0 < 1700000001000000 /\
     verify_token 1700000001000000 token = Ok payload).
Proof.
  repeat split.
  - eexists; eexists. split; [vm_compute; reflexivity |].
    split; [reflexivity | vm_compute; reflexivity].
  - eexists. split; [vm_compute; reflexivity | vm_compute; reflexivity].
  - eexists; eexists. split; [vm_compute; reflexivity |].
    split; [reflexivity | vm_compute; reflexivity].
Qed.

(** Past the end of year 9999 there is no expiry: a ttl of 8000 years
    makes [create_access_token] raise [OverflowError]. *)
Example ttl_beyond_datetime :
  create_access_token 1700000000000000 (identity "alice" "user")
    (Some (8000 * 365 * 24 * 60 * 60 * second))
  = Raise (OverflowError "date value out of range").
Proof. reflexivity. Qed.


(** ** Queries *)

Lemma eqv_true {A} `{EqDecision A} (column : option A) (v : A) :
  eqv column v = true <-> column = Some v.
Proof. unfold eqv. apply bool_decide_eq_true. Qed.

Lemma eqv_false {A} `{EqDecision A} (column : option A) (v : A) :
  eqv column v = false <-> column <> Some v.
Proof. unfold eqv. apply bool_decide_eq_false. Qed.

Lemma first_Some {A} (p : A -> bool) (rows : list A) (x : A) :
  first p rows = Some x -> In x rows /\ p x = true.
Proof. apply List.find_some. Qed.

Lemma first_None {A} (p : A -> bool) (rows : list A) :
  first p rows = None <-> forall x, In x rows -> p x = false.
Proof.
  split; [apply List.find_none |].
  induction rows as [|r rows IH]; simpl; [reflexivity |].
  intros H. rewrite (H r (or_introl eq_refl)). apply IH.
  intros x Hx. apply H. now right.
Qed.

Lemma first_exists {A} (p : A -> bool) (rows : list A) :
  (exists x, In x rows /\ p x = true) <-> exists y, first p rows = Some y.
Proof.
  split.
  - intros (x & Hin & Hp). destruct (first p rows) eqn:E; [eauto |].
    rewrite first_None in E. rewrite (E x Hin) in Hp. discriminate.
  - intros (y & Hy). apply first_Some in Hy. eauto.
Qed.

Lemma all_nil {A} (p : A -> bool) (rows : list A) :
  all p rows = [] <-> forall x, In x rows -> p x = false.
Proof.
  unfold all. induction rows as [|r rows IH]; simpl.
  - split; [intros _ x [] | reflexivity].
  - destruct (p r) eqn:E; split.
    + discriminate.
    + intros H. rewrite (H r (or_introl eq_refl)) in E. discriminate.
    + intros H x [<-|Hx]; [exact E | now apply IH].
    + intros H. apply IH. intros x Hx. apply H. now right.
Qed.

Lemma count_zero {A} (p : A -> bool) (rows : list A) :
  count p rows = 0 <-> forall x, In x rows -> p x = false.
Proof.
  unfold count. rewrite <- all_nil. unfold all.
  destruct (List.filter p rows); simpl; split; intros H; try reflexivity;
    try discriminate; lia.
Qed.

Lemma count_nonneg {A} (p : A -> bool) (rows : list A) : 0 <= count p rows.
Proof. unfold count. lia. Qed.

Lemma clinic_by_id_found (db : Store) (clinic_id : Z) :
  clinic_exists db clinic_id <->
  exists c, first (fun c => eqv (Clinic.clinic_id c) clinic_id) (clinics db) = Some c.
Proof.
  rewrite <- first_exists. unfold clinic_exists.
  split; intros (c & Hin & Hc); exists c; split; auto; now apply eqv_true.
Qed.

Lemma clinic_by_id_missing (db : Store) (clinic_id : Z) :
  ~ clinic_exists db clinic_id <->
  first (fun c => eqv (Clinic.clinic_id c) clinic_id) (clinics db) = None.
Proof.
  rewrite clinic_by_id_found. split.
  - intros H. destruct (first _ _) eqn:E; [exfalso; eauto | reflexivity].
  - intros -> [c Hc]. discriminate.
Qed.

(** ** Identity resolution and access policy *)

Lemma first_at {A} (p : A -> bool) (before : list A) (x : A) (after : list A) :
  (forall y, In y before -> p y = false) -> p x = true ->
  first p (before ++ x :: after)%list = Some x.
Proof.
  intros Hbefore Hx. unfold first.
  induction before as [|y before IH]; simpl.
  - now rewrite Hx.
  - rewrite (Hbefore y (or_introl eq_refl)). apply IH.
    intros z Hz. apply Hbefore. now right.
Qed.

(** C6: identity resolution verifies the token first and fails as the
    verification fails; the verified payload names a subject, and
    resolution then fails with "User not Found" when no user row has the
    subject as its username, and otherwise takes the first row that has,
    failing with "Inactive user" when that row is not active and
    returning it when it is; it leaves the session as it found it; the
    admin check runs on the resolved user only, so every resolution
    failure is the failure of the dependent check too. *)
Theorem identity_resolution_order (now : Z) (token : Jose.token) (s : Session) :
  snd (get_current_user now token s) = s /\
  (forall e, verify_token now token = Raise e ->
     fst (get_current_user now token s) = Raise e) /\
  (forall payload, verify_token now token = Ok payload ->
     exists subject,
       payload !! "sub" = Some (Jose.JStr subject) /\
       ((forall u, In u (users (database s)) ->
                   User.username u <> Some subject) ->
          fst (get_current_user now token s) = Raise user_not_found) /\
       (forall before user after,
          users (database s) = (before ++ user :: after)%list ->
          (forall u, In u before -> User.username u <> Some subject) ->
          User.username user = Some subject ->
          (User.is_active user <> Some true ->
             fst (get_current_user now token s)
             = Raise (exception 400 "Inactive user")) /\
          (User.is_active user = Some true ->
             fst (get_current_user now token s) = Ok user))) /\
  (forall e, fst (get_current_user now token s) = Raise e ->
     admin_dependency now token s = (Raise e, s)) /\
  (forall user, fst (get_current_user now token s) = Ok user ->
     admin_dependency now token s
     = (if bool_decide (User.role user = Some "admin") then Ok user
        else Raise (exception 403
                      "Not enough permissions. Admin access required."), s)).
Proof.
  assert (Hsnd : snd (get_current_user now token s) = s).
  { unfold get_current_user, bind, lift, db_query, raise, abort, ret.
    destruct (verify_token now token) as [payload|e]; [|reflexivity].
    destruct (first _ _) as [user|]; [|reflexivity].
    destruct (negb _); reflexivity. }
  split; [exact Hsnd |].
  split.
  { intros e He. unfold get_current_user, bind, lift. now rewrite He. }
  split.
  { intros payload Hp.
    destruct (TokenFacts.verify_token_accepts _ _ _ Hp) as (_ & _ & subject & Hsub).
    exists subject. split; [exact Hsub |].
    unfold get_current_user, bind, lift, db_query, raise, abort, ret.
    rewrite Hp. unfold Jose.get. rewrite Hsub. cbn [username_is].
    split.
    - intros Hnone.
      replace (first _ _) with (@None User.row); [reflexivity |].
      symmetry. apply first_None. intros u Hu. apply eqv_false. auto.
    - intros before user after Hrows Hbefore Hname.
      rewrite Hrows, first_at.
      + split.
        * intros Hact.
          destruct (User.is_active user) as [[|]|]; [congruence | reflexivity..].
        * intros ->. reflexivity.
      + intros u Hu. apply eqv_false. auto.
      + now apply eqv_true. }
  split.
  - intros e He. unfold admin_dependency, bind.
    destruct (get_current_user now token s) as [[u|e'] s'].
    + discriminate.
    + simpl in *. congruence.
  - intros user Hu. unfold admin_dependency, bind.
    destruct (get_current_user now token s) as [[u|e'] s']; simpl in *.
    + injection Hu as ->. subst s'. unfold require_admin, abort, raise, ret.
      destruct (bool_decide _); reflexivity.
    + discriminate.
Qed.

(** The precedence at an example: an inactive user who is no admin is
    told "Inactive user", not "Not enough permissions". *)
Example inactive_before_forbidden :
  (token ← create_access_token 1700000000000000 (identity "bob" "user") None;
   Ok (fst (admin_dependency 1700000000000000 token
              (mkSession
                 (mkStore [] [] [] []
                    [User.mk (Some 1) (Some "bob") (Some "bob@example.org")
                       (Some "x") None (Some "user") (Some false) None None])
                 []))))
  = Ok (Raise (exception 400 "Inactive user")).
Proof. vm_compute. reflexivity. Qed.

(** ** Referential integrity guards *)

Ltac session_steps_in H :=
  repeat (progress unfold bind, ret, raise, abort, lift, try_except, db_query,
            db_add, db_modified, db_delete, db_rollback, db_refresh, commit,
            db_commit in H);
  cbn [database pending fst snd app] in H.

Ltac session_steps :=
  repeat (progress unfold bind, ret, raise, abort, lift, try_except, db_query,
            db_add, db_modified, db_delete, db_rollback, db_refresh, commit,
            db_commit);
  cbn [database pending fst snd app].

(** Case analysis on the innermost scrutinee. *)
Ltac break_hyp H :=
  match type of H with
  | context [match ?x with _ => _ end] =>
      lazymatch x with
      | context [match _ with _ => _ end] => fail
      | _ => destruct x eqn:?
      end
  end.

Ltac break_goal :=
  match goal with
  | |- context [match ?x with _ => _ end] =>
      lazymatch x with
      | context [match _ with _ => _ end] => fail
      | _ => destruct x eqn:?
      end
  end.

Lemma flush_single fk ef now db c :
  flush fk ef now db [c]
  = match flush_one fk ef now db c with
    | Ok (d, e) => Ok (d, [e])
    | Raise x => Raise x
    end.
Proof.
  cbn [flush]. destruct (flush_one fk ef now db c) as [[d e]|x]; reflexivity.
Qed.

(** Run a handler on a fresh session inside hypothesis [H] and split on
    every test it makes. *)
Ltac run_in H :=
  session_steps_in H; rewrite ?flush_single in H;
  repeat (break_hyp H; cbn [database pending fst snd app] in H;
          rewrite ?flush_single in H).

(** C10: for a clinic that exists and has no doctors, listing its doctors
    raises 404 instead of returning the empty list; likewise for its
    patients. *)
Theorem empty_listing_not_found (clinic_id : Z) (s : Session) :
  clinic_exists (database s) clinic_id ->
  (no_doctors (database s) clinic_id ->
     get_doctors_by_clinic clinic_id s
     = (Raise (exception 404
                 ("No doctors found for clinic with id " +:+ pretty clinic_id)),
        s)) /\
  (no_patients (database s) clinic_id ->
     get_patients_by_clinic clinic_id s
     = (Raise (exception 404
                 ("No Patients found for clinic with id " +:+ pretty clinic_id)),
        s)).
Proof.
  intros Hc. apply clinic_by_id_found in Hc as [c Hc]. split; intros Hnone.
  - unfold get_doctors_by_clinic, clinic_by_id. session_steps. rewrite Hc.
    replace (all _ _) with (@nil Doctor.row); [reflexivity |].
    symmetry. apply all_nil. intros d Hd. apply eqv_false. now apply Hnone.
  - unfold get_patients_by_clinic, clinic_by_id. session_steps. rewrite Hc.
    replace (all _ _) with (@nil Patient.row); [reflexivity |].
    symmetry. apply all_nil. intros p Hp. apply eqv_false. now apply Hnone.
Qed.

Lemma empty_listing_not_found_witness :
  (no_doctors one_clinic 1 ->
     get_doctors_by_clinic 1 (mkSession one_clinic [])
     = (Raise (exception 404 ("No doctors found for clinic with id " +:+ pretty 1)),
        mkSession one_clinic [])) /\
  (no_patients one_clinic 1 ->
     get_patients_by_clinic 1 (mkSession one_clinic [])
     = (Raise (exception 404 ("No Patients found for clinic with id " +:+ pretty 1)),
        mkSession one_clinic [])).
Proof.
  apply (empty_listing_not_found 1 (mkSession one_clinic [])).
  eexists. split; [left; reflexivity | reflexivity].
Defined.


(** C4, as amended: for a clinic id and a doctor id that are integers
    of SQLite, creating a patient fails with 404 when the clinic does not
    exist, and with one and the same 404, "Doctor with id D not found in
    this clinic", whenever no doctor D belongs to the clinic, be it that
    doctor D does not exist or that D works at another clinic; a failed
    call leaves the session as it was, so no patient row is created. *)
Theorem create_patient_guards (platform : Platform) (now clinic_id : Z)
    (patient : PatientCreate) (db : Store) :
  sqlite_integer clinic_id ->
  sqlite_integer (pc_doctor_id patient) ->
  let doctor_id := pc_doctor_id patient in
  let outcome :=
    create_patient platform now clinic_id patient (mkSession db []) in
  (~ clinic_exists db clinic_id ->
     outcome
     = (Raise (exception 404
                 ("Clinic with id " +:+ pretty clinic_id +:+ " not found")),
        mkSession db [])) /\
  (clinic_exists db clinic_id ->
   (forall d, In d (doctors db) -> Doctor.doctor_id d = Some doctor_id ->
              Doctor.clinic_id d <> Some clinic_id) ->
     outcome
     = (Raise (exception 404
                 ("Doctor with id " +:+ pretty doctor_id
                  +:+ " not found in this clinic")),
        mkSession db [])) /\
  (forall e s', outcome = (Raise e, s') -> s' = mkSession db []).
Proof.
  intros _ _ doctor_id outcome. subst outcome. repeat split.
  - intros Hc. apply clinic_by_id_missing in Hc.
    unfold create_patient, clinic_by_id. session_steps. now rewrite Hc.
  - intros Hc Hd. apply clinic_by_id_found in Hc as [c Hc].
    unfold create_patient, clinic_by_id. session_steps. rewrite Hc.
    replace (first _ (doctors db)) with (@None Doctor.row); [reflexivity |].
    symmetry. apply first_None. intros d Hin.
    destruct (eqv (Doctor.doctor_id d) (pc_doctor_id patient)) eqn:E; [|reflexivity].
    apply eqv_true in E. simpl. apply eqv_false. now apply Hd.
  - intros e s' H. unfold create_patient, clinic_by_id in H.
    run_in H; try (injection H as <- <-; reflexivity); discriminate.
Qed.

Lemma create_patient_guards_witness :
  let outcome :=
    create_patient toy_platform 0 1 patient_of_doctor5
      (mkSession doctor5_elsewhere []) in
  (~ clinic_exists doctor5_elsewhere 1 ->
     outcome
     = (Raise (exception 404 ("Clinic with id " +:+ pretty 1 +:+ " not found")),
        mkSession doctor5_elsewhere [])) /\
  (clinic_exists doctor5_elsewhere 1 ->
   (forall d, In d (doctors doctor5_elsewhere) -> Doctor.doctor_id d = Some 5 ->
              Doctor.clinic_id d <> Some 1) ->
     outcome
     = (Raise (exception 404
                 ("Doctor with id " +:+ pretty 5 +:+ " not found in this clinic")),
        mkSession doctor5_elsewhere [])) /\
  (forall e s', outcome = (Raise e, s') -> s' = mkSession doctor5_elsewhere []).
Proof.
  apply (create_patient_guards toy_platform 0 1 patient_of_doctor5
           doctor5_elsewhere); unfold sqlite_integer; simpl; lia.
Defined.

(** C4, as stated, fails for clinic 1 and doctor 5 of clinic 2: the
    exception is the one raised when doctor 5 does not exist at all, not
    one of a kind of its own. *)
Lemma cross_tenant_counterexample :
  clinic_exists doctor5_elsewhere 1 /\
  (exists d, In d (doctors doctor5_elsewhere) /\
             Doctor.doctor_id d = Some 5 /\ Doctor.clinic_id d = Some 2) /\
  fst (create_patient toy_platform 0 1 patient_of_doctor5
         (mkSession doctor5_elsewhere []))
  = Raise (exception 404 "Doctor with id 5 not found in this clinic") /\
  fst (create_patient toy_platform 0 1 patient_of_doctor5
         (mkSession doctor5_elsewhere []))
  = fst (create_patient toy_platform 0 1 patient_of_doctor5
           (mkSession no_doctor5 [])).
Proof.
  split; [eexists; split; [left; reflexivity | reflexivity] |].
  split; [eexists; split; [left; reflexivity | split; reflexivity] |].
  split; vm_compute; reflexivity.
Qed.

(** C5: a consultation is created only if the clinic exists, the doctor
    and the patient are found in it and both are active; and when the
    doctor found is not active the call fails with 400 "Doctor is not
    active", whatever the status of the patient found. *)
Theorem create_consultation_guards (platform : Platform)
    (now clinic_id doctor_id patient_id : Z)
    (consultation : PatientConsultationCreate) (db : Store) :
  let outcome :=
    create_doctor_patient_consultation platform now clinic_id doctor_id
      patient_id consultation (mkSession db []) in
  (forall e s', outcome = (Ok e, s') ->
     clinic_exists db clinic_id /\
     exists d p,
       In d (doctors db) /\ Doctor.doctor_id d = Some doctor_id /\
       Doctor.clinic_id d = Some clinic_id /\
       Doctor.status d = Some "active" /\
       In p (patients db) /\ Patient.patient_id p = Some patient_id /\
       Patient.clinic_id p = Some clinic_id /\
       Patient.status p = Some "active") /\
  (forall d p,
     clinic_exists db clinic_id ->
     doctor_of_clinic db clinic_id doctor_id = Some d ->
     patient_of_clinic db clinic_id patient_id = Some p ->
     Doctor.status d <> Some "active" ->
     outcome
     = (Raise (exception 400
                 ("Doctor is not active. Current status: "
                  +:+ default "None" (Doctor.status d))),
        mkSession db [])).
Proof.
  intros outcome. subst outcome. split.
  - intros e s' H.
    unfold create_doctor_patient_consultation, clinic_by_id in H.
    run_in H; try discriminate.
    all: split; [apply clinic_by_id_found; eauto |].
    all: repeat match goal with
           | E : first _ _ = Some _ |- _ =>
               apply first_Some in E as [? ?]
           | E : _ && _ = true |- _ => apply andb_prop in E as [? ?]
           | E : negb _ = false |- _ => apply negb_false_iff in E
           | E : eqv _ _ = true |- _ => apply eqv_true in E
           end.
    all: eexists; eexists; repeat split; eassumption.
  - intros d p Hc Hd Hp Hs. apply clinic_by_id_found in Hc as [c Hc].
    unfold doctor_of_clinic in Hd. unfold patient_of_clinic in Hp.
    unfold create_doctor_patient_consultation, clinic_by_id. session_steps.
    rewrite Hc. session_steps. rewrite Hd. session_steps. rewrite Hp.
    apply eqv_false in Hs. rewrite Hs. reflexivity.
Qed.

(** ** Reachable databases are consistent *)

Lemma replace_keys {R} (key : R -> option Z) (new : R) (rows : list R) :
  map key (replace key new rows) = map key rows.
Proof.
  unfold replace. induction rows as [|r rows IH]; simpl; [reflexivity |].
  rewrite IH. case_bool_decide; congruence.
Qed.

Lemma In_replace {R} (key : R -> option Z) (new : R) (rows : list R) (x : R) :
  In x (replace key new rows) ->
  (In x rows /\ key x <> key new) \/ (x = new /\ In (key new) (map key rows)).
Proof.
  unfold replace. intros H. apply in_map_iff in H as (r & Hr & Hin).
  case_bool_decide; subst.
  - right. split; [reflexivity |]. apply in_map_iff. eauto.
  - left. auto.
Qed.

Lemma replace_In {R} (key : R -> option Z) (new : R) (rows : list R) (x : R) :
  In x rows -> key x <> key new -> In x (replace key new rows).
Proof.
  intros Hin Hne. unfold replace. apply in_map_iff. exists x.
  split; [|exact Hin]. now rewrite bool_decide_eq_false_2.
Qed.

Lemma replace_In_new {R} (key : R -> option Z) (new : R) (rows : list R) :
  In (key new) (map key rows) -> In new (replace key new rows).
Proof.
  intros H. apply in_map_iff in H as (r & Hr & Hin).
  unfold replace. apply in_map_iff. exists r.
  split; [|exact Hin]. now rewrite bool_decide_eq_true_2.
Qed.

Lemma In_others {R} (key : R -> option Z) (id : option Z) (rows : list R) (x : R) :
  In x (others key id rows) <-> In x rows /\ key x <> id.
Proof.
  unfold others. rewrite filter_In, negb_true_iff, bool_decide_eq_false.
  reflexivity.
Qed.

Lemma others_keys {R} (key : R -> option Z) (id k : option Z) (rows : list R) :
  In k (map key rows) -> k <> id -> In k (map key (others key id rows)).
Proof.
  intros H Hne. apply in_map_iff in H as (r & <- & Hin).
  apply in_map_iff. exists r. split; [reflexivity |]. now apply In_others.
Qed.

Lemma NoDup_others {R} (key : R -> option Z) (id : option Z) (rows : list R) :
  List.NoDup (map key rows) -> List.NoDup (map key (others key id rows)).
Proof.
  unfold others. induction rows as [|r rows IH]; simpl; [trivial |].
  intros H. inversion H as [|? ? Hnin Hnd]; subst.
  destruct (negb _); simpl; [|auto].
  constructor; [|auto].
  intros Hin. apply Hnin. apply in_map_iff in Hin as (x & Hx & Hin).
  apply filter_In in Hin as [Hin _]. apply in_map_iff. eauto.
Qed.

Lemma NoDup_key_unique {R} (key : R -> option Z) (rows : list R) (x y : R) :
  List.NoDup (map key rows) -> In x rows -> In y rows -> key x = key y -> x = y.
Proof.
  induction rows as [|r rows IH]; simpl; [intros _ [] |].
  intros H Hx Hy Hk. inversion H as [|? ? Hnin Hnd]; subst.
  destruct Hx as [->|Hx], Hy as [->|Hy]; auto.
  - exfalso. apply Hnin. rewrite Hk. now apply in_map.
  - exfalso. apply Hnin. rewrite <- Hk. now apply in_map.
Qed.

Lemma next_id_bound (keys : list (option Z)) (z : Z) :
  In (Some z) keys -> z < next_id keys.
Proof.
  unfold next_id. induction keys as [|k keys IH]; simpl; [intros [] |].
  intros [->|H]; simpl; [lia |]. specialize (IH H). lia.
Qed.

Lemma next_id_fresh (keys : list (option Z)) :
  ~ In (Some (next_id keys)) keys.
Proof. intros H. apply next_id_bound in H. lia. Qed.

Lemma no_children_ok {R} column (children : list R) fk parent :
  no_children column children fk parent = Ok tt ->
  forall r, In r children -> fk r <> parent.
Proof.
  unfold no_children. destruct (existsb _ _) eqn:E; [discriminate |].
  intros _ r Hr Heq.
  assert (existsb (fun r => bool_decide (fk r = parent)) children = true).
  { apply existsb_exists. exists r. split; [exact Hr |].
    now apply bool_decide_eq_true. }
  congruence.
Qed.

Lemma In_map_snoc {A B} (f : A -> B) (l : list A) (x : A) (k : B) :
  In k (map f l) -> In k (map f (l ++ [x])).
Proof. intros H. rewrite map_app. apply in_or_app. now left. Qed.

Lemma In_snoc {A} (l : list A) (x y : A) :
  In y (l ++ [x]) -> In y l \/ y = x.
Proof. intros H. apply in_app_or in H as [H|[H|[]]]; auto. Qed.

Lemma NoDup_snoc {A} (l : list A) (x : A) :
  List.NoDup l -> ~ In x l -> List.NoDup (l ++ [x]).
Proof.
  intros Hl Hx. induction Hl as [|y l Hy Hl IH]; simpl.
  - constructor; [intros [] | constructor].
  - constructor.
    + intros Hin. apply in_app_or in Hin as [Hin|[<-|[]]]; [auto |].
      apply Hx. now left.
    + apply IH. intros Hin. apply Hx. now right.
Qed.

Lemma flush_one_consistent fk ef now db c db' e :
  consistent db -> allowed db c ->
  flush_one fk ef now db c = Ok (db', e) -> consistent db'.
Proof.
  intros [Hk Hd Hp Hc] Hal H.
  destruct c as [ent|ent|ent]; destruct ent as [r|r|r|r|r];
    cbn [flush_one insert update delete] in H; cbn [allowed] in Hal;
    unfold stale in H;
    repeat break_hyp H; try discriminate;
    bind_inv H; try (injection H as <- <-); try (constructor; assumption);
    constructor; cbn [clinics doctors patients patients_consultations users];
    try assumption.
  (* a clinic is inserted *)
  - intros d Hin. apply In_map_snoc. auto.
  - intros p Hin. apply In_map_snoc. auto.
  (* a doctor is inserted *)
  - rewrite map_app. apply NoDup_snoc; [assumption |]. apply next_id_fresh.
  - intros d Hin. apply In_snoc in Hin as [Hin| ->]; auto.
  - intros k Hin. destruct (Hc k Hin) as (d & Hdin & Hid & Hcl).
    exists d. split; [apply in_or_app; now left | auto].
  (* a patient is inserted *)
  - intros p Hin. apply In_snoc in Hin as [Hin| ->]; auto.
  (* a consultation is inserted *)
  - intros k Hin. apply In_snoc in Hin as [Hin| ->]; auto.
  (* a clinic is updated *)
  - intros d Hin. rewrite replace_keys. auto.
  - intros p Hin. rewrite replace_keys. auto.
  (* a doctor is updated *)
  - rewrite replace_keys. assumption.
  - destruct Hal as (old & Hold & Hoid & Hocl).
    intros d Hin. apply In_replace in Hin as [[Hin _]|[-> _]]; [auto |].
    cbn [Doctor.clinic_id]. rewrite <- Hocl. auto.
  - destruct Hal as (old & Hold & Hoid & Hocl).
    intros k Hin. destruct (Hc k Hin) as (d & Hdin & Hid & Hcl).
    destruct (decide (Doctor.doctor_id d = Doctor.doctor_id r)) as [Heq|Hne].
    + assert (d = old) as ->.
      { apply (NoDup_key_unique Doctor.doctor_id (doctors db)); auto.
        congruence. }
      eexists. split.
      * apply replace_In_new. cbn [Doctor.doctor_id]. rewrite <- Hoid.
        now apply in_map.
      * cbn [Doctor.doctor_id Doctor.clinic_id]. split; congruence.
    + exists d. split; [|auto]. now apply replace_In.
  (* a patient is updated *)
  - destruct Hal as (old & Hold & Hocl).
    intros p Hin. apply In_replace in Hin as [[Hin _]|[-> _]]; [auto |].
    cbn [Patient.clinic_id]. rewrite <- Hocl. auto.
  (* a clinic is deleted *)
  - intros d Hin. apply others_keys; [auto |].
    eapply no_children_ok; eauto.
  - intros p Hin. apply others_keys; [auto |].
    eapply no_children_ok; eauto.
  (* a doctor is deleted *)
  - now apply NoDup_others.
  - intros d Hin. apply In_others in Hin as [Hin _]. auto.
  - intros k Hin. destruct (Hc k Hin) as (d & Hdin & Hid & Hcl).
    exists d. split; [|auto]. apply In_others. split; [assumption |].
    rewrite Hid. eapply no_children_ok; eauto.
  (* a patient is deleted *)
  - intros p Hin. apply In_others in Hin as [Hin _]. auto.
  (* a consultation is deleted *)
  - intros k Hin. apply In_others in Hin as [Hin _]. auto.
Qed.
Ltac use_guards :=
  repeat match goal with
    | E : first _ _ = Some _ |- _ => apply first_Some in E as [? ?]
    | E : _ && _ = true |- _ => apply andb_prop in E as [? ?]
    | E : eqv _ _ = true |- _ => apply eqv_true in E
    end.

Ltac unfold_handlers H :=
  unfold create_clinic, update_clinic, delete_clinic, create_doctor,
    update_doctor, delete_doctor, create_patient, update_patient,
    delete_patient, create_doctor_patient_consultation, register_user,
    register_user_checks, register_user_insert,
    clinic_by_id, doctor_in_clinic, patient_in_clinic in H.

(** The database a request leaves is the one its handler committed. *)
Lemma serve_database platform now r db :
  snd (serve platform now r db)
  = database (snd (handle platform now r (mkSession db []))).
Proof.
  unfold serve, get_db, handle, void.
  destruct (endpoint platform now r (mkSession db [])) as [[body|e] s'];
    reflexivity.
Qed.

(** A request leaves the database alone or flushes one change that its
    guards allow. *)
Lemma serve_effect platform now r db :
  snd (serve platform now r db) = db \/
  exists c e,
    allowed db c /\
    flush_one (sqlite_foreign_keys platform)
      (doctors_email_first platform) now db c
    = Ok (snd (serve platform now r db), e).
Proof.
  rewrite serve_database.
  destruct (handle platform now r (mkSession db [])) as [res s'] eqn:H.
  cbn [snd]. unfold handle in H.
  destruct r; cbn [endpoint] in H; unfold void, returning in H;
    unfold_handlers H.
  all: run_in H.
  all: try (injection H as <- <-; cbn [database]; left; reflexivity).
  all: try discriminate.
  all: injection H as <- <-; cbn [database]; right.
  all: eexists; eexists; split; [|eassumption]; cbn [allowed]; try exact I.
  all: use_guards.
  - cbn [Doctor.clinic_id].
    match goal with E : Clinic.clinic_id _ = Some _ |- _ => rewrite <- E end.
    now apply in_map.
  - eexists. split; [eassumption |]. split; reflexivity.
  - cbn [Patient.clinic_id].
    match goal with E : Clinic.clinic_id _ = Some _ |- _ => rewrite <- E end.
    now apply in_map.
  - eexists. split; [eassumption |]. reflexivity.
  - eexists. split; [eassumption |]. split; assumption.
  - intros u Hin. cbn [User.username]. apply eqv_false.
    match goal with
    | E : first (fun u => eqv (User.username u) _) _ = None |- _ =>
        exact (proj1 (first_None _ _) E u Hin)
    end.
Qed.

Lemma empty_store_consistent : consistent empty_store.
Proof. constructor; simpl; try (intros ? []). constructor. Qed.

Lemma reachable_consistent platform db :
  reachable platform db -> consistent db.
Proof.
  induction 1 as [|now r db Hreach IH]; [apply empty_store_consistent |].
  destruct (serve_effect platform now r db) as [->|(c & e & Hal & Hflush)];
    [assumption |].
  eapply flush_one_consistent; eauto.
Qed.

(** ** Deleting a clinic *)

Lemma no_children_pass {R} column (children : list R) fk parent :
  (forall r, In r children -> fk r <> parent) ->
  no_children column children fk parent = Ok tt.
Proof.
  intros H. unfold no_children.
  destruct (existsb _ _) eqn:E; [|reflexivity].
  apply existsb_exists in E as (r & Hr & Heq).
  apply bool_decide_eq_true in Heq. now destruct (H r Hr).
Qed.

Lemma count_positive {A} (p : A -> bool) (rows : list A) (x : A) :
  In x rows -> p x = true -> 0 < count p rows.
Proof.
  intros Hin Hp. pose proof (count_nonneg p rows) as Hn.
  destruct (Z.eq_dec (count p rows) 0) as [Hz|]; [|lia].
  rewrite count_zero in Hz. rewrite (Hz x Hin) in Hp. discriminate.
Qed.

Lemma count_none {A} (p : A -> bool) (rows : list A) :
  (0 <? count p rows) = false <-> forall x, In x rows -> p x = false.
Proof.
  rewrite <- count_zero. pose proof (count_nonneg p rows). rewrite Z.ltb_ge. lia.
Qed.

(** Sequential service keeps the consultations of every clinic
    staffed. *)
Lemma consistent_staffed (db : Store) (clinic_id : Z) :
  consistent db -> consultations_staffed db clinic_id.
Proof.
  intros [_ _ _ Hc] k Hk Hclinic.
  destruct (Hc k Hk) as (d & Hd & _ & Hcl). exists d. split; [exact Hd |].
  congruence.
Qed.

(** C3, as amended: in a database where every consultation held at the
    clinic is with a doctor of the clinic, deleting the clinic succeeds
    exactly when the clinic exists and has no doctors and no patients,
    and then removes its row and nothing else; when the clinic exists
    and a doctor or a patient refers to it the call fails with 400,
    telling how many doctors or patients there are, and leaves the
    session, so the clinic row, as it was. *)
Theorem delete_clinic_iff (platform : Platform) (now clinic_id : Z) (db : Store) :
  consultations_staffed db clinic_id ->
  let outcome := delete_clinic platform now clinic_id (mkSession db []) in
  (fst outcome = Ok tt <->
     clinic_exists db clinic_id /\ no_doctors db clinic_id
     /\ no_patients db clinic_id) /\
  (fst outcome = Ok tt ->
     snd outcome
     = mkSession
         (mkStore (others Clinic.clinic_id (Some clinic_id) (clinics db))
            (doctors db) (patients db) (patients_consultations db) (users db))
         []
     /\ ~ clinic_exists (database (snd outcome)) clinic_id) /\
  (clinic_exists db clinic_id ->
   (exists d, In d (doctors db) /\ Doctor.clinic_id d = Some clinic_id)
   \/ (exists p, In p (patients db) /\ Patient.clinic_id p = Some clinic_id) ->
     snd outcome = mkSession db [] /\
     exists n, 0 < n /\
       (fst outcome
        = Raise (exception 400
                   ("Cannot delete clinic. It has " +:+ pretty n
                    +:+ " doctor(s). Delete them first."))
        \/ fst outcome
           = Raise (exception 400
                      ("Cannot delete clinic. It has " +:+ pretty n
                       +:+ " patient(s). Delete them first.")))).
Proof.
  intros Hstaffed outcome.
  assert (Hsucceeds :
    clinic_exists db clinic_id -> no_doctors db clinic_id ->
    no_patients db clinic_id ->
    outcome
    = (Ok tt,
       mkSession
         (mkStore (others Clinic.clinic_id (Some clinic_id) (clinics db))
            (doctors db) (patients db) (patients_consultations db) (users db))
         [])).
  { intros Hex Hnd Hnp. apply clinic_by_id_found in Hex as [c Hfound].
    pose proof (first_Some _ _ _ Hfound) as [Hin Hid]. apply eqv_true in Hid.
    subst outcome. unfold delete_clinic, clinic_by_id. session_steps.
    rewrite Hfound. session_steps.
    replace (0 <? count _ (doctors db)) with false
      by (symmetry; apply count_none; intros d Hdin; apply eqv_false; auto).
    replace (0 <? count _ (patients db)) with false
      by (symmetry; apply count_none; intros p Hpin; apply eqv_false; auto).
    session_steps. rewrite flush_single. cbn [flush_one delete]. rewrite Hid.
    rewrite !no_children_pass; [reflexivity | | |].
    - intros d Hdin. auto.
    - intros p Hpin. auto.
    - intros k Hkin Hkc. destruct (Hstaffed k Hkin Hkc) as (d & Hdin & Hcl).
      exact (Hnd d Hdin Hcl). }
  split; [split |split].
  - intros Hok. subst outcome.
    destruct (delete_clinic _ _ _ _) as [res s'] eqn:H. cbn [fst] in Hok. subst res.
    unfold delete_clinic, clinic_by_id in H. run_in H; try discriminate.
    all: split; [apply clinic_by_id_found; eauto |].
    all: split; intros x Hx; apply eqv_false;
      match goal with
      | E : (0 <? count _ _) = false |- _ =>
          rewrite count_none in E; now apply E
      end.
  - intros (Hex & Hnd & Hnp). now rewrite Hsucceeds.
  - intros Hok.
    assert (Hall : clinic_exists db clinic_id /\ no_doctors db clinic_id
                   /\ no_patients db clinic_id).
    { subst outcome.
      destruct (delete_clinic _ _ _ _) as [res s'] eqn:H. cbn [fst] in Hok.
      subst res.
      unfold delete_clinic, clinic_by_id in H. run_in H; try discriminate.
      all: split; [apply clinic_by_id_found; eauto |].
      all: split; intros x Hx; apply eqv_false;
        match goal with
        | E : (0 <? count _ _) = false |- _ =>
            rewrite count_none in E; now apply E
        end. }
    destruct Hall as (Hex & Hnd & Hnp).
    rewrite (Hsucceeds Hex Hnd Hnp). cbn [snd database]. split; [reflexivity |].
    intros (c & Hin & Hid). cbn [clinics] in Hin.
    apply In_others in Hin as [_ Hne]. contradiction.
  - intros Hex Hdep.
    apply clinic_by_id_found in Hex as [c Hfound].
    subst outcome. unfold delete_clinic, clinic_by_id. session_steps.
    rewrite Hfound. session_steps.
    destruct (0 <? count _ (doctors db)) eqn:Edoc.
    + cbn [fst snd]. split; [reflexivity |].
      eexists. split; [|left; reflexivity]. now apply Z.ltb_lt.
    + session_steps. destruct (0 <? count _ (patients db)) eqn:Epat.
      * cbn [fst snd]. split; [reflexivity |].
        eexists. split; [|right; reflexivity]. now apply Z.ltb_lt.
      * exfalso. rewrite count_none in Edoc. rewrite count_none in Epat.
        destruct Hdep as [(d & Hin & Hid)|(p & Hin & Hid)].
        -- specialize (Edoc d Hin). apply eqv_false in Edoc. contradiction.
        -- specialize (Epat p Hin). apply eqv_false in Epat. contradiction.
Qed.
(** ** Transaction discipline *)

(** A handler that raises leaves the session as it found it: either it
    raises before it writes, or its commit fails, and then the session
    has rolled back by itself. *)
Lemma raising_handler_rolls_back platform now r db e s' :
  handle platform now r (mkSession db []) = (Raise e, s') ->
  s' = mkSession db [].
Proof.
  intros H. unfold handle in H.
  destruct r; cbn [endpoint] in H; unfold void, returning in H;
    unfold_handlers H.
  all: run_in H.
  all: try (injection H as <- <-; reflexivity).
  all: discriminate.
Qed.

(** A handler that wraps its write in [try]/[except] has rolled back
    when it raises: the session holds no change. *)
Lemma guarded_failure_rolls_back platform now r db e s' :
  guarded r = true ->
  handle platform now r (mkSession db []) = (Raise e, s') ->
  s' = mkSession db [].
Proof. intros _. apply raising_handler_rolls_back. Qed.

(** A request fails as its handler fails, or, when the handler returns,
    as the validation of what it returned fails. *)
Lemma serve_outcome platform now r db :
  match endpoint platform now r (mkSession db []) with
  | (Raise e, s') => serve platform now r db = (Raise e, database s')
  | (Ok body, s') =>
      serve platform now r db = (serialize_response body, database s')
  end.
Proof.
  unfold serve, get_db.
  destruct (endpoint platform now r (mkSession db [])) as [[body|e] s'];
    reflexivity.
Qed.

(** A failure of the handler itself commits nothing. *)
Lemma raising_handler_keeps_database platform now r db e :
  fst (handle platform now r (mkSession db [])) = Raise e ->
  snd (serve platform now r db) = db.
Proof.
  intros H. rewrite serve_database.
  destruct (handle platform now r (mkSession db [])) as [res s'] eqn:Hh.
  cbn [fst] in H. subst res.
  now rewrite (raising_handler_rolls_back _ _ _ _ _ _ Hh).
Qed.

(** A request that fails with anything but the validation error of its
    response has committed nothing. *)
Lemma failed_request_keeps_database platform now r db e :
  fst (serve platform now r db) = Raise e ->
  (forall fields, e <> ResponseValidationError fields) ->
  snd (serve platform now r db) = db.
Proof.
  intros Hfail Hkind.
  apply raising_handler_keeps_database with (e := e).
  pose proof (serve_outcome platform now r db) as Hs.
  unfold handle, void.
  destruct (endpoint platform now r (mkSession db [])) as [[body|e'] s'];
    rewrite Hs in Hfail; cbn [fst] in *; [|exact Hfail].
  exfalso. unfold serialize_response in Hfail.
  destruct body as [ent|]; [|discriminate].
  destruct (response_model ent) as [|f fs]; [discriminate |].
  injection Hfail as <-. now apply (Hkind (f :: fs)).
Qed.

(** C7: [PUT /clinics/1] with the body [{"address": null}].  The update
    schema admits the null, the column [clinics.address] admits it, and
    [update_clinic] commits; the response model declares [address] as a
    plain string, so the request then fails, with the clinic already
    changed in the database. *)
Theorem update_clinic_commits_then_fails (platform : Platform) (now : Z) :
  let outcome := serve platform now (UpdateClinic 1 clear_address) one_clinic in
  fst outcome = Raise (ResponseValidationError ["address"]) /\
  snd outcome
  = mkStore
      [Clinic.mk (Some 1) (Some "Apollo") None (Some "9876543210")
         (Some "active") (Some 0) (Some now)]
      [] [] [] [] /\
  snd outcome <> one_clinic.
Proof.
  cbv zeta.
  assert (H : serve platform now (UpdateClinic 1 clear_address) one_clinic
              = (Raise (ResponseValidationError ["address"]),
                 mkStore
                   [Clinic.mk (Some 1) (Some "Apollo") None (Some "9876543210")
                      (Some "active") (Some 0) (Some now)]
                   [] [] [] [])) by reflexivity.
  rewrite H. cbn [fst snd]. repeat split. discriminate.
Qed.

(** What [update_patient] raises when the mobile number of patient 2 is
    set to that of patient 1: it has no [try]/[except], so the
    [IntegrityError] of the commit leaves it as it is; the database and
    the session are as before. *)
Example update_patient_lets_the_error_through (platform : Platform) (now : Z) :
  update_patient platform now 1 2 (set_patient_mobile "9111111111")
    (mkSession two_patients [])
  = (Raise (IntegrityError "UNIQUE constraint failed: patients.mobile"),
     mkSession two_patients []).
Proof. reflexivity. Qed.

(** The sibling handler [update_doctor] on the like input: two doctors,
    the second takes the mobile number of the first.  It raises 400. *)
Example update_doctor_rolls_back (platform : Platform) (now : Z) :
  let db :=
    mkStore (clinics two_patients)
      (doctors two_patients
       ++ [Doctor.mk (Some 2) (Some "Devi") (Some "9000000002")
             (Some "devi@example.org") (Some "Hyderabad") (Some "Eye")
             (Some "active") (Some 1) (Some 0) None])
      [] [] [] in
  update_doctor platform now 1 2
    {| du_doctor_name := None; du_mobile := Some (Some "9000000001");
       du_email := None; du_address := None; du_specialization := None;
       du_status := None |}
    (mkSession db [])
  = (Raise (exception 400
              "Mobile number already exists. Please use a different number."),
     mkSession db []).
Proof. destruct platform as [eks rejects fk []]; reflexivity. Qed.


(** ** Usernames *)

Lemma flush_one_usernames fk ef now db c db' e :
  allowed db c ->
  flush_one fk ef now db c = Ok (db', e) ->
  List.NoDup (map User.username (users db)) ->
  List.NoDup (map User.username (users db')).
Proof.
  intros Hal H Hnd.
  destruct c as [ent|ent|ent]; destruct ent as [r|r|r|r|r];
    cbn [flush_one insert update delete] in H; cbn [allowed] in Hal;
    try contradiction; unfold stale in H;
    repeat break_hyp H; try discriminate;
    bind_inv H; try (injection H as <- <-); try assumption.
  cbn [users]. rewrite map_app. apply NoDup_snoc; [assumption |].
  cbn [map User.username]. intros Hin.
  apply in_map_iff in Hin as (u & Hu & Hin). exact (Hal u Hin Hu).
Qed.

(** Served one request after the other, the application never stores a
    username twice: the look-up in [register_user] sees every row that
    was committed before. *)
Lemma reachable_usernames_unique platform db :
  reachable platform db -> List.NoDup (map User.username (users db)).
Proof.
  induction 1 as [|now r db Hreach IH]; [constructor |].
  destruct (serve_effect platform now r db) as [->|(c & e & Hal & Hflush)];
    [assumption |].
  eapply flush_one_usernames; eauto.
Qed.

(** The [users] table accepts a second row with a username it already
    holds, as long as the e-mail address differs: [models.py] declares
    [username] with an index but without [unique=True]. *)
Lemma users_table_accepts_duplicate_username fk ef now db (u v : User.row) :
  In u (users db) ->
  User.username v = User.username u ->
  User.username v <> None -> User.email v <> None ->
  User.hashed_password v <> None ->
  (forall w, In w (users db) -> User.email w <> User.email v) ->
  exists db' e, insert fk ef now db (AUser v) = Ok (db', e).
Proof.
  intros Hin Hname Hn He Hp Hfresh. cbn [insert]. unfold check_user.
  destruct (User.username v); [|contradiction].
  destruct (User.email v) as [email|] eqn:Eemail; [|contradiction].
  destruct (User.hashed_password v); [|contradiction].
  cbn [not_null mbind result_bind]. unfold unique.
  replace (existsb _ _) with false; [cbn; eauto |].
  symmetry. apply not_true_is_false. intros Hex.
  apply existsb_exists in Hex as (w & Hw & Heq).
  apply In_others in Hw as [Hw _]. apply eqv_true in Heq.
  now apply (Hfresh w Hw).
Qed.

(** C9: two registrations of the username "alice" with different e-mail
    addresses, both started on an empty database.  Each passes its
    look-ups, since neither has committed yet; then both inserts commit,
    and the table holds two rows named "alice". *)
Theorem concurrent_registrations_share_username
    (platform : Platform) (now : Z) (entropy1 entropy2 : list N) :
  let fresh := mkSession empty_store [] in
  register_user_checks alice fresh = (Ok tt, fresh) /\
  register_user_checks alice_again fresh = (Ok tt, fresh) /\
  exists u1 u2 db1 db2,
    register_user_insert platform now entropy1 alice fresh
    = (Ok (AUser u1), mkSession db1 []) /\
    register_user_insert platform now entropy2 alice_again (mkSession db1 [])
    = (Ok (AUser u2), mkSession db2 []) /\
    users db2 = [u1; u2] /\
    User.username u1 = Some "alice" /\
    User.username u2 = Some "alice" /\
    User.user_id u1 = Some 1 /\ User.user_id u2 = Some 2.
Proof.
  cbv zeta. split; [reflexivity |]. split; [reflexivity |].
  unfold register_user_insert.
  assert (Hh : forall entropy password,
    (String.length password <= 72)%nat ->
    hash_password platform entropy password
    = Ok (Bcrypt.gensalt entropy +:+ digest platform entropy password)).
  { intros entropy password Hlen. apply hash_password_value.
    apply long_enough_false. intros _. exact Hlen. }
  do 4 eexists.
  split.
  { session_steps. rewrite Hh by (simpl; lia). session_steps.
    rewrite flush_single. cbn. reflexivity. }
  split.
  { session_steps. rewrite Hh by (simpl; lia). session_steps.
    rewrite flush_single. cbn. reflexivity. }
  cbn. repeat split.
Qed.

(** ** The statements at concrete inputs *)

Lemma delete_clinic_iff_witness :
  let outcome := delete_clinic toy_platform 1 1 (mkSession one_clinic []) in
  (fst outcome = Ok tt <->
     clinic_exists one_clinic 1 /\ no_doctors one_clinic 1
     /\ no_patients one_clinic 1) /\
  (fst outcome = Ok tt ->
     snd outcome
     = mkSession
         (mkStore (others Clinic.clinic_id (Some 1) (clinics one_clinic))
            (doctors one_clinic) (patients one_clinic)
            (patients_consultations one_clinic) (users one_clinic))
         []
     /\ ~ clinic_exists (database (snd outcome)) 1) /\
  (clinic_exists one_clinic 1 ->
   (exists d, In d (doctors one_clinic) /\ Doctor.clinic_id d = Some 1)
   \/ (exists p, In p (patients one_clinic) /\ Patient.clinic_id p = Some 1) ->
     snd outcome = mkSession one_clinic [] /\
     exists n, 0 < n /\
       (fst outcome
        = Raise (exception 400
                   ("Cannot delete clinic. It has " +:+ pretty n
                    +:+ " doctor(s). Delete them first."))
        \/ fst outcome
           = Raise (exception 400
                      ("Cannot delete clinic. It has " +:+ pretty n
                       +:+ " patient(s). Delete them first.")))).
Proof.
  apply (delete_clinic_iff toy_platform 1 1 one_clinic).
  intros k [].
Defined.

(** The one clinic of [one_clinic] is indeed deleted. *)
Example delete_only_clinic :
  delete_clinic toy_platform 1 1 (mkSession one_clinic [])
  = (Ok tt, mkSession empty_store []).
Proof. reflexivity. Qed.

(** C3, as stated, fails where a consultation is left at a clinic
    without doctors and patients: the clinic exists and nothing of what
    the claim names refers to it, yet the delete fails with 400 at the
    commit. *)
Lemma delete_clinic_counterexample :
  clinic_exists orphan_consultation 1 /\
  no_doctors orphan_consultation 1 /\
  no_patients orphan_consultation 1 /\
  delete_clinic toy_platform 1 1 (mkSession orphan_consultation [])
  = (Raise (exception 400
              "Cannot delete clinic due to existing related records"),
     mkSession orphan_consultation []).
Proof.
  split; [eexists; split; [left; reflexivity | reflexivity] |].
  split; [intros d [] |]. split; [intros p [] |]. reflexivity.
Qed.

Lemma create_consultation_guards_witness :
  create_doctor_patient_consultation toy_platform 0 1 1 1 visit
    (mkSession doctor_on_leave [])
  = (Raise (exception 400 "Doctor is not active. Current status: on leave"),
     mkSession doctor_on_leave []).
Proof.
  refine (proj2 (create_consultation_guards toy_platform 0 1 1 1 visit
                   doctor_on_leave) _ _ _ eq_refl eq_refl _).
  - eexists. split; [left; reflexivity | reflexivity].
  - discriminate.
Defined.

(** With the doctor active and the patient not, it is the patient's
    status that is reported. *)
Example consultation_with_inactive_patient :
  fst (create_doctor_patient_consultation toy_platform 0 1 1 1 visit
         (mkSession
            (mkStore (clinics two_patients) (doctors two_patients)
               (patients doctor_on_leave) [] [])
            []))
  = Raise (exception 400 "Patient is not active. Current status: inactive").
Proof. reflexivity. Qed.

(** When the patient is not found, the 404 comes before the doctor's
    status is looked at. *)
Example consultation_without_patient :
  fst (create_doctor_patient_consultation toy_platform 0 1 1 7 visit
         (mkSession doctor_on_leave []))
  = Raise (exception 404 "Patient with id 7 not found").
Proof. reflexivity. Qed.

(** [delete_patient] has no [try]/[except] either: a patient with a
    consultation cannot be deleted, and the [IntegrityError] of the
    commit leaves the handler as it is. *)
Example delete_patient_lets_the_error_through :
  let db :=
    mkStore (clinics two_patients) (doctors two_patients)
      (patients two_patients) (patients_consultations orphan_consultation) [] in
  delete_patient toy_platform 0 1 1 (mkSession db [])
  = (Raise (IntegrityError
              "NOT NULL constraint failed: patients_consultations.patient_id"),
     mkSession db []).
Proof. reflexivity. Qed.

(** The scenario of the specification: "alice" registers with the
    password "secret123"; the stored secret is not the password; a token
    of one second verifies at once and no longer two seconds later. *)
Example registration_scenario :
  exists row db token,
    serve toy_platform 0 (RegisterUser [] alice) empty_store = (Ok tt, db) /\
    users db = [row] /\
    User.hashed_password row <> Some "secret123" /\
    create_access_token 1700000000000000 (identity "alice" "user") (Some second)
    = Ok token /\
    is_ok (verify_token 1700000000000000 token) = true /\
    verify_token (1700000000000000 + 2 * second) token
    = Raise credentials_exception.
Proof.
  do 3 eexists. split; [vm_compute; reflexivity |].
  split; [reflexivity |]. split; [discriminate |].
  split; [vm_compute; reflexivity |]. split; vm_compute; reflexivity.
Qed.

(** * Further properties *)

Open Scope list_scope.

(** ** Tables under insert, update and delete *)

Lemma not_null_ok {A} column (v : option A) :
  not_null column v = Ok tt -> v <> None.
Proof. destruct v; [discriminate | discriminate]. Qed.

Lemma unique_ok {R} column (key : R -> option Z) (k : option Z)
    (rows : list R) (get : R -> option string) (v : option string) :
  unique column (others key k rows) get v = Ok tt ->
  forall x, In x rows -> key x <> k -> v <> None -> get x <> v.
Proof.
  unfold unique. destruct v as [s|]; [|intros _ x _ _ H; now destruct H].
  destruct (existsb _ _) eqn:E; [discriminate |].
  intros _ x Hin Hk _ Hget.
  assert (existsb (fun r => eqv (get r) s) (others key k rows) = true);
    [|congruence].
  apply existsb_exists. exists x. split; [now apply In_others |].
  now apply eqv_true.
Qed.

Lemma unique_pass {R} column (rows : list R) (get : R -> option string)
    (v : option string) :
  (forall x, In x rows -> v <> None -> get x <> v) ->
  unique column rows get v = Ok tt.
Proof.
  intros H. unfold unique. destruct v as [s|]; [|reflexivity].
  destruct (existsb _ _) eqn:E; [|reflexivity].
  apply existsb_exists in E as (x & Hin & Heq). apply eqv_true in Heq.
  now destruct (H x Hin).
Qed.

Lemma keyed_snoc {R} (key : R -> option Z) (rows : list R) (r : R) :
  keyed key rows -> key r = Some (next_id (map key rows)) ->
  keyed key (rows ++ [r]).
Proof.
  intros [Hsome Hnd] Hr. split.
  - intros x Hx. apply In_snoc in Hx as [Hx| ->]; [auto | congruence].
  - rewrite map_app. apply NoDup_snoc; [assumption |]. simpl. rewrite Hr.
    apply next_id_fresh.
Qed.

Lemma keyed_replace {R} (key : R -> option Z) (rows : list R) (r : R) :
  keyed key rows -> keyed key (replace key r rows).
Proof.
  intros [Hsome Hnd]. split; [|now rewrite replace_keys].
  intros x Hx. apply In_replace in Hx as [[Hx _]|[-> Hk]]; [auto |].
  apply in_map_iff in Hk as (y & <- & Hy). auto.
Qed.

Lemma keyed_others {R} (key : R -> option Z) (id : option Z) (rows : list R) :
  keyed key rows -> keyed key (others key id rows).
Proof.
  intros [Hsome Hnd]. split; [|now apply NoDup_others].
  intros x Hx. apply In_others in Hx as [Hx _]. auto.
Qed.

Lemma required_snoc {R A} (column : R -> option A) (rows : list R) (r : R) :
  required column rows -> column r <> None -> required column (rows ++ [r]).
Proof. intros H Hr x Hx. apply In_snoc in Hx as [Hx| ->]; auto. Qed.

Lemma required_replace {R A} (key : R -> option Z) (column : R -> option A)
    (rows : list R) (r : R) :
  required column rows -> column r <> None ->
  required column (replace key r rows).
Proof.
  intros H Hr x Hx. apply In_replace in Hx as [[Hx _]|[-> _]]; auto.
Qed.

Lemma required_others {R A} (key : R -> option Z) (id : option Z)
    (column : R -> option A) (rows : list R) :
  required column rows -> required column (others key id rows).
Proof. intros H x Hx. apply In_others in Hx as [Hx _]. auto. Qed.

Lemma unique_column_snoc {R} (column : R -> option string) (rows : list R)
    (r : R) :
  unique_column column rows ->
  (forall x, In x rows -> column r <> None -> column x <> column r) ->
  unique_column column (rows ++ [r]).
Proof.
  intros Hu Hr x y Hx Hy Heq Hsome.
  apply In_snoc in Hx as [Hx| ->]; apply In_snoc in Hy as [Hy| ->]; auto.
  - destruct (Hr x Hx); congruence.
  - destruct (Hr y Hy); congruence.
Qed.

Lemma unique_column_replace {R} (key : R -> option Z)
    (column : R -> option string) (rows : list R) (r : R) :
  unique_column column rows ->
  (forall x, In x rows -> key x <> key r -> column r <> None ->
             column x <> column r) ->
  unique_column column (replace key r rows).
Proof.
  intros Hu Hr x y Hx Hy Heq Hsome.
  apply In_replace in Hx as [[Hx Hkx]|[-> _]];
    apply In_replace in Hy as [[Hy Hky]|[-> _]]; auto.
  - destruct (Hr x Hx Hkx); congruence.
  - destruct (Hr y Hy Hky); congruence.
Qed.

Lemma unique_column_others {R} (key : R -> option Z) (id : option Z)
    (column : R -> option string) (rows : list R) :
  unique_column column rows -> unique_column column (others key id rows).
Proof.
  intros Hu x y Hx Hy. apply In_others in Hx as [Hx _].
  apply In_others in Hy as [Hy _]. auto.
Qed.

(** ** Reachable databases satisfy the schema *)

Ltac split_checks :=
  repeat match goal with
    | H : _ ≫= _ = Ok _ |- _ =>
        let a := fresh "u" in
        let Ha := fresh "Hchk" in
        apply bind_Ok in H as (a & Ha & H); try destruct a
    end.

Ltac table_step :=
  first
    [ assumption
    | apply keyed_snoc; [assumption | reflexivity]
    | apply keyed_replace; assumption
    | apply keyed_others; assumption
    | apply required_others; assumption
    | apply unique_column_others; assumption
    | apply required_snoc;
      [assumption
      | cbn; first [discriminate | eapply not_null_ok; eassumption]]
    | apply required_replace;
      [assumption
      | cbn; first [discriminate | eapply not_null_ok; eassumption]]
    | apply unique_column_snoc;
      [assumption
      | let x := fresh "x" in
        let Hx := fresh "Hx" in
        let Hs := fresh "Hs" in
        intros x Hx Hs; cbn in Hs |- *;
        eapply unique_ok; [eassumption | exact Hx | | exact Hs];
        match goal with
        | T : primary_key _ = None |- _ =>
            cbn in T; rewrite T;
            match goal with
            | K : keyed _ _ |- _ => now apply (proj1 K)
            end
        end ]
    | apply unique_column_replace;
      [assumption
      | let x := fresh "x" in
        let Hx := fresh "Hx" in
        let Hk := fresh "Hk" in
        let Hs := fresh "Hs" in
        intros x Hx Hk Hs; cbn in Hk, Hs |- *;
        eapply unique_ok; [eassumption | exact Hx | exact Hk | exact Hs] ] ].

Lemma flush_one_schema fk ef now db c db' e :
  schema_ok db -> transient c ->
  flush_one fk ef now db c = Ok (db', e) -> schema_ok db'.
Proof.
  intros Hok Htr H.
  destruct c as [ent|ent|ent]; destruct ent as [r|r|r|r|r];
    cbn [flush_one insert update delete] in H; cbn [transient] in Htr;
    unfold stale, check_clinic, check_doctor, check_patient,
      check_consultation, check_user in H;
    repeat break_hyp H; try discriminate;
    bind_inv H; try (injection H as <- <-); try assumption;
    split_checks; destruct Hok; constructor;
    cbn [clinics doctors patients patients_consultations users];
    try table_step.

Qed.

(** What a request flushes is allowed by its guards, and what it adds is
    a new object. *)
Lemma serve_change platform now r db :
  snd (serve platform now r db) = db \/
  exists c e,
    allowed db c /\ transient c /\
    flush_one (sqlite_foreign_keys platform)
      (doctors_email_first platform) now db c
    = Ok (snd (serve platform now r db), e).
Proof.
  rewrite serve_database.
  destruct (handle platform now r (mkSession db [])) as [res s'] eqn:H.
  cbn [snd]. unfold handle in H.
  destruct r; cbn [endpoint] in H; unfold void, returning in H;
    unfold_handlers H.
  all: run_in H.
  all: try (injection H as <- <-; cbn [database]; left; reflexivity).
  all: try discriminate.
  all: injection H as <- <-; cbn [database]; right.
  all: eexists; eexists; split; [|split; [|eassumption]];
    [|cbn; first [reflexivity | exact I]]; cbn [allowed]; try exact I.
  all: use_guards.
  - cbn [Doctor.clinic_id].
    match goal with E : Clinic.clinic_id _ = Some _ |- _ => rewrite <- E end.
    now apply in_map.
  - eexists. split; [eassumption |]. split; reflexivity.
  - cbn [Patient.clinic_id].
    match goal with E : Clinic.clinic_id _ = Some _ |- _ => rewrite <- E end.
    now apply in_map.
  - eexists. split; [eassumption |]. reflexivity.
  - eexists. split; [eassumption |]. split; assumption.
  - intros u Hin. cbn [User.username]. apply eqv_false.
    match goal with
    | E : first (fun u => eqv (User.username u) _) _ = None |- _ =>
        exact (proj1 (first_None _ _) E u Hin)
    end.
Qed.

Lemma empty_store_schema_ok : schema_ok empty_store.
Proof.
  constructor; unfold keyed, required, unique_column; cbn;
    first [ split; [intros ? [] | constructor]
          | repeat intro; contradiction ].
Qed.

Lemma reachable_schema (platform : Platform) (db : Store) :
  reachable platform db -> schema_ok db.
Proof.
  induction 1 as [|now r db Hreach IH]; [apply empty_store_schema_ok |].
  destruct (serve_change platform now r db)
    as [->|(c & e & Hal & Htr & Hflush)]; [assumption |].
  eapply flush_one_schema; eauto.
Qed.

(** X1: every database the application can reach satisfies the schema of
    [models.py]: in each table the primary keys are present and distinct,
    the columns declared [nullable=False] hold a value, and no two rows
    share a mobile number (clinics, doctors, patients) or an e-mail
    address (doctors, users). *)
Theorem reachable_schema_ok (platform : Platform) (db : Store) :
  reachable platform db -> schema_ok db.
Proof. apply reachable_schema. Qed.

Lemma reachable_schema_ok_witness :
  schema_ok (snd (serve toy_platform 0 (CreateClinic apollo) empty_store)).
Proof.
  apply (reachable_schema_ok toy_platform).
  apply reachable_serve, reachable_empty.
Defined.

(** ** Listing clinics *)

Lemma sql_limit_length {A} (n : Z) (rows : list A) :
  0 <= n -> Z.of_nat (length (sql_limit n rows)) <= n.
Proof.
  intros Hn. unfold sql_limit.
  destruct (Z.ltb_spec n 0); [lia |].
  rewrite length_firstn. lia.
Qed.

Lemma In_firstn_In {A} (n : nat) (l : list A) (x : A) :
  In x (firstn n l) -> In x l.
Proof.
  revert l. induction n as [|n IH]; intros [|y l]; simpl; try tauto.
  intros [->|H]; auto.
Qed.

Lemma In_skipn_In {A} (n : nat) (l : list A) (x : A) :
  In x (skipn n l) -> In x l.
Proof.
  revert l. induction n as [|n IH]; intros [|y l]; simpl; try tauto.
  intros H. right. auto.
Qed.

Lemma sql_limit_In {A} (n : Z) (rows : list A) (x : A) :
  In x (sql_limit n rows) -> In x rows.
Proof.
  unfold sql_limit. destruct (n <? 0); [trivial |]. apply In_firstn_In.
Qed.

Lemma sql_offset_In {A} (n : Z) (rows : list A) (x : A) :
  In x (sql_offset n rows) -> In x rows.
Proof. unfold sql_offset. apply In_skipn_In. Qed.

Lemma bind_integer_cases (z : Z) :
  (sqlite_integer z /\ bind_integer z = Ok z) \/
  (~ sqlite_integer z /\
   bind_integer z
   = Raise (OverflowError "Python int too large to convert to SQLite INTEGER")).
Proof.
  unfold bind_integer, sqlite_integer.
  destruct (Z.ltb_spec z (- 2 ^ 63)); [right; split; [lia | reflexivity] |].
  destruct (Z.leb_spec (2 ^ 63) z); [right; split; [lia | reflexivity] |].
  left. split; [lia | reflexivity].
Qed.

Lemma bind_integer_ok (z : Z) : sqlite_integer z -> bind_integer z = Ok z.
Proof.
  intros H. destruct (bind_integer_cases z) as [[_ ->]|[Hn _]];
    [reflexivity | contradiction].
Qed.

(** X2: [get_clinics] never writes.  It returns a page exactly when
    [skip] and [limit] (zero and ten when not given) are integers of
    SQLite, and otherwise raises the [OverflowError] of the driver.  A
    page has at most [limit] clinics when the limit is not negative, each
    of them a row of the table, and, when a non-empty [mobile] is given,
    each with a mobile number that matches it. *)
Theorem get_clinics_page (like : string -> string -> bool)
    (skip limit : option Z) (mobile : option string) (s : Session) :
  snd (get_clinics like skip limit mobile s) = s /\
  (is_ok (fst (get_clinics like skip limit mobile s)) = true <->
     sqlite_integer (default 0 skip) /\ sqlite_integer (default 10 limit)) /\
  (forall e, fst (get_clinics like skip limit mobile s) = Raise e ->
     e = OverflowError "Python int too large to convert to SQLite INTEGER") /\
  (forall page, fst (get_clinics like skip limit mobile s) = Ok page ->
     (0 <= default 10 limit ->
        Z.of_nat (length page) <= default 10 limit) /\
     (forall c, In c page ->
        In c (clinics (database s)) /\
        (forall m, mobile = Some m -> m <> "" ->
           exists number, Clinic.mobile c = Some number /\
                          like ("%" +:+ m +:+ "%") number = true))).
Proof.
  unfold get_clinics, bind, lift, db_query.
  destruct (bind_integer_cases (default 10 limit)) as [[Hl ->]|[Hl ->]];
    [|cbn [fst snd is_ok]; repeat split;
      solve [discriminate | tauto | now intros e [= <-]]].
  destruct (bind_integer_cases (default 0 skip)) as [[Hs ->]|[Hs ->]];
    [|cbn [fst snd is_ok]; repeat split;
      solve [discriminate | tauto | now intros e [= <-]]].
  cbn [fst snd is_ok]. split; [reflexivity |]. split; [tauto |].
  split; [discriminate |].
  intros page [= <-]. split.
  - apply sql_limit_length.
  - intros c Hc. apply sql_limit_In, sql_offset_In in Hc.
    destruct mobile as [m|]; cbn [default] in Hc.
    + destruct m as [|a m]; cbn [nonempty] in Hc.
      * split; [assumption |]. intros ? [= <-] Hne. now destruct Hne.
      * apply filter_In in Hc as [Hin Hlike]. split; [assumption |].
        intros ? [= <-] _. unfold mobile_contains in Hlike.
        destruct (Clinic.mobile c) as [number|]; [eauto | discriminate].
    + split; [assumption |]. discriminate.
Qed.

(** A limit of 2^63 is more than the driver binds. *)
Example get_clinics_overflow :
  fst (get_clinics (fun _ _ => true) None (Some (2 ^ 63)) None
         (mkSession one_clinic []))
  = Raise (OverflowError "Python int too large to convert to SQLite INTEGER").
Proof. reflexivity. Qed.

Lemma firstn_split {A} (n m : nat) (l : list A) :
  (firstn n l ++ firstn m (skipn n l))%list = firstn (n + m) l.
Proof.
  revert l. induction n as [|n IH]; intros l; [reflexivity |].
  destruct l as [|x l]; simpl.
  - now rewrite firstn_nil.
  - now rewrite IH.
Qed.

Lemma skipn_add {A} (n m : nat) (l : list A) :
  skipn m (skipn n l) = skipn (n + m) l.
Proof.
  revert l. induction n as [|n IH]; intros l; [reflexivity |].
  destruct l as [|x l]; simpl; [now rewrite skipn_nil | apply IH].
Qed.

(** X3: consecutive pages of [get_clinics] fit together: with offsets
    and limits that SQLite can hold, the page of [n] clinics after
    [skip], followed by the page of [m] clinics after [skip + n], is the
    page of [n + m] clinics after [skip]. *)
Theorem get_clinics_consecutive_pages (like : string -> string -> bool)
    (skip n m : Z) (mobile : option string) (s : Session) :
  0 <= skip -> 0 <= n -> 0 <= m ->
  skip + n < 2 ^ 63 -> n + m < 2 ^ 63 ->
  exists first_page second_page both,
    get_clinics like (Some skip) (Some n) mobile s = (Ok first_page, s) /\
    get_clinics like (Some (skip + n)) (Some m) mobile s = (Ok second_page, s) /\
    get_clinics like (Some skip) (Some (n + m)) mobile s = (Ok both, s) /\
    (first_page ++ second_page)%list = both.
Proof.
  intros Hs Hn Hm Hsn Hnm. unfold get_clinics, bind, lift, db_query.
  cbv [default from_option id].
  rewrite !bind_integer_ok by (unfold sqlite_integer; lia).
  do 3 eexists.
  split; [reflexivity |]. split; [reflexivity |]. split; [reflexivity |].
  unfold sql_limit, sql_offset.
  destruct (Z.ltb_spec n 0); [lia |].
  destruct (Z.ltb_spec m 0); [lia |].
  destruct (Z.ltb_spec (n + m) 0); [lia |].
  rewrite !Z2Nat.inj_add by lia.
  rewrite <- skipn_add. apply firstn_split.
Qed.

Lemma get_clinics_consecutive_pages_witness :
  exists first_page second_page both,
    get_clinics (fun _ _ => true) (Some 0) (Some 1) None
      (mkSession doctor5_elsewhere [])
    = (Ok first_page, mkSession doctor5_elsewhere []) /\
    get_clinics (fun _ _ => true) (Some (0 + 1)) (Some 1) None
      (mkSession doctor5_elsewhere [])
    = (Ok second_page, mkSession doctor5_elsewhere []) /\
    get_clinics (fun _ _ => true) (Some 0) (Some (1 + 1)) None
      (mkSession doctor5_elsewhere [])
    = (Ok both, mkSession doctor5_elsewhere []) /\
    (first_page ++ second_page)%list = both.
Proof.
  apply (get_clinics_consecutive_pages (fun _ _ => true) 0 1 1 None
           (mkSession doctor5_elsewhere [])); lia.
Defined.

(** ** Creating rows and finding them again *)

Lemma first_snoc_fresh {A} (p : A -> bool) (rows : list A) (r : A) :
  (forall x, In x rows -> p x = false) -> p r = true ->
  first p (rows ++ [r]) = Some r.
Proof.
  intros Hrows Hr. unfold first. induction rows as [|x rows IH]; simpl.
  - now rewrite Hr.
  - rewrite (Hrows x (or_introl eq_refl)). apply IH.
    intros y Hy. apply Hrows. now right.
Qed.

Lemma fresh_key_misses {R} (key : R -> option Z) (rows : list R) (x : R) :
  In x rows -> eqv (key x) (next_id (map key rows)) = false.
Proof.
  intros Hin. apply eqv_false. intros Hk.
  apply (next_id_fresh (map key rows)). rewrite <- Hk. now apply in_map.
Qed.

Lemma others_keyed {R} (key : R -> option Z) (rows : list R) :
  keyed key rows -> others key None rows = rows.
Proof.
  intros [Hsome _]. unfold others. induction rows as [|r rows IH]; simpl;
    [reflexivity |].
  rewrite bool_decide_eq_false_2 by (apply Hsome; now left). simpl.
  f_equal. apply IH. intros x Hx. apply Hsome. now right.
Qed.

Lemma unique_fail {R} column (rows : list R) (get : R -> option string)
    (v : string) :
  (exists x, In x rows /\ get x = Some v) ->
  unique column rows get (Some v)
  = Raise (IntegrityError ("UNIQUE constraint failed: " +:+ column)).
Proof.
  intros (x & Hin & Hx). unfold unique.
  replace (existsb _ _) with true; [reflexivity |].
  symmetry. apply existsb_exists. exists x. split; [assumption |].
  now apply eqv_true.
Qed.

(** X4: on a table whose rows have their keys, [create_clinic] fails
    exactly when a clinic already has the mobile number, with 400 "Mobile
    number already exists" and nothing written; otherwise it appends one
    row with the next free key, the four fields of the request and the
    creation time, and returns it. *)
Theorem create_clinic_outcome (platform : Platform) (now : Z)
    (clinic : ClinicCreate) (db : Store) :
  keyed Clinic.clinic_id (clinics db) ->
  let outcome := create_clinic platform now clinic (mkSession db []) in
  let row :=
    Clinic.mk (Some (next_id (map Clinic.clinic_id (clinics db))))
      (Some (cc_clinic_name clinic)) (Some (cc_address clinic))
      (Some (cc_mobile clinic)) (Some (cc_status clinic)) (Some now) None in
  ((exists c, In c (clinics db) /\ Clinic.mobile c = Some (cc_mobile clinic)) ->
     outcome
     = (Raise (exception 400
                 "Mobile number already exists. Please use a different number."),
        mkSession db [])) /\
  ((forall c, In c (clinics db) -> Clinic.mobile c <> Some (cc_mobile clinic)) ->
     outcome
     = (Ok (AClinic row),
        mkSession
          (mkStore (clinics db ++ [row]) (doctors db) (patients db)
             (patients_consultations db) (users db))
          [])).
Proof.
  intros Hkeys outcome row. subst outcome row.
  unfold create_clinic. session_steps. rewrite flush_single.
  cbn [flush_one insert]. unfold check_clinic.
  cbn [Clinic.clinic_name Clinic.mobile Clinic.clinic_id not_null mbind
         result_bind].
  rewrite (others_keyed _ _ Hkeys). split.
  - intros Hdup. rewrite unique_fail by exact Hdup. reflexivity.
  - intros Hfree. rewrite unique_pass; [reflexivity |].
    intros x Hx _. auto.
Qed.

Lemma one_clinic_keyed : keyed Clinic.clinic_id (clinics one_clinic).
Proof.
  split.
  - intros r [<-|[]]. discriminate.
  - repeat constructor. intros [].
Qed.

Lemma create_clinic_outcome_witness :
  let outcome := create_clinic toy_platform 5 apollo (mkSession one_clinic []) in
  let row :=
    Clinic.mk (Some (next_id (map Clinic.clinic_id (clinics one_clinic))))
      (Some (cc_clinic_name apollo)) (Some (cc_address apollo))
      (Some (cc_mobile apollo)) (Some (cc_status apollo)) (Some 5) None in
  ((exists c, In c (clinics one_clinic)
              /\ Clinic.mobile c = Some (cc_mobile apollo)) ->
     outcome
     = (Raise (exception 400
                 "Mobile number already exists. Please use a different number."),
        mkSession one_clinic [])) /\
  ((forall c, In c (clinics one_clinic) ->
              Clinic.mobile c <> Some (cc_mobile apollo)) ->
     outcome
     = (Ok (AClinic row),
        mkSession
          (mkStore (clinics one_clinic ++ [row]) (doctors one_clinic)
             (patients one_clinic) (patients_consultations one_clinic)
             (users one_clinic))
          [])).
Proof.
  exact (create_clinic_outcome toy_platform 5 apollo one_clinic
           one_clinic_keyed).
Defined.

(** X5: a clinic that [create_clinic] returned is the one [get_clinic]
    returns for its key. *)
Theorem create_then_get_clinic (platform : Platform) (now : Z)
    (clinic : ClinicCreate) (db : Store) (e : entity) (s' : Session) :
  create_clinic platform now clinic (mkSession db []) = (Ok e, s') ->
  exists row clinic_id,
    e = AClinic row /\
    Clinic.clinic_id row = Some clinic_id /\
    clinics (database s') = clinics db ++ [row] /\
    get_clinic clinic_id s' = (Ok row, s').
Proof.
  intros H. unfold create_clinic in H. run_in H; try discriminate.
  injection H as <- <-.
  match goal with E : flush_one _ _ _ _ _ = Ok _ |- _ =>
    cbn [flush_one insert] in E; bind_inv E; injection E as <- <- end.
  do 2 eexists. split; [reflexivity |]. split; [reflexivity |].
  split; [reflexivity |].
  unfold get_clinic, clinic_by_id. session_steps. cbn [clinics].
  rewrite first_snoc_fresh; [reflexivity | | now apply eqv_true].
  intros x Hx. now apply fresh_key_misses.
Qed.

Lemma create_then_get_clinic_witness :
  exists row clinic_id,
    AClinic (Clinic.mk (Some 1) (Some "Apollo") (Some "Hyderabad")
               (Some "9876543210") (Some "active") (Some 0) None)
    = AClinic row /\
    Clinic.clinic_id row = Some clinic_id /\
    clinics (database (mkSession one_clinic []))
    = clinics empty_store ++ [row] /\
    get_clinic clinic_id (mkSession one_clinic [])
    = (Ok row, mkSession one_clinic []).
Proof.
  apply (create_then_get_clinic toy_platform 0 apollo empty_store).
  reflexivity.
Defined.

Lemma references_pass {R} (fk : bool) (parents : list R)
    (key : R -> option Z) (id : Z) :
  (exists x, In x parents /\ key x = Some id) ->
  references fk parents key (Some id) = Ok tt.
Proof.
  intros (x & Hin & Hx). unfold references.
  replace (existsb _ _) with true; [now rewrite andb_false_r |].
  symmetry. apply existsb_exists. exists x. split; [assumption |].
  now apply eqv_true.
Qed.

(** X6: for a clinic that exists, on a table whose rows have their keys,
    [create_doctor] answers 400 "Mobile number already exists" when a
    doctor has the mobile number and none the e-mail address, and 400
    "Email already exists" when a doctor has the e-mail address and none
    the mobile number; when both are taken it answers one of the two,
    the one whose index the database file lists first; when none is
    taken it appends the doctor under the next free key, attached to the
    clinic of the path. *)
Theorem create_doctor_outcome (platform : Platform) (now clinic_id : Z)
    (doctor : DoctorCreate) (db : Store) :
  keyed Doctor.doctor_id (doctors db) ->
  clinic_exists db clinic_id ->
  let outcome := create_doctor platform now clinic_id doctor (mkSession db []) in
  let row :=
    Doctor.mk (Some (next_id (map Doctor.doctor_id (doctors db))))
      (Some (dc_doctor_name doctor)) (Some (dc_mobile doctor))
      (Some (dc_email doctor)) (Some (dc_address doctor))
      (Some (dc_specialization doctor)) (Some (dc_status doctor))
      (Some clinic_id) (Some now) None in
  let mobile_taken :=
    exists d, In d (doctors db) /\ Doctor.mobile d = Some (dc_mobile doctor) in
  let email_taken :=
    exists d, In d (doctors db) /\ Doctor.email d = Some (dc_email doctor) in
  let mobile_exists :=
    exception 400 "Mobile number already exists. Please use a different number." in
  let email_exists :=
    exception 400 "Email already exists. Please use a different email." in
  (mobile_taken -> ~ email_taken ->
     outcome = (Raise mobile_exists, mkSession db [])) /\
  (~ mobile_taken -> email_taken ->
     outcome = (Raise email_exists, mkSession db [])) /\
  (mobile_taken -> email_taken ->
     outcome
     = (Raise (if doctors_email_first platform then email_exists
               else mobile_exists),
        mkSession db [])) /\
  (~ mobile_taken -> ~ email_taken ->
     outcome
     = (Ok (ADoctor row),
        mkSession
          (mkStore (clinics db) (doctors db ++ [row]) (patients db)
             (patients_consultations db) (users db))
          [])).
Proof.
  intros Hkeys Hclinic outcome row mobile_taken email_taken mobile_exists
    email_exists.
  subst outcome row mobile_taken email_taken mobile_exists email_exists.
  pose proof Hclinic as Hfound. apply clinic_by_id_found in Hfound as [c Hc].
  unfold create_doctor, clinic_by_id. session_steps. rewrite Hc.
  session_steps. rewrite flush_single.
  cbn [flush_one insert]. unfold check_doctor.
  cbn [Doctor.doctor_name Doctor.mobile Doctor.email Doctor.clinic_id
         Doctor.doctor_id not_null mbind result_bind].
  rewrite (others_keyed _ _ Hkeys).
  assert (Href : references (sqlite_foreign_keys platform) (clinics db)
                   Clinic.clinic_id (Some clinic_id) = Ok tt)
    by (apply references_pass; exact Hclinic).
  assert (Hpass : forall column (get : Doctor.row -> option string) v,
    ~ (exists d, In d (doctors db) /\ get d = Some v) ->
    unique column (doctors db) get (Some v) = Ok tt).
  { intros column get v Hfree. apply unique_pass.
    intros x Hx _ Heq. apply Hfree. eauto. }
  repeat split.
  - intros Hdup Hfree.
    rewrite (unique_fail "doctors.mobile") by exact Hdup.
    rewrite (Hpass "doctors.email") by exact Hfree.
    destruct (doctors_email_first platform); reflexivity.
  - intros Hfree Hdup.
    rewrite (unique_fail "doctors.email") by exact Hdup.
    rewrite (Hpass "doctors.mobile") by exact Hfree.
    destruct (doctors_email_first platform); reflexivity.
  - intros Hdup Hdup'.
    rewrite (unique_fail "doctors.mobile") by exact Hdup.
    rewrite (unique_fail "doctors.email") by exact Hdup'.
    destruct (doctors_email_first platform); reflexivity.
  - intros Hfree Hfree'.
    rewrite (Hpass "doctors.mobile") by exact Hfree.
    rewrite (Hpass "doctors.email") by exact Hfree'.
    destruct (doctors_email_first platform); cbn [mbind result_bind];
      rewrite Href; reflexivity.
Qed.

Lemma create_doctor_outcome_witness :
  let doctor :=
    Build_DoctorCreate "Devi" "9000000002" "devi@example.org" "Hyderabad"
      "Eye" "active" in
  let db := two_patients in
  let outcome := create_doctor toy_platform 5 1 doctor (mkSession db []) in
  let row :=
    Doctor.mk (Some (next_id (map Doctor.doctor_id (doctors db))))
      (Some (dc_doctor_name doctor)) (Some (dc_mobile doctor))
      (Some (dc_email doctor)) (Some (dc_address doctor))
      (Some (dc_specialization doctor)) (Some (dc_status doctor))
      (Some 1) (Some 5) None in
  let mobile_taken :=
    exists d, In d (doctors db) /\ Doctor.mobile d = Some (dc_mobile doctor) in
  let email_taken :=
    exists d, In d (doctors db) /\ Doctor.email d = Some (dc_email doctor) in
  let mobile_exists :=
    exception 400 "Mobile number already exists. Please use a different number." in
  let email_exists :=
    exception 400 "Email already exists. Please use a different email." in
  (mobile_taken -> ~ email_taken ->
     outcome = (Raise mobile_exists, mkSession db [])) /\
  (~ mobile_taken -> email_taken ->
     outcome = (Raise email_exists, mkSession db [])) /\
  (mobile_taken -> email_taken ->
     outcome
     = (Raise (if doctors_email_first toy_platform then email_exists
               else mobile_exists),
        mkSession db [])) /\
  (~ mobile_taken -> ~ email_taken ->
     outcome
     = (Ok (ADoctor row),
        mkSession
          (mkStore (clinics db) (doctors db ++ [row]) (patients db)
             (patients_consultations db) (users db))
          [])).
Proof.
  apply (create_doctor_outcome toy_platform 5 1 _ two_patients).
  - split; [intros r [<-|[]]; discriminate | repeat constructor; intros []].
  - eexists. split; [left; reflexivity | reflexivity].
Defined.

(** Both taken, at an example: the new doctor has the mobile number and
    the e-mail address of doctor 1, and the answer depends on the
    database file. *)
Example create_doctor_both_taken (email_first : bool) :
  fst (create_doctor
         {| eksblowfish := eksblowfish toy_platform;
            bcrypt_rejects_long := true;
            sqlite_foreign_keys := false;
            doctors_email_first := email_first |}
         5 1
         (Build_DoctorCreate "Devi" "9000000001" "rao@example.org"
            "Hyderabad" "Eye" "active")
         (mkSession two_patients []))
  = Raise (exception 400
             (if email_first
              then "Email already exists. Please use a different email."
              else "Mobile number already exists. Please use a different number.")).
Proof. destruct email_first; reflexivity. Qed.

(** X7: a doctor that [create_doctor] returned belongs to the clinic of
    the path and is the one [get_doctor_by_id] returns for that clinic
    and its key. *)
Theorem create_then_get_doctor (platform : Platform) (now clinic_id : Z)
    (doctor : DoctorCreate) (db : Store) (e : entity) (s' : Session) :
  create_doctor platform now clinic_id doctor (mkSession db []) = (Ok e, s') ->
  exists row doctor_id,
    e = ADoctor row /\
    Doctor.doctor_id row = Some doctor_id /\
    Doctor.clinic_id row = Some clinic_id /\
    doctors (database s') = doctors db ++ [row] /\
    get_doctor_by_id clinic_id doctor_id s' = (Ok row, s').
Proof.
  intros H. unfold create_doctor, clinic_by_id in H.
  run_in H; try discriminate. injection H as <- <-.
  match goal with E : flush_one _ _ _ _ _ = Ok _ |- _ =>
    cbn [flush_one insert] in E; bind_inv E; injection E as <- <- end.
  do 2 eexists. split; [reflexivity |]. split; [reflexivity |].
  split; [reflexivity |]. split; [reflexivity |].
  unfold get_doctor_by_id, clinic_by_id, doctor_in_clinic. session_steps.
  cbn [clinics].
  match goal with E : first _ (clinics db) = Some _ |- _ => rewrite E end.
  session_steps. cbn [doctors].
  rewrite first_snoc_fresh; [reflexivity | |].
  - intros x Hx. rewrite (fresh_key_misses Doctor.doctor_id _ _ Hx).
    apply andb_false_r.
  - apply andb_true_intro. split; now apply eqv_true.
Qed.

Lemma create_then_get_doctor_witness :
  exists row doctor_id,
    ADoctor (Doctor.mk (Some 1) (Some "Devi") (Some "9000000002")
               (Some "devi@example.org") (Some "Hyderabad") (Some "Eye")
               (Some "active") (Some 1) (Some 5) None)
    = ADoctor row /\
    Doctor.doctor_id row = Some doctor_id /\
    Doctor.clinic_id row = Some 1 /\
    doctors (database
               (mkSession
                  (mkStore (clinics one_clinic)
                     [Doctor.mk (Some 1) (Some "Devi") (Some "9000000002")
                        (Some "devi@example.org") (Some "Hyderabad")
                        (Some "Eye") (Some "active") (Some 1) (Some 5) None]
                     [] [] [])
                  []))
    = doctors one_clinic ++ [row] /\
    get_doctor_by_id 1 doctor_id
      (mkSession
         (mkStore (clinics one_clinic)
            [Doctor.mk (Some 1) (Some "Devi") (Some "9000000002")
               (Some "devi@example.org") (Some "Hyderabad") (Some "Eye")
               (Some "active") (Some 1) (Some 5) None]
            [] [] [])
         [])
    = (Ok row,
       mkSession
         (mkStore (clinics one_clinic)
            [Doctor.mk (Some 1) (Some "Devi") (Some "9000000002")
               (Some "devi@example.org") (Some "Hyderabad") (Some "Eye")
               (Some "active") (Some 1) (Some 5) None]
            [] [] [])
         []).
Proof.
  apply (create_then_get_doctor toy_platform 5 1
           (Build_DoctorCreate "Devi" "9000000002" "devi@example.org"
              "Hyderabad" "Eye" "active")
           one_clinic).
  reflexivity.
Defined.

(** X8: a patient that [create_patient] returned belongs to the clinic
    of the path, names the doctor of the request, who was a doctor of
    that clinic when the patient was created, and is the one the
    single-patient route returns for that clinic and its key. *)
Theorem create_then_get_patient (platform : Platform) (now clinic_id : Z)
    (patient : PatientCreate) (db : Store) (e : entity) (s' : Session) :
  create_patient platform now clinic_id patient (mkSession db []) = (Ok e, s') ->
  exists row patient_id,
    e = APatient row /\
    Patient.patient_id row = Some patient_id /\
    Patient.clinic_id row = Some clinic_id /\
    Patient.doctor_id row = Some (pc_doctor_id patient) /\
    (exists d, In d (doctors db) /\
               Doctor.doctor_id d = Some (pc_doctor_id patient) /\
               Doctor.clinic_id d = Some clinic_id) /\
    patients (database s') = patients db ++ [row] /\
    get_patients_by_clinic' clinic_id patient_id s' = (Ok row, s').
Proof.
  intros H. unfold create_patient, clinic_by_id in H.
  run_in H; try discriminate. injection H as <- <-.
  match goal with E : flush_one _ _ _ _ _ = Ok _ |- _ =>
    cbn [flush_one insert] in E; bind_inv E; injection E as <- <- end.
  do 2 eexists. split; [reflexivity |]. split; [reflexivity |].
  split; [reflexivity |]. split; [reflexivity |]. split.
  { match goal with E : first _ (doctors db) = Some _ |- _ =>
      apply first_Some in E as [Hin Hp]; apply andb_prop in Hp as [Hi Hc] end.
    apply eqv_true in Hi. apply eqv_true in Hc. eauto. }
  split; [reflexivity |].
  unfold get_patients_by_clinic', clinic_by_id, patient_in_clinic.
  session_steps. cbn [clinics].
  match goal with E : first _ (clinics db) = Some _ |- _ => rewrite E end.
  session_steps. cbn [patients].
  rewrite first_snoc_fresh; [reflexivity | |].
  - intros x Hx. rewrite (fresh_key_misses Patient.patient_id _ _ Hx).
    apply andb_false_r.
  - apply andb_true_intro. split; now apply eqv_true.
Qed.

Lemma create_then_get_patient_witness :
  let row0 :=
    Patient.mk (Some 3) (Some "Kiran") (Some "9333333333") (Some 52)
      (Some "M") (Some "active") (Some 1) (Some 1) (Some "Rao") (Some 5) None in
  let s0 :=
    mkSession
      (mkStore (clinics two_patients) (doctors two_patients)
         (patients two_patients ++ [row0]) [] [])
      [] in
  exists row patient_id,
    APatient row0 = APatient row /\
    Patient.patient_id row = Some patient_id /\
    Patient.clinic_id row = Some 1 /\
    Patient.doctor_id row = Some (pc_doctor_id kiran) /\
    (exists d, In d (doctors two_patients) /\
               Doctor.doctor_id d = Some (pc_doctor_id kiran) /\
               Doctor.clinic_id d = Some 1) /\
    patients (database s0) = patients two_patients ++ [row] /\
    get_patients_by_clinic' 1 patient_id s0 = (Ok row, s0).
Proof.
  intros row0 s0.
  apply (create_then_get_patient toy_platform 5 1 kiran two_patients).
  reflexivity.
Defined.

(** ** Deleting doctors and patients *)

Lemma first_ext {A} (p q : A -> bool) (rows : list A) :
  (forall x, p x = q x) -> first p rows = first q rows.
Proof.
  intros H. unfold first. induction rows as [|r rows IH]; simpl;
    [reflexivity |].
  now rewrite H, IH.
Qed.

(** X9: in any database [delete_doctor] succeeds exactly when the clinic
    exists, the doctor is found in it, and no patient and no consultation
    names the doctor; it then removes the rows with the doctor's key and
    nothing else.  When a patient or a consultation names a doctor that is
    found, the call fails with 400 and leaves the session as it was. *)
Theorem delete_doctor_iff (platform : Platform) (now clinic_id doctor_id : Z)
    (db : Store) :
  let outcome :=
    delete_doctor platform now clinic_id doctor_id (mkSession db []) in
  (fst outcome = Ok tt <->
     clinic_exists db clinic_id /\
     (exists d, doctor_of_clinic db clinic_id doctor_id = Some d) /\
     no_patients_of_doctor db doctor_id /\
     no_consultations_of_doctor db doctor_id) /\
  (fst outcome = Ok tt ->
     snd outcome
     = mkSession
         (mkStore (clinics db)
            (others Doctor.doctor_id (Some doctor_id) (doctors db))
            (patients db) (patients_consultations db) (users db))
         []) /\
  (clinic_exists db clinic_id ->
   (exists d, doctor_of_clinic db clinic_id doctor_id = Some d) ->
   ~ (no_patients_of_doctor db doctor_id
      /\ no_consultations_of_doctor db doctor_id) ->
     snd outcome = mkSession db [] /\
     exists detail, fst outcome = Raise (exception 400 detail)).
Proof.
  intros outcome.
  assert (Hlookup : forall d,
    doctor_of_clinic db clinic_id doctor_id = d ->
    first (fun d => eqv (Doctor.clinic_id d) clinic_id
                    && eqv (Doctor.doctor_id d) doctor_id) (doctors db) = d).
  { intros d <-. unfold doctor_of_clinic. apply first_ext.
    intros x. apply andb_comm. }
  assert (Hsucceeds :
    clinic_exists db clinic_id ->
    (exists d, doctor_of_clinic db clinic_id doctor_id = Some d) ->
    no_patients_of_doctor db doctor_id ->
    no_consultations_of_doctor db doctor_id ->
    outcome
    = (Ok tt,
       mkSession
         (mkStore (clinics db)
            (others Doctor.doctor_id (Some doctor_id) (doctors db))
            (patients db) (patients_consultations db) (users db))
         [])).
  { intros Hex [d Hd] Hnp Hnc. apply clinic_by_id_found in Hex as [c Hfound].
    apply Hlookup in Hd.
    pose proof (first_Some _ _ _ Hd) as [Hin Hid].
    apply andb_prop in Hid as [_ Hid]. apply eqv_true in Hid.
    subst outcome. unfold delete_doctor, clinic_by_id, doctor_in_clinic.
    session_steps. rewrite Hfound. session_steps. rewrite Hd. session_steps.
    replace (0 <? count _ (patients db)) with false
      by (symmetry; apply count_none; intros p Hp; apply eqv_false; auto).
    session_steps.
    replace (0 <? count _ (patients_consultations db)) with false
      by (symmetry; apply count_none; intros k Hk; apply eqv_false; auto).
    session_steps. rewrite flush_single. cbn [flush_one delete]. rewrite Hid.
    rewrite !no_children_pass; [reflexivity | |].
    - intros p Hp. auto.
    - intros k Hk. auto. }
  assert (Honly : fst outcome = Ok tt ->
    clinic_exists db clinic_id /\
    (exists d, doctor_of_clinic db clinic_id doctor_id = Some d) /\
    no_patients_of_doctor db doctor_id /\
    no_consultations_of_doctor db doctor_id).
  { intros Hok. subst outcome.
    destruct (delete_doctor _ _ _ _ _) as [res s'] eqn:H. cbn [fst] in Hok.
    subst res.
    unfold delete_doctor, clinic_by_id, doctor_in_clinic in H.
    run_in H; try discriminate.
    all: split; [apply clinic_by_id_found; eauto |].
    all: split;
      [eexists; unfold doctor_of_clinic;
       erewrite first_ext; [eassumption | intros x; apply andb_comm] |].
    all: split; intros x Hx; apply eqv_false;
      match goal with
      | E : (0 <? count _ ?rows) = false, Hx : In _ ?rows |- _ =>
          rewrite count_none in E; now apply E
      end. }
  split; [split |split].
  - exact Honly.
  - intros (Hex & Hd & Hnp & Hnc). now rewrite Hsucceeds.
  - intros Hok. destruct (Honly Hok) as (Hex & Hd & Hnp & Hnc).
    now rewrite Hsucceeds.
  - intros Hex [d Hd] Hdep. apply clinic_by_id_found in Hex as [c Hfound].
    apply Hlookup in Hd.
    subst outcome. unfold delete_doctor, clinic_by_id, doctor_in_clinic.
    session_steps. rewrite Hfound. session_steps. rewrite Hd. session_steps.
    destruct (0 <? count _ (patients db)) eqn:Ep.
    + cbn [fst snd]. split; [reflexivity | eexists; reflexivity].
    + session_steps.
      destruct (0 <? count _ (patients_consultations db)) eqn:Ec.
      * cbn [fst snd]. split; [reflexivity | eexists; reflexivity].
      * exfalso. apply Hdep. rewrite count_none in Ep. rewrite count_none in Ec.
        split; intros x Hx; apply eqv_false; auto.
Qed.

(** X10: [delete_patient] looks for the clinic in the patients table:
    for a clinic id that is an integer of SQLite and a clinic without
    patients it answers 404 "Clinic id N does not exist", whether or not
    the clinic exists, and writes nothing. *)
Theorem delete_patient_needs_a_patient (platform : Platform)
    (now clinic_id patient_id : Z) (s : Session) :
  sqlite_integer clinic_id ->
  no_patients (database s) clinic_id ->
  delete_patient platform now clinic_id patient_id s
  = (Raise (exception 404
              ("Clinic id " +:+ pretty clinic_id +:+ " does not exist")),
     s).
Proof.
  intros _ Hnone. unfold delete_patient. session_steps.
  replace (first _ _) with (@None Patient.row); [reflexivity |].
  symmetry. apply first_None. intros p Hp. apply eqv_false. now apply Hnone.
Qed.

Lemma delete_patient_needs_a_patient_witness :
  clinic_exists one_clinic 1 /\
  delete_patient toy_platform 0 1 1 (mkSession one_clinic [])
  = (Raise (exception 404 ("Clinic id " +:+ pretty 1 +:+ " does not exist")),
     mkSession one_clinic []).
Proof.
  split; [eexists; split; [left; reflexivity | reflexivity] |].
  apply (delete_patient_needs_a_patient toy_platform 0 1 1
           (mkSession one_clinic [])).
  - unfold sqlite_integer. lia.
  - intros p [].
Defined.

(** X11: when the patient is found in the clinic and no consultation
    names it, [delete_patient] removes the rows with the patient's key and
    nothing else. *)
Theorem delete_patient_removes_row (platform : Platform)
    (now clinic_id patient_id : Z) (db : Store) (p : Patient.row) :
  patient_of_clinic db clinic_id patient_id = Some p ->
  no_consultations_of_patient db patient_id ->
  delete_patient platform now clinic_id patient_id (mkSession db [])
  = (Ok tt,
     mkSession
       (mkStore (clinics db) (doctors db)
          (others Patient.patient_id (Some patient_id) (patients db))
          (patients_consultations db) (users db))
       []).
Proof.
  intros Hp Hnone. unfold patient_of_clinic in Hp.
  rewrite (first_ext _ (fun p => eqv (Patient.clinic_id p) clinic_id
                                 && eqv (Patient.patient_id p) patient_id))
    in Hp by (intros x; apply andb_comm).
  pose proof (first_Some _ _ _ Hp) as [Hin Hid].
  apply andb_prop in Hid as [Hcl Hid]. apply eqv_true in Hid.
  unfold delete_patient, patient_in_clinic. session_steps.
  destruct (first (fun p => eqv (Patient.clinic_id p) clinic_id) (patients db))
    as [q|] eqn:Hq.
  - session_steps. rewrite Hp. session_steps. rewrite flush_single.
    cbn [flush_one delete]. rewrite Hid.
    rewrite no_children_pass by (intros k Hk; auto). reflexivity.
  - rewrite first_None in Hq. rewrite (Hq p Hin) in Hcl. discriminate.
Qed.

Lemma delete_patient_removes_row_witness :
  delete_patient toy_platform 0 1 2 (mkSession two_patients [])
  = (Ok tt,
     mkSession
       (mkStore (clinics two_patients) (doctors two_patients)
          (others Patient.patient_id (Some 2) (patients two_patients))
          (patients_consultations two_patients) (users two_patients))
       []).
Proof.
  eapply (delete_patient_removes_row toy_platform 0 1 2 two_patients).
  - reflexivity.
  - intros k [].
Defined.

(** ** Updates *)

Lemma first_by_key {R} (key : R -> option Z) (rows : list R) (r : R) :
  keyed key rows -> In r rows ->
  first (fun x => bool_decide (key x = key r)) rows = Some r.
Proof.
  intros [_ Hnd] Hin.
  destruct (first _ rows) as [x|] eqn:E.
  - apply first_Some in E as [Hx Hk]. apply bool_decide_eq_true in Hk.
    f_equal. eapply NoDup_key_unique; eauto.
  - rewrite first_None in E. specialize (E r Hin).
    now rewrite bool_decide_eq_true_2 in E.
Qed.

(** X12: an update request that sets no field changes nothing: in a
    reachable database [update_clinic], [update_doctor] and
    [update_patient] return the row they found and leave the database and
    the row's [updated_at] as they were. *)
Theorem empty_update_changes_nothing (platform : Platform)
    (now clinic_id : Z) (db : Store) :
  reachable platform db ->
  (forall c,
     first (fun c => eqv (Clinic.clinic_id c) clinic_id) (clinics db) = Some c ->
     update_clinic platform now clinic_id no_clinic_update (mkSession db [])
     = (Ok (AClinic c), mkSession db [])) /\
  (forall doctor_id d,
     clinic_exists db clinic_id ->
     doctor_of_clinic db clinic_id doctor_id = Some d ->
     update_doctor platform now clinic_id doctor_id no_doctor_update
       (mkSession db [])
     = (Ok (ADoctor d), mkSession db [])) /\
  (forall patient_id p,
     clinic_exists db clinic_id ->
     patient_of_clinic db clinic_id patient_id = Some p ->
     update_patient platform now clinic_id patient_id no_patient_update
       (mkSession db [])
     = (Ok (APatient p), mkSession db [])).
Proof.
  intros Hreach. pose proof (reachable_schema _ _ Hreach) as Hok.
  repeat split.
  - intros c Hc. pose proof (first_Some _ _ _ Hc) as [Hin _].
    unfold update_clinic, clinic_by_id. session_steps. rewrite Hc.
    session_steps. rewrite flush_single. cbn [flush_one update setattr
      no_clinic_update cu_clinic_name cu_address cu_mobile cu_status
      Clinic.clinic_id].
    rewrite (first_by_key Clinic.clinic_id _ c (ok_clinic_keys _ Hok) Hin).
    destruct c. cbn. rewrite bool_decide_eq_true_2 by reflexivity.
    reflexivity.
  - intros doctor_id d Hex Hd. apply clinic_by_id_found in Hex as [c Hc].
    unfold doctor_of_clinic in Hd.
    rewrite (first_ext _ (fun d => eqv (Doctor.clinic_id d) clinic_id
                                   && eqv (Doctor.doctor_id d) doctor_id))
      in Hd by (intros x; apply andb_comm).
    pose proof (first_Some _ _ _ Hd) as [Hin _].
    unfold update_doctor, clinic_by_id, doctor_in_clinic. session_steps.
    rewrite Hc. session_steps. rewrite Hd. session_steps.
    rewrite flush_single. cbn [flush_one update setattr no_doctor_update
      du_doctor_name du_mobile du_email du_address du_specialization
      du_status Doctor.doctor_id].
    rewrite (first_by_key Doctor.doctor_id _ d (ok_doctor_keys _ Hok) Hin).
    destruct d. cbn. rewrite bool_decide_eq_true_2 by reflexivity.
    reflexivity.
  - intros patient_id p Hex Hp. apply clinic_by_id_found in Hex as [c Hc].
    unfold patient_of_clinic in Hp.
    rewrite (first_ext _ (fun p => eqv (Patient.clinic_id p) clinic_id
                                   && eqv (Patient.patient_id p) patient_id))
      in Hp by (intros x; apply andb_comm).
    pose proof (first_Some _ _ _ Hp) as [Hin _].
    unfold update_patient, clinic_by_id, patient_in_clinic. session_steps.
    rewrite Hc. session_steps. rewrite Hp. session_steps.
    rewrite flush_single. cbn [flush_one update setattr no_patient_update
      pu_patient_name pu_mobile pu_age pu_gender pu_status pu_doctor_id
      pu_doctor_name Patient.patient_id].
    rewrite (first_by_key Patient.patient_id _ p (ok_patient_keys _ Hok) Hin).
    destruct p. cbn. rewrite bool_decide_eq_true_2 by reflexivity.
    reflexivity.
Qed.

Lemma empty_update_changes_nothing_witness :
  let db := snd (serve toy_platform 0 (CreateClinic apollo) empty_store) in
  update_clinic toy_platform 9 1 no_clinic_update (mkSession db [])
  = (Ok (AClinic
           (Clinic.mk (Some 1) (Some "Apollo") (Some "Hyderabad")
              (Some "9876543210") (Some "active") (Some 0) None)),
     mkSession db []).
Proof.
  intros db.
  refine (proj1 (empty_update_changes_nothing toy_platform 9 1 db _) _ _).
  - apply reachable_serve, reachable_empty.
  - reflexivity.
Defined.

(** X13: setting the mobile number of a clinic to null is refused, but
    as a duplicate: in a reachable database an update of an existing
    clinic with [mobile = null] (and a name that is not null) raises 400
    "Mobile number already exists. Please use a different number." and
    writes nothing. *)
Theorem null_mobile_reported_as_duplicate (platform : Platform)
    (now clinic_id : Z) (db : Store) (u : ClinicUpdate) (c : Clinic.row) :
  reachable platform db ->
  first (fun c => eqv (Clinic.clinic_id c) clinic_id) (clinics db) = Some c ->
  cu_mobile u = Some None ->
  cu_clinic_name u <> Some None ->
  update_clinic platform now clinic_id u (mkSession db [])
  = (Raise (exception 400
              "Mobile number already exists. Please use a different number."),
     mkSession db []).
Proof.
  intros Hreach Hc Hmobile Hname.
  pose proof (reachable_schema _ _ Hreach) as Hok.
  pose proof (first_Some _ _ _ Hc) as [Hin _].
  pose proof (ok_clinic_name _ Hok c Hin) as Hcn.
  pose proof (ok_clinic_mobile _ Hok c Hin) as Hcm.
  unfold update_clinic, clinic_by_id. session_steps. rewrite Hc.
  session_steps. rewrite flush_single. cbn [flush_one update Clinic.clinic_id].
  rewrite (first_by_key Clinic.clinic_id _ c (ok_clinic_keys _ Hok) Hin).
  rewrite Hmobile. cbn [setattr].
  rewrite bool_decide_eq_false_2
    by (intros Heq; apply Hcm; rewrite <- Heq; reflexivity).
  unfold check_clinic. cbn [Clinic.clinic_name Clinic.mobile].
  assert (Hn : exists n, setattr (Clinic.clinic_name c) (cu_clinic_name u) = Some n).
  { destruct (cu_clinic_name u) as [[n|]|]; cbn; [eauto | congruence |].
    destruct (Clinic.clinic_name c); [eauto | congruence]. }
  destruct Hn as [n ->]. reflexivity.
Qed.

Lemma null_mobile_reported_as_duplicate_witness :
  let db := snd (serve toy_platform 0 (CreateClinic apollo) empty_store) in
  update_clinic toy_platform 9 1
    {| cu_clinic_name := None; cu_address := None; cu_mobile := Some None;
       cu_status := None |}
    (mkSession db [])
  = (Raise (exception 400
              "Mobile number already exists. Please use a different number."),
     mkSession db []).
Proof.
  intros db.
  eapply (null_mobile_reported_as_duplicate toy_platform 9 1 db).
  - apply reachable_serve, reachable_empty.
  - reflexivity.
  - reflexivity.
  - discriminate.
Defined.

(** X14: without foreign keys in force (the setting of [database.py]),
    [update_patient] accepts any doctor for a patient: in a reachable
    database the update that sets only [doctor_id] succeeds for every
    value that is an integer of SQLite, whether or not such a doctor
    exists or works at the clinic, and the stored row then names that
    doctor. *)
Theorem update_patient_takes_any_doctor (platform : Platform)
    (now clinic_id patient_id doctor_id : Z) (db : Store) (p : Patient.row) :
  sqlite_integer doctor_id ->
  sqlite_foreign_keys platform = false ->
  reachable platform db ->
  clinic_exists db clinic_id ->
  patient_of_clinic db clinic_id patient_id = Some p ->
  exists row db',
    update_patient platform now clinic_id patient_id
      (set_patient_doctor doctor_id) (mkSession db [])
    = (Ok (APatient row), mkSession db' []) /\
    In row (patients db') /\
    Patient.patient_id row = Some patient_id /\
    Patient.doctor_id row = Some doctor_id.
Proof.
  intros _ Hfk Hreach Hex Hp.
  pose proof (reachable_schema _ _ Hreach) as Hok.
  apply clinic_by_id_found in Hex as [c Hc].
  unfold patient_of_clinic in Hp.
  rewrite (first_ext _ (fun p => eqv (Patient.clinic_id p) clinic_id
                                 && eqv (Patient.patient_id p) patient_id))
    in Hp by (intros x; apply andb_comm).
  pose proof (first_Some _ _ _ Hp) as [Hin Hid].
  apply andb_prop in Hid as [_ Hid]. apply eqv_true in Hid.
  unfold update_patient, clinic_by_id, patient_in_clinic. session_steps.
  rewrite Hc. session_steps. rewrite Hp. session_steps.
  rewrite flush_single.
  cbn [flush_one update setattr set_patient_doctor pu_patient_name pu_mobile
         pu_age pu_gender pu_status pu_doctor_id pu_doctor_name
         Patient.patient_id].
  rewrite (first_by_key Patient.patient_id _ p (ok_patient_keys _ Hok) Hin).
  case_bool_decide as Hsame.
  - do 2 eexists. split; [reflexivity |]. rewrite Hsame.
    split; [assumption |]. split; [assumption |]. rewrite <- Hsame. reflexivity.
  - unfold check_patient.
    cbn [Patient.patient_name Patient.mobile Patient.clinic_id
           Patient.doctor_id Patient.doctor_name Patient.patient_id].
    destruct (Patient.patient_name p) eqn:E1;
      [|now destruct (ok_patient_name _ Hok p Hin)].
    destruct (Patient.mobile p) as [mobile|] eqn:E2;
      [|now destruct (ok_patient_mobile _ Hok p Hin)].
    destruct (Patient.clinic_id p) eqn:E3;
      [|now destruct (ok_patient_clinic _ Hok p Hin)].
    destruct (Patient.doctor_name p) eqn:E4;
      [|now destruct (ok_patient_doctor_name _ Hok p Hin)].
    cbn [not_null mbind result_bind].
    rewrite unique_pass.
    + unfold references. rewrite Hfk. cbn [andb mbind result_bind].
      do 2 eexists. split; [reflexivity |]. cbn [patients].
      split; [|split; [exact Hid | reflexivity]].
      apply replace_In_new. cbn [Patient.patient_id]. now apply in_map.
    + intros x Hx _ Hm. apply In_others in Hx as [Hx Hk].
      apply Hk. f_equal.
      apply (ok_patient_mobiles _ Hok x p Hx Hin); congruence.
Qed.

Lemma update_patient_takes_any_doctor_witness :
  let db :=
    snd (serve toy_platform 2 (CreatePatient 1 kiran)
      (snd (serve toy_platform 1
         (CreateDoctor 1
            (Build_DoctorCreate "Rao" "9000000001" "rao@example.org"
               "Hyderabad" "ENT" "active"))
         (snd (serve toy_platform 0 (CreateClinic apollo) empty_store))))) in
  exists row db',
    update_patient toy_platform 3 1 1 (set_patient_doctor 77) (mkSession db [])
    = (Ok (APatient row), mkSession db' []) /\
    In row (patients db') /\
    Patient.patient_id row = Some 1 /\
    Patient.doctor_id row = Some 77.
Proof.
  intros db.
  eapply (update_patient_takes_any_doctor toy_platform 3 1 1 77 db).
  - unfold sqlite_integer. lia.
  - reflexivity.
  - repeat apply reachable_serve. apply reachable_empty.
  - eexists. split; [left; reflexivity | reflexivity].
  - reflexivity.
Defined.

(** ** Tokens *)





(** A token anyone can make, the key being in the source: the expiry is
    [null], and [verify_token] ends in [TypeError]. *)
Example null_expiry_not_caught :
  verify_token 0
    (Jose.Compact "HS256"
       {[ "sub" := Jose.JStr "alice"; "exp" := Jose.JNull ]}
       (Jose.HMAC "HS256" SECRET_KEY
          {[ "sub" := Jose.JStr "alice"; "exp" := Jose.JNull ]}))
  = Raise (TypeError
      "int() argument must be a string, a bytes-like object or a real number, not 'NoneType'").
Proof. vm_compute. reflexivity. Qed.

(** A token with a forged signature, at an example. *)
Example forged_token_refused :
  verify_token 0
    (Jose.Compact "HS256" {[ "sub" := Jose.JStr "alice" ]}
       (Jose.HMAC "HS256" "guess" {[ "sub" := Jose.JStr "alice" ]}))
  = Raise credentials_exception.
Proof. vm_compute. reflexivity. Qed.

Lemma encoded_lookup (claims : gmap string Jose.pyval) (k : string) :
  map_imap Jose.to_json claims !! k = claims !! k ≫= Jose.to_json k.
Proof. apply map_lookup_imap. Qed.

(** X16: a token that [create_access_token] issues is signed with the
    application's key under HS256; its expiry is the one computed from the
    clock and the ttl, whatever [exp] the caller put into [data]; every
    other claim of [data] is carried over, a [datetime] under [iat] or
    [nbf] as whole seconds. *)
Theorem create_access_token_payload (utcnow : Z)
    (data : gmap string Jose.pyval) (expires_delta : option Z)
    (token : Jose.token) :
  create_access_token utcnow data expires_delta = Ok token ->
  exists payload,
    token = Jose.Compact ALGORITHM payload
              (Jose.HMAC ALGORITHM SECRET_KEY payload) /\
    payload !! "exp"
    = Some (Jose.JInt
              (Jose.timegm
                 (utcnow + (if truthy expires_delta
                            then default 0 expires_delta else minutes 15)))) /\
    (forall k, k <> "exp" -> payload !! k = data !! k ≫= Jose.to_json k).
Proof.
  unfold create_access_token. intros H.
  apply bind_Ok in H as (expire & Hexpire & H). unfold Jose.encode in H.
  destruct (Jose.serialisable _); [|discriminate]. injection H as <-.
  assert (Hval : expire = utcnow + (if truthy expires_delta
                                    then default 0 expires_delta
                                    else minutes 15)).
  { destruct (truthy expires_delta);
      now apply TokenFacts.datetime_add_value in Hexpire. }
  subst expire.
  eexists. split; [reflexivity |]. split.
  - now rewrite encoded_lookup, lookup_insert_eq.
  - intros k Hk. rewrite encoded_lookup. now rewrite lookup_insert_ne.
Qed.

Lemma create_access_token_payload_witness :
  exists token payload,
    create_access_token 1700000000000000
      {[ "sub" := Jose.PStr "alice"; "exp" := Jose.PInt 0 ]} None = Ok token /\
    token = Jose.Compact ALGORITHM payload
              (Jose.HMAC ALGORITHM SECRET_KEY payload) /\
    payload !! "exp"
    = Some (Jose.JInt (Jose.timegm (1700000000000000 + minutes 15))) /\
    (forall k, k <> "exp" ->
       payload !! k
       = ({[ "sub" := Jose.PStr "alice"; "exp" := Jose.PInt 0 ]}
            : gmap string Jose.pyval) !! k ≫= Jose.to_json k).
Proof.
  assert (Hok : exists token,
    create_access_token 1700000000000000
      {[ "sub" := Jose.PStr "alice"; "exp" := Jose.PInt 0 ]} None = Ok token).
  { eexists. vm_compute. reflexivity. }
  destruct Hok as [token Hok]. exists token.
  destruct (create_access_token_payload _ _ _ _ Hok) as (payload & H1 & H2 & H3).
  exists payload. auto.
Defined.

(** ** The earlier module against [auth.py] *)

(** X17: the earlier authentication module and [auth.py] resolve a token
    to the same user: one returns a user exactly when the other does, the
    same row, and neither touches the session. *)
Theorem legacy_resolves_same_user (now : Z) (token : Jose.token) (s : Session) :
  snd (Legacy.get_current_user now token s) = s /\
  snd (get_current_user now token s) = s /\
  forall user,
    fst (Legacy.get_current_user now token s) = Ok user <->
    fst (get_current_user now token s) = Ok user.
Proof.
  unfold Legacy.get_current_user, get_current_user, Legacy.verify_token,
    verify_token, bind, lift, db_query, raise, abort, ret.
  destruct (Jose.decode now token SECRET_KEY [ALGORITHM]) as [payload|err];
    cbn [fst snd];
    [|destruct err; cbn [fst snd];
      repeat split; first [reflexivity | intros Hx; discriminate Hx]].
  destruct (Jose.get payload "sub") as [sub|] eqn:Hsub; cbn [fst snd];
    [|repeat split; first [reflexivity | intros Hx; discriminate Hx]].
  rewrite ?Hsub.
  replace (mjoin (_ !! "username")) with (Some sub)
    by (now rewrite lookup_insert_eq).
  destruct (first _ _) as [u|]; cbn [fst snd];
    [|repeat split; first [reflexivity | intros Hx; discriminate Hx]].
  destruct (negb _); cbn [fst snd];
    repeat split;
    first [reflexivity | intros Hx; first [discriminate Hx | exact Hx]].
Qed.

(** ** Registration *)

Lemma hash_password_verifies platform entropy password h :
  hash_password platform entropy password = Ok h ->
  verify_password platform password h = Ok true.
Proof.
  intros H.
  destruct (bcrypt_rejects_long platform && (72 <? String.length password)%nat)
    eqn:Hlong.
  - unfold hash_password, Bcrypt.hashpw in H. rewrite Hlong in H.
    discriminate H.
  - rewrite hash_password_value in H by exact Hlong. injection H as <-.
    rewrite verify_password_value by exact Hlong.
    now rewrite bool_decide_eq_true_2.
Qed.

Lemma issued_token_verifies (t : Z) (subject role : string)
    (token : Jose.token) :
  create_access_token t (identity subject role) None = Ok token ->
  exists payload,
    token = Jose.Compact ALGORITHM payload
              (Jose.HMAC ALGORITHM SECRET_KEY payload) /\
    verify_token t token = Ok payload /\
    payload !! "sub" = Some (Jose.JStr subject).
Proof.
  unfold create_access_token. cbn [truthy]. intros H.
  apply bind_Ok in H as (expire & Hexpire & H).
  apply TokenFacts.datetime_add_value in Hexpire. subst expire.
  unfold Jose.encode in H. rewrite TokenFacts.issued_serialisable in H.
  injection H as <-.
  eexists. split; [reflexivity |]. split.
  - rewrite TokenFacts.verify_token_signed
      with (subject := subject) (exp := Jose.timegm (t + minutes 15));
      try (rewrite TokenFacts.issued_payload_lookup; reflexivity).
    assert (Jose.timegm t <= Jose.timegm (t + minutes 15))
      by (apply TokenFacts.timegm_mono; unfold minutes; lia).
    destruct (Z.ltb_spec (Jose.timegm (t + minutes 15)) (Jose.timegm t));
      [lia | reflexivity].
  - rewrite TokenFacts.issued_payload_lookup. reflexivity.
Qed.

(** X18: after a successful [register_user] the new row is the last of
    the users table, carries the username and the e-mail address of the
    request, the role "user" and the active flag; its stored secret
    verifies the password of the request; and a token issued for the
    username resolves, through [get_current_user], to that very row. *)
Theorem registered_user_can_sign_in (platform : Platform) (now : Z)
    (entropy : list N) (user : UserCreate) (db : Store) (e : entity)
    (s' : Session) :
  register_user platform now entropy user (mkSession db []) = (Ok e, s') ->
  exists row secret,
    e = AUser row /\
    users (database s') = users db ++ [row] /\
    User.username row = Some (uc_username user) /\
    User.email row = Some (uc_email user) /\
    User.role row = Some "user" /\
    User.is_active row = Some true /\
    User.hashed_password row = Some secret /\
    verify_password platform (uc_password user) secret = Ok true /\
    forall t role token,
      create_access_token t (identity (uc_username user) role) None = Ok token ->
      get_current_user t token s' = (Ok row, s').
Proof.
  intros H.
  unfold register_user, register_user_checks, register_user_insert in H.
  run_in H; try discriminate. injection H as <- <-.
  match goal with E : flush_one _ _ _ _ _ = Ok _ |- _ =>
    cbn [flush_one insert] in E; bind_inv E; injection E as <- <- end.
  do 2 eexists. repeat (split; [reflexivity |]).
  split.
  { eapply hash_password_verifies. eassumption. }
  intros t role token Htok.
  destruct (issued_token_verifies t (uc_username user) role token Htok)
    as (payload & _ & Hverify & Hsub).
  unfold get_current_user. session_steps. rewrite Hverify. session_steps.
  unfold Jose.get. rewrite Hsub. cbn [users].
  rewrite first_snoc_fresh; [reflexivity | |].
  - match goal with
    | E : first (fun u => eqv (User.username u) _) _ = None |- _ =>
        exact (proj1 (first_None _ _) E)
    end.
  - cbn. now apply bool_decide_eq_true_2.
Qed.

Lemma registered_user_can_sign_in_witness :
  let outcome := register_user toy_platform 0 [] alice (mkSession empty_store []) in
  exists e row secret,
    fst outcome = Ok e /\
    e = AUser row /\
    users (database (snd outcome)) = users empty_store ++ [row] /\
    User.username row = Some (uc_username alice) /\
    User.email row = Some (uc_email alice) /\
    User.role row = Some "user" /\
    User.is_active row = Some true /\
    User.hashed_password row = Some secret /\
    verify_password toy_platform (uc_password alice) secret = Ok true /\
    forall t role token,
      create_access_token t (identity (uc_username alice) role) None = Ok token ->
      get_current_user t token (snd outcome) = (Ok row, snd outcome).
Proof.
  intros outcome.
  destruct outcome as [res s'] eqn:Hout.
  assert (Hres : exists e, res = Ok e).
  { subst outcome. vm_compute in Hout. injection Hout as <- _. eauto. }
  destruct Hres as [e ->]. exists e.
  destruct (registered_user_can_sign_in toy_platform 0 [] alice empty_store e s'
              Hout) as (row & secret & H).
  exists row, secret. split; [reflexivity | exact H].
Defined.

(** X19: [register_user] refuses a username that is taken with 400
    "Username already registered", whatever the e-mail address; with a
    free username it refuses an e-mail address that is taken with 400
    "Email already registered"; in both cases before anything is hashed
    or written. *)
Theorem register_user_duplicates (platform : Platform) (now : Z)
    (entropy : list N) (user : UserCreate) (s : Session) :
  ((exists u, In u (users (database s))
              /\ User.username u = Some (uc_username user)) ->
     register_user platform now entropy user s
     = (Raise (exception 400 "Username already registered"), s)) /\
  ((forall u, In u (users (database s)) ->
              User.username u <> Some (uc_username user)) ->
   (exists u, In u (users (database s))
              /\ User.email u = Some (uc_email user)) ->
     register_user platform now entropy user s
     = (Raise (exception 400 "Email already registered"), s)).
Proof.
  unfold register_user, register_user_checks. session_steps. split.
  - intros (u & Hin & Hu).
    destruct (first (fun u => eqv (User.username u) (uc_username user)) _)
      eqn:E; [reflexivity |].
    rewrite first_None in E. specialize (E u Hin).
    apply eqv_false in E. contradiction.
  - intros Hfree (u & Hin & Hu).
    replace (first (fun u => eqv (User.username u) (uc_username user)) _)
      with (@None User.row)
      by (symmetry; apply first_None; intros x Hx; apply eqv_false; auto).
    session_steps.
    destruct (first (fun u => eqv (User.email u) (uc_email user)) _)
      eqn:E; [reflexivity |].
    rewrite first_None in E. specialize (E u Hin).
    apply eqv_false in E. contradiction.
Qed.

(** X20: where the installed bcrypt refuses passwords longer than 72
    bytes, [register_user] answers such a password, for a username and an
    e-mail address that are free, with 500 "An unexpected error occurred:
    password cannot be longer than 72 bytes, ..." and stores nothing. *)
Theorem register_user_long_password (platform : Platform) (now : Z)
    (entropy : list N) (user : UserCreate) (db : Store) :
  bcrypt_rejects_long platform = true ->
  (72 < String.length (uc_password user))%nat ->
  (forall u, In u (users db) -> User.username u <> Some (uc_username user)) ->
  (forall u, In u (users db) -> User.email u <> Some (uc_email user)) ->
  register_user platform now entropy user (mkSession db [])
  = (Raise (exception 500
              "An unexpected error occurred: password cannot be longer than 72 bytes, truncate manually if necessary (e.g. my_password[:72])"),
     mkSession db []).
Proof.
  intros Hpol Hlen Hname Hemail.
  unfold register_user, register_user_checks, register_user_insert.
  session_steps.
  replace (first (fun u => eqv (User.username u) (uc_username user)) _)
    with (@None User.row)
    by (symmetry; apply first_None; intros x Hx; apply eqv_false; auto).
  session_steps.
  replace (first (fun u => eqv (User.email u) (uc_email user)) _)
    with (@None User.row)
    by (symmetry; apply first_None; intros x Hx; apply eqv_false; auto).
  session_steps.
  unfold hash_password, Bcrypt.hashpw. rewrite Hpol.
  replace (72 <? String.length (uc_password user))%nat with true
    by (symmetry; now apply Nat.ltb_lt).
  reflexivity.
Qed.

Lemma register_user_long_password_witness :
  register_user toy_platform 0 []
    {| uc_username := "alice"; uc_email := "alice@example.org";
       uc_full_name := None; uc_password := password73 "1" |}
    (mkSession empty_store [])
  = (Raise (exception 500
              "An unexpected error occurred: password cannot be longer than 72 bytes, truncate manually if necessary (e.g. my_password[:72])"),
     mkSession empty_store []).
Proof.
  apply (register_user_long_password toy_platform 0 [] _ empty_store).
  - reflexivity.
  - vm_compute. lia.
  - intros u [].
  - intros u [].
Defined.

(** ** What requests never do *)

Lemma flush_one_appends fk ef now db c db' e :
  allowed db c ->
  flush_one fk ef now db c = Ok (db', e) ->
  exists new_users new_consultations,
    users db' = users db ++ new_users /\
    patients_consultations db'
    = patients_consultations db ++ new_consultations.
Proof.
  intros Hal H.
  destruct c as [ent|ent|ent]; destruct ent as [r|r|r|r|r];
    cbn [flush_one insert update delete] in H; cbn [allowed] in Hal;
    try contradiction; unfold stale in H;
    repeat break_hyp H; try discriminate;
    bind_inv H; try (injection H as <- <-);
    cbn [users patients_consultations];
    first [ exists [], []; now rewrite !app_nil_r
          | eexists; exists []; split; [reflexivity | now rewrite app_nil_r]
          | exists []; eexists; split; [now rewrite app_nil_r | reflexivity] ].
Qed.

(** X21: no request removes or alters a user or a consultation: after
    any request the users table and the consultations table start with
    the rows they had before, in the same order. *)
Theorem users_and_consultations_only_grow (platform : Platform) (now : Z)
    (r : request) (db : Store) :
  exists new_users new_consultations,
    users (snd (serve platform now r db)) = users db ++ new_users /\
    patients_consultations (snd (serve platform now r db))
    = patients_consultations db ++ new_consultations.
Proof.
  destruct (serve_change platform now r db)
    as [->|(c & e & Hal & _ & Hflush)].
  - exists [], []. now rewrite !app_nil_r.
  - eapply flush_one_appends; eauto.
Qed.

(** X22: a listing that succeeds returns the rows of that clinic and no
    others: [get_doctors_by_clinic] returns exactly the doctors whose
    [clinic_id] is the clinic of the path, at least one, and
    [get_patients_by_clinic] exactly its patients; neither writes. *)
Theorem listings_are_exact (clinic_id : Z) (s s' : Session) :
  (forall found, get_doctors_by_clinic clinic_id s = (Ok found, s') ->
     s' = s /\ found <> [] /\
     forall d, In d found <->
               In d (doctors (database s)) /\ Doctor.clinic_id d = Some clinic_id) /\
  (forall found, get_patients_by_clinic clinic_id s = (Ok found, s') ->
     s' = s /\ found <> [] /\
     forall p, In p found <->
               In p (patients (database s))
               /\ Patient.clinic_id p = Some clinic_id).
Proof.
  split; intros found H.
  - unfold get_doctors_by_clinic, clinic_by_id in H. session_steps_in H.
    destruct (first _ _); [|discriminate].
    destruct (all _ _) as [|d0 rest] eqn:E; [discriminate |].
    injection H as <- <-. split; [reflexivity |]. split; [discriminate |].
    intros d. rewrite <- E. unfold all. rewrite filter_In, eqv_true.
    reflexivity.
  - unfold get_patients_by_clinic, clinic_by_id in H. session_steps_in H.
    destruct (first _ _); [|discriminate].
    destruct (all _ _) as [|p0 rest] eqn:E; [discriminate |].
    injection H as <- <-. split; [reflexivity |]. split; [discriminate |].
    intros p. rewrite <- E. unfold all. rewrite filter_In, eqv_true.
    reflexivity.
Qed.

(** ** Invariants of the application *)

(** X23: a request that fails with what its handler raised has
    committed nothing: whatever exception other than the validation
    error of the response one of the eleven writing requests ends with,
    the database after it is the database before it. *)
Theorem failed_request_commits_nothing (platform : Platform) (now : Z)
    (r : request) (db : Store) (e : exn) :
  fst (serve platform now r db) = Raise e ->
  (forall fields, e <> ResponseValidationError fields) ->
  snd (serve platform now r db) = db.
Proof. apply failed_request_keeps_database. Qed.

Lemma failed_request_commits_nothing_witness :
  snd (serve toy_platform 0 (UpdatePatient 1 2 (set_patient_mobile "9111111111"))
         two_patients)
  = two_patients.
Proof.
  apply (failed_request_commits_nothing toy_platform 0 _ two_patients
           (IntegrityError "UNIQUE constraint failed: patients.mobile")).
  - reflexivity.
  - discriminate.
Defined.

(** X24: every handler other than [update_patient] and [delete_patient]
    has rolled back when it raises: started on a fresh session, it leaves
    a session without pending changes on the database it found. *)
Theorem handlers_with_try_roll_back (platform : Platform) (now : Z)
    (r : request) (db : Store) (e : exn) (s' : Session) :
  guarded r = true ->
  handle platform now r (mkSession db []) = (Raise e, s') ->
  s' = mkSession db [].
Proof. apply guarded_failure_rolls_back. Qed.

Lemma handlers_with_try_roll_back_witness :
  snd (handle toy_platform 0 (CreateClinic apollo) (mkSession one_clinic []))
  = mkSession one_clinic [].
Proof.
  apply (handlers_with_try_roll_back toy_platform 0 (CreateClinic apollo)
           one_clinic
           (exception 400
              "Mobile number already exists. Please use a different number.")).
  - reflexivity.
  - reflexivity.
Defined.

(** X25: in every database the application reaches by serving requests
    one after the other, each doctor and each patient belongs to a clinic
    that exists, every consultation names a doctor of its own clinic, and
    doctors have distinct keys. *)
Theorem reachable_references_hold (platform : Platform) (db : Store) :
  reachable platform db -> consistent db.
Proof. apply reachable_consistent. Qed.

Lemma reachable_references_hold_witness :
  consistent (snd (serve toy_platform 0 (CreateClinic apollo) empty_store)).
Proof.
  apply (reachable_references_hold toy_platform).
  apply reachable_serve, reachable_empty.
Defined.

(** X26: served one after the other, registrations never store a
    username twice: in every reachable database the usernames of the
    users table are pairwise distinct. *)
Theorem sequential_usernames_distinct (platform : Platform) (db : Store) :
  reachable platform db -> List.NoDup (map User.username (users db)).
Proof. apply reachable_usernames_unique. Qed.

Lemma sequential_usernames_distinct_witness :
  List.NoDup
    (map User.username
       (users (snd (serve toy_platform 0 (RegisterUser [] alice) empty_store)))).
Proof.
  apply (sequential_usernames_distinct toy_platform).
  apply reachable_serve, reachable_empty.
Defined.

(** ** Failures and responses *)

(** X27: whatever one of the eleven handlers raises, started on a fresh
    session it leaves the session as it found it, the database unchanged
    and no change held back.  This includes [update_patient] and
    [delete_patient], which never call [rollback]: when the flush of
    [commit] fails, the session has rolled back by itself. *)
Theorem raising_handler_leaves_session (platform : Platform) (now : Z)
    (r : request) (db : Store) (e : exn) (s' : Session) :
  handle platform now r (mkSession db []) = (Raise e, s') ->
  s' = mkSession db [].
Proof. apply raising_handler_rolls_back. Qed.

Lemma raising_handler_leaves_session_witness :
  snd (handle toy_platform 0
         (UpdatePatient 1 2 (set_patient_mobile "9111111111"))
         (mkSession two_patients []))
  = mkSession two_patients [].
Proof.
  apply (raising_handler_leaves_session toy_platform 0
           (UpdatePatient 1 2 (set_patient_mobile "9111111111")) two_patients
           (IntegrityError "UNIQUE constraint failed: patients.mobile")).
  reflexivity.
Defined.

(** X28: what the handler of a request that creates or deletes a row
    returns always passes the response model of its route: when the
    handler returns, the request succeeds, with the database the handler
    committed.  Only the three update routes can fail in the validation
    of their response. *)
Theorem created_rows_pass_validation (platform : Platform) (now : Z)
    (r : request) (db : Store) (body : option entity) (s' : Session) :
  updates r = false ->
  endpoint platform now r (mkSession db []) = (Ok body, s') ->
  serve platform now r db = (Ok tt, database s').
Proof.
  intros Hu H.
  pose proof (serve_outcome platform now r db) as Hs. rewrite H in Hs.
  rewrite Hs. f_equal.
  destruct r; try discriminate Hu; cbn [endpoint] in H;
    unfold returning in H; unfold_handlers H.
  all: run_in H; try discriminate.
  all: injection H as <- <-; try reflexivity.
  all: match goal with E : flush_one _ _ _ _ _ = Ok _ |- _ =>
         cbn [flush_one insert] in E; bind_inv E; injection E as <- <- end.
  all: reflexivity.
Qed.

Lemma created_rows_pass_validation_witness :
  serve toy_platform 0 (CreateClinic apollo) empty_store
  = (Ok tt, database (mkSession one_clinic [])).
Proof.
  apply (created_rows_pass_validation toy_platform 0 (CreateClinic apollo)
           empty_store
           (Some (AClinic (Clinic.mk (Some 1) (Some "Apollo") (Some "Hyderabad")
                             (Some "9876543210") (Some "active") (Some 0)
                             None)))).
  - reflexivity.
  - reflexivity.
Defined.
